(** * Daily-Health-Care: risk routing and reminder synchronisation

    A shallow embedding of [routing_engine.py], [reminder_module.py],
    [reminder_sync.py], [mqtt_payload.py], the event, chat and retrieval
    interface of [system_memory.py] and the monitor of
    [user_sensors.py], followed by the properties of the risk
    evaluator, the care macros, the route dispatcher, the reminder
    store, the synchroniser, the outgoing payload, the short-term
    memory and the sensor monitor.

    Conventions.
    - A Python number is an [int] or a finite [float]; both are read
      through their rational value when compared (no NaN, no infinity).
    - A dictionary lookup [d.get(k)] that may yield [None] is an
      [option]; a key that is present holds a value of its declared type.
    - An instant ([datetime]) is a number of microseconds since the epoch;
      [timedelta] arithmetic is addition on that number.  The database
      and the wire hold instants as texts, as the code does.
    - Code that raises lives in the monad [M]: the world is threaded
      through and survives an exception, as Python objects and committed
      SQLite transactions do.
    - The answers of the collaborators (vector store, chat model, MQTT
      client) and the functions of the Python runtime are parameters. *)

From Stdlib Require Import ZArith QArith String Ascii List Lia DecimalString.
From stdpp Require Import base gmap strings list fin_maps sorting.

Open Scope string_scope.
Open Scope list_scope.
Open Scope Z_scope.

(** ** Python numbers *)

Module Py.

Inductive num : Type :=
| PyInt (z : Z)
| PyFloat (q : Q).

Definition value (x : num) : Q :=
  match x with
  | PyInt z => inject_Z z
  | PyFloat q => q
  end.

(** [bool(x)]: a number is falsy exactly when it equals zero. *)
Definition truthy (x : num) : bool := negb (Qeq_bool (value x) 0).

(** [x >= c], [x <= c] and [x < c] against an integer literal. *)
Definition ge (x : num) (c : Z) : bool := Qle_bool (inject_Z c) (value x).
Definition le (x : num) (c : Z) : bool := Qle_bool (value x) (inject_Z c).
Definition lt (x : num) (c : Z) : bool := negb (Qle_bool (inject_Z c) (value x)).

(** [o and test(o)] for an optional number [o = d.get(k)]. *)
Definition guarded (o : option num) (test : num -> bool) : bool :=
  match o with
  | Some x => truthy x && test x
  | None => false
  end.

End Py.

Export Py (num, PyInt, PyFloat).

(** ** State snapshot (the [state] dictionary) *)

Record Weather : Type := {
  temperature : option num;
  humidity : option num;
  warnings : option (list string);
}.

Record Vitals : Type := {
  heart_rate : option num;
  steps : option num;
  sleep : option num;
}.

Record State : Type := {
  user_id : option string;
  timestamp : option string;
  weather : option Weather;
  vitals : option Vitals;
  notes : option string;
}.

(** [state.get("weather", {})] and [state.get("vitals", {})]. *)
Definition no_weather : Weather :=
  {| temperature := None; humidity := None; warnings := None |}.
Definition no_vitals : Vitals :=
  {| heart_rate := None; steps := None; sleep := None |}.

Definition get_weather (state : State) : Weather := default no_weather (weather state).
Definition get_vitals (state : State) : Vitals := default no_vitals (vitals state).

(** [weather.get("warnings", [])]. *)
Definition get_warnings (w : Weather) : list string := default [] (warnings w).

(** [code in warnings]. *)
Definition has_warning (code : string) (ws : list string) : bool :=
  bool_decide (code ∈ ws).

(** [config.DEFAULT_USER_ID]. *)
Definition DEFAULT_USER_ID : string := "user_001".

Definition get_user_id (state : State) : string := default DEFAULT_USER_ID (user_id state).

(** ** Python runtime functions the code relies on

    These come from the Python runtime, not from the repository; they are
    parameters of the development. *)

Class Runtime : Type := {
  (** [str(x)] of a float, as an f-string prints it *)
  str_float : Q -> string;
  (** [repr(s)] of a string *)
  repr_str : string -> string;
  (** [s.strip()] *)
  strip : string -> string;
  (** [json.dumps(state, ensure_ascii=False)] *)
  json_dumps : State -> string;
  (** [dt.isoformat()] of the instant [dt] *)
  isoformat : Z -> string;
  (** SQLite's [CURRENT_TIMESTAMP] text of an instant *)
  current_timestamp : Z -> string;
  (** the successive readings of the system clock ([datetime.utcnow()]) *)
  utc_clock : nat -> Z;
}.

(** [str(n)] of an integer: its decimal digits, with a sign when negative. *)
Definition str_int (n : Z) : string := NilZero.string_of_int (Z.to_int n).

(** [str(x)] of a number. *)
Definition str_num `{Runtime} (x : num) : string :=
  match x with
  | PyInt z => str_int z
  | PyFloat q => str_float q
  end.

(** [str(l)] of a list of strings. *)
Definition str_list `{Runtime} (l : list string) : string :=
  "[" +:+ String.concat ", " (List.map repr_str l) +:+ "]".

(** ** Risk evaluation ([RiskRouter.evaluate]) *)

Record RiskEvaluation : Type := {
  score : Z;
  level : string;
  reasons : list string;
}.

(** [score += pts; reasons.append(reason)]. *)
Definition fire (pts : Z) (reason : string) (acc : Z * list string) : Z * list string :=
  (fst acc + pts, snd acc ++ [reason]).

Section Evaluate.
Context `{Runtime}.

Definition evaluate (state : State) : RiskEvaluation :=
  let acc := (0, []) in
  let weather := get_weather state in
  let vitals := get_vitals state in
  let temp := temperature weather in
  let humidity := humidity weather in
  let warnings := get_warnings weather in
  let heart_rate := heart_rate vitals in
  let sleep := sleep vitals in
  let acc :=
    match temp with
    | Some t =>
        if Py.ge t 33 then fire 4 ("高温 " +:+ str_num t +:+ "°C") acc
        else if Py.ge t 30 then fire 2 ("偏高温度 " +:+ str_num t +:+ "°C") acc
        else if Py.le t 10 then fire 2 ("低温 " +:+ str_num t +:+ "°C") acc
        else acc
    | None => acc
    end in
  let acc :=
    match humidity with
    | Some h =>
        if Py.truthy h && Py.ge h 90 then fire 1 ("湿度 " +:+ str_num h +:+ "%") acc
        else acc
    | None => acc
    end in
  let acc :=
    if has_warning "WHOT" warnings || has_warning "WRAINB" warnings
    then fire 3 "天文台高危警告" acc
    else acc in
  let acc :=
    match heart_rate with
    | Some hr =>
        if Py.truthy hr && Py.ge hr 110 then fire 3 ("心率偏高 " +:+ str_num hr) acc
        else if Py.truthy hr && Py.le hr 50 then fire 2 ("心率偏低 " +:+ str_num hr) acc
        else acc
    | None => acc
    end in
  let acc :=
    match sleep with
    | Some s =>
        if Py.truthy s && Py.lt s 6 then fire 2 ("睡眠不足 " +:+ str_num s +:+ "h") acc
        else acc
    | None => acc
    end in
  let level :=
    if 7 <=? fst acc then "high"
    else if 4 <=? fst acc then "medium"
    else "low" in
  {| score := fst acc; level := level; reasons := snd acc |}.

End Evaluate.

(** ** The scoring table of the specification

    The table is data: groups of bands, read top to bottom.  Within a
    group only the first matching band applies; the groups add up.  The
    reason texts are those of the code (the specification fixes none).

    [bands false] is the table as the specification words it.
    [bands true] differs in two bands: a heart rate or a sleep duration of
    zero is handled like an absent reading (the guard [x and ...] of the
    code), so it never matches. *)

Module Table.
Section Table.
Context `{Runtime}.

Record band : Type := {
  applies : State -> bool;
  points : Z;
  reason : State -> string;
}.

Definition temp_of (st : State) : option num := temperature (get_weather st).
Definition humidity_of (st : State) : option num := humidity (get_weather st).
Definition heart_rate_of (st : State) : option num := heart_rate (get_vitals st).
Definition sleep_of (st : State) : option num := sleep (get_vitals st).
Definition steps_of (st : State) : option num := steps (get_vitals st).
Definition warnings_of (st : State) : list string := get_warnings (get_weather st).

(** A condition on an optional field: an absent field never matches. *)
Definition on (field : State -> option num) (test : num -> bool) (st : State) : bool :=
  from_option test false (field st).

(** The text of a reading, empty when the field is absent. *)
Definition shown (field : State -> option num) (st : State) : string :=
  from_option str_num "" (field st).

(** [zero_absent] selects the reading of a zero heart rate or sleep. *)
Definition counts (zero_absent : bool) (x : num) : bool :=
  if zero_absent then Py.truthy x else true.

Definition hot : band :=
  {| applies := on temp_of (fun t => Py.ge t 33);
     points := 4;
     reason := fun st => "高温 " +:+ shown temp_of st +:+ "°C" |}.
Definition warm : band :=
  {| applies := on temp_of (fun t => Py.ge t 30 && Py.lt t 33);
     points := 2;
     reason := fun st => "偏高温度 " +:+ shown temp_of st +:+ "°C" |}.
Definition cold : band :=
  {| applies := on temp_of (fun t => Py.le t 10);
     points := 2;
     reason := fun st => "低温 " +:+ shown temp_of st +:+ "°C" |}.
Definition humid : band :=
  {| applies := on humidity_of (fun h => Py.ge h 90);
     points := 1;
     reason := fun st => "湿度 " +:+ shown humidity_of st +:+ "%" |}.
Definition warned : band :=
  {| applies := fun st => has_warning "WHOT" (warnings_of st)
                          || has_warning "WRAINB" (warnings_of st);
     points := 3;
     reason := fun _ => "天文台高危警告" |}.
Definition fast_heart : band :=
  {| applies := on heart_rate_of (fun hr => Py.ge hr 110);
     points := 3;
     reason := fun st => "心率偏高 " +:+ shown heart_rate_of st |}.
Definition slow_heart (zero_absent : bool) : band :=
  {| applies := on heart_rate_of (fun hr => counts zero_absent hr && Py.le hr 50);
     points := 2;
     reason := fun st => "心率偏低 " +:+ shown heart_rate_of st |}.
Definition short_sleep (zero_absent : bool) : band :=
  {| applies := on sleep_of (fun s => counts zero_absent s && Py.lt s 6);
     points := 2;
     reason := fun st => "睡眠不足 " +:+ shown sleep_of st +:+ "h" |}.

Definition bands (zero_absent : bool) : list (list band) :=
  [ [hot; warm; cold];
    [humid];
    [warned];
    [fast_heart; slow_heart zero_absent];
    [short_sleep zero_absent] ].

Definition stated : list (list band) := bands false.
Definition as_coded : list (list band) := bands true.

Definition first_match (st : State) (group : list band) : option band :=
  List.find (fun b => applies b st) group.

Definition score_of (table : list (list band)) (st : State) : Z :=
  foldr (fun group total => from_option points 0 (first_match st group) + total) 0 table.

Definition reasons_of (table : list (list band)) (st : State) : list string :=
  concat (List.map (fun group => from_option (fun b => [reason b st]) [] (first_match st group)) table).

Definition level_of (s : Z) : string :=
  if decide (7 <= s) then "high"
  else if decide (4 <= s) then "medium"
  else "low".

End Table.
End Table.

(** ** Reminder records ([reminder_module.Reminder] and the [reminders] table) *)

(** The columns of a row of [reminders] other than its primary key. *)
Module ReminderRow.
Record t : Type := mk {
  user_id : string;
  content : string;
  severity : string;
  due_time : option string;
  repeat_rule : option string;
  status : string;
  tags : option string;
  created_at : string;
}.

(** [UPDATE reminders SET status = ?] on one row. *)
Definition set_status (s : string) (r : t) : t :=
  {| user_id := user_id r; content := content r; severity := severity r;
     due_time := due_time r; repeat_rule := repeat_rule r; status := s;
     tags := tags r; created_at := created_at r |}.
End ReminderRow.

(** The dataclass [Reminder]: the key [id] and the columns of its row. *)
Record Reminder : Type := {
  id : Z;
  cols : ReminderRow.t;
}.

(** The wire format of a sync event (a JSON object: any field may be
    missing or [null]). *)
Module Wire.
Record payload : Type := {
  id : option Z;
  user_id : option string;
  content : option string;
  severity : option string;
  due_time : option string;
  repeat_rule : option string;
  status : option string;
  tags : option string;
  created_at : option string;
  type : option string;
}.

(** The empty object [{}]. *)
Definition empty : payload :=
  {| id := None; user_id := None; content := None; severity := None;
     due_time := None; repeat_rule := None; status := None; tags := None;
     created_at := None; type := None |}.

Record message : Type := {
  event : option string;
  reminder : option payload;
  published_at : option string;
  source : option string;
}.
End Wire.

(** [Reminder.to_payload]: [asdict(self)] plus ["type": "reminder"]. *)
Definition to_payload (r : Reminder) : Wire.payload :=
  {| Wire.id := Some (id r);
     Wire.user_id := Some (ReminderRow.user_id (cols r));
     Wire.content := Some (ReminderRow.content (cols r));
     Wire.severity := Some (ReminderRow.severity (cols r));
     Wire.due_time := ReminderRow.due_time (cols r);
     Wire.repeat_rule := ReminderRow.repeat_rule (cols r);
     Wire.status := Some (ReminderRow.status (cols r));
     Wire.tags := ReminderRow.tags (cols r);
     Wire.created_at := Some (ReminderRow.created_at (cols r));
     Wire.type := Some "reminder" |}.

(** ** The SQLite store *)

Record Store : Type := {
  reminders : gmap Z ReminderRow.t;
  (** [sqlite_sequence.seq]: the largest row id [AUTOINCREMENT] ever gave. *)
  sqlite_sequence : Z;
}.

Definition max_rowid (m : gmap Z ReminderRow.t) : Z :=
  map_fold (fun i _ acc => Z.max i acc) 0 m.

(** The row id [AUTOINCREMENT] gives to the next inserted row. *)
Definition next_rowid (s : Store) : Z :=
  Z.max (sqlite_sequence s) (max_rowid (reminders s)) + 1.

(** [SELECT * FROM reminders WHERE <cond>]. *)
Definition select_where (cond : ReminderRow.t -> bool) (s : Store) : list (Z * ReminderRow.t) :=
  List.filter (fun ir => cond (snd ir)) (map_to_list (reminders s)).

(** ** Short-term memory documents ([langchain_core.documents.Document]) *)

Inductive meta : Type :=
| MStr (s : string)
| MInt (z : Z)
| MNum (q : Q).

Record Document : Type := {
  page_content : string;
  metadata : gmap string meta;
}.

(** ** Exceptions, the world and the monad of effectful code *)

Inductive exn : Type :=
| TypeError (msg : string)
| ExternalError (msg : string).

(** [str(exc)]. *)
Definition exn_text (e : exn) : string :=
  match e with
  | TypeError msg => msg
  | ExternalError msg => msg
  end.

Inductive outcome (A : Type) : Type :=
| Return (a : A)
| Raise (e : exn).
Arguments Return {A} a.
Arguments Raise {A} e.

Record World : Type := {
  (** the reminders database *)
  db : Store;
  (** the documents held by the short-term memory's vector store *)
  timeline : list Document;
  (** the messages the MQTT client accepted for the reminder topic *)
  outbox : list Wire.message;
  (** how many times the clock has been read *)
  ticks : nat;
}.

Definition set_db (s : Store) (w : World) : World :=
  {| db := s; timeline := timeline w; outbox := outbox w; ticks := ticks w |}.
Definition set_timeline (t : list Document) (w : World) : World :=
  {| db := db w; timeline := t; outbox := outbox w; ticks := ticks w |}.
Definition set_outbox (o : list Wire.message) (w : World) : World :=
  {| db := db w; timeline := timeline w; outbox := o; ticks := ticks w |}.
Definition set_ticks (n : nat) (w : World) : World :=
  {| db := db w; timeline := timeline w; outbox := outbox w; ticks := n |}.

(** A computation runs from a world to a world and returns or raises.
    The world reached when an exception is raised is kept. *)
Definition M (A : Type) : Type := World -> World * outcome A.

#[global] Instance M_ret : MRet M := fun A a w => (w, Return a).
#[global] Instance M_bind : MBind M := fun A B f m w =>
  match m w with
  | (w', Return a) => f a w'
  | (w', Raise e) => (w', Raise e)
  end.

Definition raise {A : Type} (e : exn) : M A := fun w => (w, Raise e).

(** [try: body  except Exception as exc: handler(exc)]. *)
Definition try_except {A : Type} (body : M A) (handler : exn -> M A) : M A := fun w =>
  match body w with
  | (w', Return a) => (w', Return a)
  | (w', Raise e) => handler e w'
  end.

(** [for x in l: body(x)]. *)
Fixpoint for_each {A : Type} (body : A -> M unit) (l : list A) : M unit :=
  match l with
  | [] => mret tt
  | x :: rest => body x ;; for_each body rest
  end.

(** The answer of a collaborator, as a computation. *)
Definition lift {A : Type} (o : outcome A) : M A := fun w => (w, o).

Definition get_world : M World := fun w => (w, Return w).
Definition modify (f : World -> World) : M unit := fun w => (f w, Return tt).

(** ** External collaborators

    A collaborator's answer is a parameter: it returns or raises, as a
    function of what it is sent and of the memory it reads. *)

(** [long_memory.RetrievedContext]. *)
Record RetrievedContext : Type := {
  knowledge_snippets : list Document;
  short_term_memory : list Document;
  user_profile : option string;
}.

(** The prompt variables sent to the chat model ([payload] of [_run_rag_path]). *)
Record RagPayload : Type := {
  rag_state : string;
  rag_knowledge : string;
  rag_short_term : string;
  rag_profile : string;
}.

(** What the chain returns: an object with a [content] attribute, or
    anything else, read through [str]. *)
Inductive Response : Type :=
| WithContent (content : string)
| Other (str : string).

(** How a write to the vector store ends: the document is stored, or the
    write raises, with the document kept or not. *)
Inductive add_result : Type :=
| Added
| AddFailed (kept : bool) (e : exn).

Class Collaborators : Type := {
  (** [SystemMemoryManager._add_documents] on the current timeline *)
  add_documents_result : list Document -> Document -> add_result;
  (** [MultiLayerMemory.retrieve(state, user_id=...)] *)
  retrieve : State -> string -> list Document -> outcome RetrievedContext;
  (** [(rag_prompt | llm).invoke(payload)] *)
  llm_invoke : RagPayload -> outcome Response;
  (** [client.publish(topic, json.dumps(payload))]: the exception it raises, if any *)
  mqtt_publish_error : Wire.message -> option exn;
}.

(** Time spans in microseconds ([timedelta]). *)
Definition seconds (n : Z) : Z := n * 1000000.
Definition minutes (n : Z) : Z := seconds (n * 60).
Definition hours (n : Z) : Z := minutes (n * 60).
Definition days (n : Z) : Z := hours (n * 24).

(** [dt.replace(hour=h, minute=0, second=0, microsecond=0)]. *)
Definition replace_hour (dt : Z) (h : Z) : Z := dt - dt mod days 1 + hours h.

(** [x or y] on optional strings: the empty string is falsy. *)
Definition str_or (x : option string) (y : string) : string :=
  match x with
  | Some s => if String.eqb s "" then y else s
  | None => y
  end.

(** ["\n".join(parts)]. *)
Definition join_lines (parts : list string) : string := String.concat (String "010" "") parts.

Section Program.
Context `{Runtime} `{Collaborators}.

(** [datetime.utcnow()]. *)
Definition utcnow : M Z := fun w =>
  (set_ticks (S (ticks w)) w, Return (utc_clock (ticks w))).

(** *** [SystemMemoryManager] *)

Definition _add_documents (document : Document) : M unit := fun w =>
  match add_documents_result (timeline w) document with
  | Added => (set_timeline (timeline w ++ [document]) w, Return tt)
  | AddFailed true e => (set_timeline (timeline w ++ [document]) w, Raise e)
  | AddFailed false e => (w, Raise e)
  end.

Definition add_event (user_id content event_type : string) (importance : Q)
    (extra : gmap string meta) : M unit :=
  now ← utcnow;
  let metadata : gmap string meta :=
    {[ "user_id" := MStr user_id;
       "event_type" := MStr event_type;
       "importance" := MNum importance;
       "created_at" := MStr (isoformat now) ]} in
  let metadata := extra ∪ metadata in
  let document := {| page_content := content; metadata := metadata |} in
  _add_documents document.

Definition log_reminder_event (user_id : string) (reminder_id : Z) (status : string)
    (note : option string) : M unit :=
  let content := "Reminder " +:+ str_int reminder_id +:+ " status => " +:+ status in
  let content :=
    match note with
    | Some n => if String.eqb n "" then content else content +:+ ": " +:+ n
    | None => content
    end in
  add_event user_id content "reminder_event"
    (if bool_decide (status ∈ ["ignored"; "overdue"]) then 1.5 else 1.0)%Q
    {[ "reminder_id" := MInt reminder_id; "status" := MStr status ]}.

(** *** [ReminderMQTTPublisher] *)

Record ReminderMQTTPublisher : Type := {
  topic : string;
  source : string;
  available : bool;
}.

Definition client_publish (msg : Wire.message) : M unit := fun w =>
  match mqtt_publish_error msg with
  | Some e => (w, Raise e)
  | None => (set_outbox (outbox w ++ [msg]) w, Return tt)
  end.

Definition publish (self : ReminderMQTTPublisher) (reminder : Reminder) (event : string)
    : M unit :=
  if negb (available self) then mret tt
  else
    now ← utcnow;
    let payload :=
      {| Wire.event := Some event;
         Wire.reminder := Some (to_payload reminder);
         Wire.published_at := Some (isoformat now);
         Wire.source := Some (source self) |} in
    try_except (client_publish payload) (fun _ => mret tt).

(** *** [ReminderManager] *)

Record ReminderManager : Type := {
  (** [None] when the manager was built with [enable_mqtt=False] *)
  publisher : option ReminderMQTTPublisher;
}.

(** [Reminder.from_row(row)] on the result of [fetchone()]: subscripting
    [None] raises [TypeError]. *)
Definition from_row (i : Z) (row : option ReminderRow.t) : M Reminder :=
  match row with
  | Some r => mret {| id := i; cols := r |}
  | None => raise (TypeError "'NoneType' object is not subscriptable")
  end.

(** The [due_time] argument of [create_reminder]: a [datetime] or a text. *)
Inductive due_arg : Type :=
| AtInstant (dt : Z)
| AsText (s : string).

Definition create_reminder (self : ReminderManager) (content : string)
    (user_id : string) (severity : string) (due_time : option due_arg)
    (repeat_rule : option string) (tags : option (list string)) : M Reminder :=
  let due_str :=
    match due_time with
    | Some (AtInstant dt) => Some (isoformat dt)
    | Some (AsText s) => Some s
    | None => None
    end in
  let tag_str :=
    match tags with
    | Some (t :: ts) => Some (String.concat "," (t :: ts))
    | _ => None
    end in
  stamp ← utcnow;
  w ← get_world;
  let reminder_id := next_rowid (db w) in
  let inserted :=
    {| ReminderRow.user_id := user_id; ReminderRow.content := content; ReminderRow.severity := severity;
       ReminderRow.due_time := due_str; ReminderRow.repeat_rule := repeat_rule;
       ReminderRow.status := "pending"; ReminderRow.tags := tag_str;
       ReminderRow.created_at := current_timestamp stamp |} in
  modify (set_db {| reminders := <[reminder_id := inserted]> (reminders (db w));
                    sqlite_sequence := reminder_id |}) ;;
  w ← get_world;
  reminder ← from_row reminder_id (reminders (db w) !! reminder_id);
  log_reminder_event user_id (id reminder) "created" (Some content) ;;
  match publisher self with
  | Some p => publish p reminder "created"
  | None => mret tt
  end ;;
  mret reminder.

Definition update_status (self : ReminderManager) (reminder_id : Z) (status : string)
    (note : option string) (user_id : string) (propagate_mqtt : bool) : M Reminder :=
  modify (fun w => set_db {| reminders := alter (ReminderRow.set_status status) reminder_id
                                                (reminders (db w));
                             sqlite_sequence := sqlite_sequence (db w) |} w) ;;
  w ← get_world;
  reminder ← from_row reminder_id (reminders (db w) !! reminder_id);
  log_reminder_event user_id reminder_id status note ;;
  match publisher self with
  | Some p => if propagate_mqtt then publish p reminder status else mret tt
  | None => mret tt
  end ;;
  mret reminder.

(** The [WHERE] clause of the sweep:
    [status = 'pending' AND due_time IS NOT NULL AND due_time <= ?],
    a comparison of texts. *)
Definition is_due (iso_now : string) (r : ReminderRow.t) : bool :=
  String.eqb (ReminderRow.status r) "pending"
  && match ReminderRow.due_time r with
     | Some d => String.leb d iso_now
     | None => false
     end.

Definition trigger_due_reminders (self : ReminderManager) (now : option Z)
    : M (list Reminder) :=
  now ← match now with
        | Some t => mret t
        | None => utcnow
        end;
  let iso_now := isoformat now in
  w ← get_world;
  let rows := select_where (is_due iso_now) (db w) in
  let reminders := List.map (fun ir => {| id := fst ir; cols := snd ir |}) rows in
  for_each (fun reminder =>
              update_status self (id reminder) "triggered" None
                (ReminderRow.user_id (cols reminder)) true ;; mret tt) reminders ;;
  mret reminders.

Definition get_reminders_by_ids (ids : list Z) : M (list Reminder) :=
  match ids with
  | [] => mret []
  | _ =>
      w ← get_world;
      mret (List.map (fun ir => {| id := fst ir; cols := snd ir |})
              (List.filter (fun ir => bool_decide (fst ir ∈ ids))
                 (map_to_list (reminders (db w)))))
  end.

End Program.

(** ** [routing_engine.py] *)

(** What a macro returns: its sentence and the reminders it created. *)
Record Macro : Type := {
  macro_message : string;
  macro_reminders : list Reminder;
}.

Inductive Evidence : Type :=
| PromptContext (payload : RagPayload)
| Reasons (reasons : list string).

(** The dictionary a route returns.  [reminder_ids] is present on the
    macro path only, [evidence] on the other two. *)
Module RouteResult.
Record t : Type := mk {
  route : string;
  risk_level : string;
  message : string;
  reminder_ids : option (list Z);
  evidence : option Evidence;
}.
End RouteResult.

Section Routing.
Context `{Runtime} `{Collaborators}.

(** *** [CareMacroEngine] *)

Definition _heat_macro (self : ReminderManager) (user_id : string) : M Macro :=
  now ← utcnow;
  r1 ← create_reminder self "未来 1 小时内补水 500ml，并避免正午外出"
         user_id "high" (Some (AtInstant (now + minutes 30))) None
         (Some ["heat"; "hydration"]);
  r2 ← create_reminder self "联系家属确认状态，如持续不适请求医"
         user_id "high" (Some (AtInstant (now + hours 1))) None
         (Some ["family"; "safety"]);
  let reminders := [r1; r2] in
  let message :=
    "🌡️ 检测到高温高危场景，已生成补水与家属联络提醒，请立即执行，并保持凉爽。" in
  mret {| macro_message := message; macro_reminders := reminders |}.

Definition _sleep_macro (self : ReminderManager) (user_id : string) : M Macro :=
  now ← utcnow;
  let evening := replace_hour now 22 in
  let evening := if evening <=? now then evening + days 1 else evening in
  r1 ← create_reminder self "今晚 22:00 前完成放松活动（如听音乐/伸展），准备早睡"
         user_id "medium" (Some (AtInstant evening)) None
         (Some ["sleep"; "routine"]);
  r2 ← create_reminder self "记录今晚睡眠时长与感受，明早确认"
         user_id "low" (Some (AtInstant (now + hours 12))) None
         (Some ["sleep"; "tracking"]);
  let reminders := [r1; r2] in
  let message := "😴 连续睡眠不足，系统已安排睡眠改善提醒，请按时执行。" in
  mret {| macro_message := message; macro_reminders := reminders |}.

(** The two conditions of [CareMacroEngine.run]. *)
Definition heat_condition (state : State) : bool :=
  let weather := get_weather state in
  Py.guarded (temperature weather) (fun t => Py.ge t 33)
  || has_warning "WHOT" (get_warnings weather).

Definition sleep_condition (state : State) : bool :=
  Py.guarded (sleep (get_vitals state)) (fun s => Py.lt s 6).

Definition caution_macro : Macro :=
  {| macro_message := "检测到风险升高，请保持警惕并及时查看提醒任务。";
     macro_reminders := [] |}.

Definition run (self : ReminderManager) (evaluation : RiskEvaluation) (state : State)
    : M RouteResult.t :=
  let macros : list Macro := [] in
  let user_id := get_user_id state in
  macros ← (if heat_condition state
            then m ← _heat_macro self user_id; mret (macros ++ [m])
            else mret macros);
  macros ← (if sleep_condition state
            then m ← _sleep_macro self user_id; mret (macros ++ [m])
            else mret macros);
  let macros :=
    match macros with
    | [] => macros ++ [caution_macro]
    | _ => macros
    end in
  let final_message := join_lines (List.map macro_message macros) in
  let reminder_ids := List.map id (List.concat (List.map macro_reminders macros)) in
  mret {| RouteResult.route := "macro";
          RouteResult.risk_level := level evaluation;
          RouteResult.message := final_message;
          RouteResult.reminder_ids := Some reminder_ids;
          RouteResult.evidence := None |}.

(** *** [RiskRouter] *)

(** [text or "无"]. *)
Definition or_none (text : string) : string :=
  if String.eqb text "" then "无" else text.

Definition _run_rag_path (evaluation : RiskEvaluation) (state : State) : M RouteResult.t :=
  w ← get_world;
  context ← lift (retrieve state (get_user_id state) (timeline w));
  let payload :=
    {| rag_state := json_dumps state;
       rag_knowledge := or_none (join_lines (List.map page_content (knowledge_snippets context)));
       rag_short_term := or_none (join_lines (List.map page_content (short_term_memory context)));
       rag_profile := str_or (user_profile context) "无" |} in
  message ← try_except
              (response ← lift (llm_invoke payload);
               mret match response with
                    | WithContent content => content
                    | Other str => str
                    end)
              (fun exc => mret ("无法调用模型，改为规则输出。原因: " +:+ exn_text exc));
  mret {| RouteResult.route := "rag";
          RouteResult.risk_level := level evaluation;
          RouteResult.message := strip message;
          RouteResult.reminder_ids := None;
          RouteResult.evidence := Some (PromptContext payload) |}.

Definition _run_template_path (evaluation : RiskEvaluation) (state : State) : RouteResult.t :=
  let weather := get_weather state in
  let vitals := get_vitals state in
  let message :=
    match warnings weather with
    | None | Some [] => "今日状态平稳，继续保持规律作息和补水。"
    | Some (_ :: _) => "出现轻微天气波动，请留意系统提醒。"
    end in
  let message :=
    if Py.guarded (steps vitals) (fun s => Py.lt s 3000)
    then message +:+ " 适量活动可帮助维持心肺功能。"
    else message in
  {| RouteResult.route := "template";
     RouteResult.risk_level := level evaluation;
     RouteResult.message := message;
     RouteResult.reminder_ids := None;
     RouteResult.evidence := Some (Reasons (reasons evaluation)) |}.

Definition dispatch (self : ReminderManager) (evaluation : RiskEvaluation) (state : State)
    : M RouteResult.t :=
  if String.eqb (level evaluation) "high" then run self evaluation state
  else if String.eqb (level evaluation) "medium" then _run_rag_path evaluation state
  else mret (_run_template_path evaluation state).

Definition route (self : ReminderManager) (state : State) : M RouteResult.t :=
  let evaluation := evaluate state in
  let user_id := get_user_id state in
  add_event user_id
    ("Routing request level=" +:+ level evaluation +:+ " reasons="
     +:+ str_list (reasons evaluation))
    "routing_request" 1.2%Q {[ "level" := MStr (level evaluation) ]} ;;
  result ← dispatch self evaluation state;
  add_event user_id
    ("Routing result via " +:+ RouteResult.route result +:+ ": " +:+ RouteResult.message result)
    "routing_result" 1.0%Q ∅ ;;
  mret result.

(** ** [reminder_sync.py] *)

Record ReminderSync : Type := {
  manager : ReminderManager;
  source_id : string;
}.

(** [event in {"completed", "ignored", "pending", "triggered"}]. *)
Definition status_events : list string := ["completed"; "ignored"; "pending"; "triggered"].

(** [_on_message]: [decoded] is the JSON payload of the message, or
    [None] when the bytes do not decode. *)
Definition _on_message (self : ReminderSync) (decoded : option Wire.message) : M unit :=
  match decoded with
  | None => mret tt
  | Some payload =>
      if bool_decide (Wire.source payload = Some (source_id self)) then mret tt
      else
        let event := Wire.event payload in
        let reminder := default Wire.empty (Wire.reminder payload) in
        let reminder_id := Wire.id reminder in
        let user_id := str_or (Wire.user_id reminder) DEFAULT_USER_ID in
        match event, reminder_id with
        | Some ev, Some rid =>
            let status := str_or (Wire.status reminder) ev in
            if bool_decide (ev ∈ status_events) && negb (rid =? 0)
            then try_except
                   (update_status (manager self) rid status None user_id false ;; mret tt)
                   (fun _ => mret tt)
            else mret tt
        | _, _ => mret tt
        end
  end.

End Routing.

(** ** Calendar datetimes and their ISO texts

    A naive [datetime] as Python holds it: seven calendar fields,
    compared field by field, and printed by [isoformat] with fixed
    widths. *)

Module Datetime.

Record t : Type := {
  year : Z;
  month : Z;
  day : Z;
  hour : Z;
  minute : Z;
  second : Z;
  microsecond : Z;
}.

(** The ranges the constructor of [datetime] enforces. *)
Definition valid (d : t) : Prop :=
  1 <= year d <= 9999 /\ 1 <= month d <= 12 /\ 1 <= day d <= 31
  /\ 0 <= hour d < 24 /\ 0 <= minute d < 60 /\ 0 <= second d < 60
  /\ 0 <= microsecond d < 1000000.

(** Comparison of tuples: the first field that differs decides. *)
Definition lex (c1 c2 : comparison) : comparison :=
  match c1 with
  | Eq => c2
  | _ => c1
  end.

Definition compare (a b : t) : comparison :=
  lex (year a ?= year b)
    (lex (month a ?= month b)
       (lex (day a ?= day b)
          (lex (hour a ?= hour b)
             (lex (minute a ?= minute b)
                (lex (second a ?= second b) (microsecond a ?= microsecond b)))))).

(** [a <= b] on datetimes. *)
Definition le (a b : t) : Prop := compare a b <> Gt.

(** The decimal digit [n] as a character. *)
Definition digit (n : Z) : ascii := ascii_of_nat (48 + Z.to_nat n).

(** The last [width] decimal digits of [n]: [n] padded with zeros on the
    left when it has fewer. *)
Fixpoint pad (width : nat) (n : Z) : string :=
  match width with
  | O => ""
  | S w => String (digit (n / 10 ^ Z.of_nat w mod 10)) (pad w n)
  end.

(** [.ffffff], left out when the microseconds are zero. *)
Definition fraction (micro : Z) : string :=
  if micro =? 0 then "" else "." +:+ pad 6 micro.

(** [YYYY-MM-DDTHH:MM:SS[.ffffff]]. *)
Definition isoformat (d : t) : string :=
  pad 4 (year d) +:+ "-" +:+ pad 2 (month d) +:+ "-" +:+ pad 2 (day d) +:+ "T"
  +:+ pad 2 (hour d) +:+ ":" +:+ pad 2 (minute d) +:+ ":" +:+ pad 2 (second d)
  +:+ fraction (microsecond d).

(** [YYYY-MM-DD HH:MM:SS], the text of SQLite's [CURRENT_TIMESTAMP]. *)
Definition sqlite_text (d : t) : string :=
  pad 4 (year d) +:+ "-" +:+ pad 2 (month d) +:+ "-" +:+ pad 2 (day d) +:+ " "
  +:+ pad 2 (hour d) +:+ ":" +:+ pad 2 (minute d) +:+ ":" +:+ pad 2 (second d).

End Datetime.

(** ** A reference runtime and reference collaborators

    Concrete instances, used to run the definitions on explicit inputs.
    Instants count microseconds from 1970-01-01T00:00:00. *)

Module Sample.

(** The civil date (year, month, day) of a day number counted from
    1970-01-01, in the proleptic Gregorian calendar. *)
Definition civil_from_days (z : Z) : Z * Z * Z :=
  let z := z + 719468 in
  let era := z / 146097 in
  let doe := z - era * 146097 in
  let yoe := (doe - doe / 1460 + doe / 36524 - doe / 146096) / 365 in
  let doy := doe - (365 * yoe + yoe / 4 - yoe / 100) in
  let mp := (5 * doy + 2) / 153 in
  let d := doy - (153 * mp + 2) / 5 + 1 in
  let m := if mp <? 10 then mp + 3 else mp - 9 in
  let y := yoe + era * 400 + (if m <=? 2 then 1 else 0) in
  (y, m, d).

(** The calendar fields of an instant. *)
Definition fields (dt : Z) : Datetime.t :=
  let '(y, m, d) := civil_from_days (dt / days 1) in
  let in_day := dt mod days 1 in
  {| Datetime.year := y; Datetime.month := m; Datetime.day := d;
     Datetime.hour := in_day / hours 1;
     Datetime.minute := in_day mod hours 1 / minutes 1;
     Datetime.second := in_day mod minutes 1 / seconds 1;
     Datetime.microsecond := in_day mod seconds 1 |}.

Definition iso_text (dt : Z) : string := Datetime.isoformat (fields dt).
Definition sqlite_text (dt : Z) : string := Datetime.sqlite_text (fields dt).

(** A float with at most six decimals, in decimal notation; any other
    rational as a fraction. *)
Fixpoint drop_zeros (s : string) : string :=
  match s with
  | "" => ""
  | String c rest =>
      let rest := drop_zeros rest in
      if String.eqb rest "" && Ascii.eqb c "0" then "" else String c rest
  end.

Definition float_text (q : Q) : string :=
  let q := Qred q in
  let d := Zpos (Qden q) in
  if 1000000 mod d =? 0 then
    let scaled := Z.abs (Qnum q) * (1000000 / d) in
    let decimals := drop_zeros (Datetime.pad 6 (scaled mod 1000000)) in
    (if Qnum q <? 0 then "-" else "") +:+ str_int (scaled / 1000000) +:+ "."
    +:+ (if String.eqb decimals "" then "0" else decimals)
  else str_int (Qnum q) +:+ "/" +:+ str_int d.

(** Removal of leading and trailing ASCII white space. *)
Definition is_space (c : ascii) : bool :=
  let n := nat_of_ascii c in
  Nat.eqb n 32 || (Nat.leb 9 n && Nat.leb n 13).

Fixpoint lstrip (s : string) : string :=
  match s with
  | "" => ""
  | String c rest => if is_space c then lstrip rest else s
  end.

Fixpoint rstrip (s : string) : string :=
  match s with
  | "" => ""
  | String c rest =>
      let rest := rstrip rest in
      if String.eqb rest "" && is_space c then "" else String c rest
  end.

(** JSON text of a snapshot (strings are written without escapes). *)
Definition quoted (s : string) : string := String "034" s +:+ String "034" "".

Definition json_opt {A : Type} (text : A -> string) (o : option A) : string :=
  from_option text "null" o.

Definition json_number (x : num) : string :=
  match x with
  | PyInt z => str_int z
  | PyFloat q => float_text q
  end.

Definition json_weather (w : Weather) : string :=
  "{" +:+ quoted "temperature" +:+ ": " +:+ json_opt json_number (temperature w)
  +:+ ", " +:+ quoted "humidity" +:+ ": " +:+ json_opt json_number (humidity w)
  +:+ ", " +:+ quoted "warnings" +:+ ": "
  +:+ json_opt (fun ws => "[" +:+ String.concat ", " (List.map quoted ws) +:+ "]")
        (warnings w)
  +:+ "}".

Definition json_vitals (v : Vitals) : string :=
  "{" +:+ quoted "heart_rate" +:+ ": " +:+ json_opt json_number (heart_rate v)
  +:+ ", " +:+ quoted "steps" +:+ ": " +:+ json_opt json_number (steps v)
  +:+ ", " +:+ quoted "sleep" +:+ ": " +:+ json_opt json_number (sleep v)
  +:+ "}".

Definition json_state (st : State) : string :=
  "{" +:+ quoted "user_id" +:+ ": " +:+ json_opt quoted (user_id st)
  +:+ ", " +:+ quoted "timestamp" +:+ ": " +:+ json_opt quoted (timestamp st)
  +:+ ", " +:+ quoted "weather" +:+ ": " +:+ json_opt json_weather (weather st)
  +:+ ", " +:+ quoted "vitals" +:+ ": " +:+ json_opt json_vitals (vitals st)
  +:+ ", " +:+ quoted "notes" +:+ ": " +:+ json_opt quoted (notes st)
  +:+ "}".

(** 2024-06-01T10:30:00, and a clock that advances by one millisecond
    between two readings. *)
Definition morning : Z := seconds 1717237800.

#[global] Instance runtime : Runtime :=
  {| str_float := float_text;
     repr_str := fun s => "'" +:+ s +:+ "'";
     strip := fun s => rstrip (lstrip s);
     json_dumps := json_state;
     isoformat := iso_text;
     current_timestamp := sqlite_text;
     utc_clock := fun n => morning + 1000 * Z.of_nat n |}.

Definition no_context : RetrievedContext :=
  {| knowledge_snippets := []; short_term_memory := []; user_profile := None |}.

(** Collaborators that always answer. *)
Definition reliable : Collaborators :=
  {| add_documents_result := fun _ _ => Added;
     retrieve := fun _ _ _ => Return no_context;
     llm_invoke := fun _ => Return (WithContent "保持补水与休息，关注近期睡眠");
     mqtt_publish_error := fun _ => None |}.

(** The short-term memory cannot be written (its embedding service is
    unreachable). *)
Definition memory_down : Collaborators :=
  {| add_documents_result := fun _ _ => AddFailed false (ExternalError "Connection error.");
     retrieve := fun _ _ _ => Return no_context;
     llm_invoke := fun _ => Return (WithContent "保持补水与休息，关注近期睡眠");
     mqtt_publish_error := fun _ => None |}.

(** The chat model times out. *)
Definition llm_down : Collaborators :=
  {| add_documents_result := fun _ _ => Added;
     retrieve := fun _ _ _ => Return no_context;
     llm_invoke := fun _ => Raise (ExternalError "Request timed out.");
     mqtt_publish_error := fun _ => None |}.

Definition empty_store : Store := {| reminders := ∅; sqlite_sequence := 0 |}.

Definition fresh_world : World :=
  {| db := empty_store; timeline := []; outbox := []; ticks := 0 |}.

End Sample.

(** ** Auxiliary definitions used by the statements and proofs *)

(** One group of the table applied to the running score and reasons. *)
Definition apply_group `{Runtime} (st : State) (acc : Z * list string)
    (group : list Table.band) : Z * list string :=
  match Table.first_match st group with
  | Some b => fire (Table.points b) (Table.reason b st) acc
  | None => acc
  end.

(** A reading that is absent or not zero. *)
Definition nonzero_reading (o : option num) : Prop :=
  forall x, o = Some x -> ~ (Py.value x == 0)%Q.

(** Snapshots on which the two readings of the table coincide. *)
Definition zero_free (st : State) : Prop :=
  nonzero_reading (Table.heart_rate_of st) /\ nonzero_reading (Table.sleep_of st).

(** The sentences of the template path. *)
Definition base_sentence : string := "今日状态平稳，继续保持规律作息和补水。".
Definition caution_sentence : string := "出现轻微天气波动，请留意系统提醒。".
Definition activity_clause : string := " 适量活动可帮助维持心肺功能。".

(** The steps reading is present, is not zero, and is below 3000. *)
Definition few_steps (st : State) : Prop :=
  exists s, Table.steps_of st = Some s
            /\ ~ (Py.value s == 0)%Q /\ (Py.value s < inject_Z 3000)%Q.

(** The document [add_event] writes when the clock reads [now]. *)
Definition event_document `{Runtime} (user_id content event_type : string)
    (importance : Q) (extra : gmap string meta) (now : Z) : Document :=
  {| page_content := content;
     metadata := extra ∪ {[ "user_id" := MStr user_id;
                            "event_type" := MStr event_type;
                            "importance" := MNum importance;
                            "created_at" := MStr (isoformat now) ]} |}.

(** The short-term memory accepts every write. *)
Definition memory_accepts `{Collaborators} : Prop :=
  forall timeline document, add_documents_result timeline document = Added.

(** The number of clock readings one [create_reminder] makes: the row's
    time stamp, the memory event, and the sync message when a publisher
    is connected. *)
Definition publisher_reads (self : ReminderManager) : nat :=
  match publisher self with
  | Some p => if available p then 1 else 0
  | None => 0
  end.
Definition create_reads (self : ReminderManager) : nat := 2 + publisher_reads self.

(** The sentences of the care macros. *)
Definition heat_sentence : string :=
  "🌡️ 检测到高温高危场景，已生成补水与家属联络提醒，请立即执行，并保持凉爽。".
Definition sleep_sentence : string :=
  "😴 连续睡眠不足，系统已安排睡眠改善提醒，请按时执行。".
Definition caution_message : string :=
  "检测到风险升高，请保持警惕并及时查看提醒任务。".

(** The contents of the four reminders the macros create. *)
Definition hydration_content : string := "未来 1 小时内补水 500ml，并避免正午外出".
Definition family_content : string := "联系家属确认状态，如持续不适请求医".
Definition wind_down_content : string :=
  "今晚 22:00 前完成放松活动（如听音乐/伸展），准备早睡".
Definition sleep_log_content : string := "记录今晚睡眠时长与感受，明早确认".

(** A pending row as a macro plans it; the creation stamp is left open. *)
Definition planned (r : ReminderRow.t) (user content severity due tags : string) : Prop :=
  ReminderRow.user_id r = user /\ ReminderRow.content r = content /\ ReminderRow.severity r = severity
  /\ ReminderRow.due_time r = Some due /\ ReminderRow.repeat_rule r = None
  /\ ReminderRow.status r = "pending" /\ ReminderRow.tags r = Some tags.

(** [evening] is the next 22:00 strictly after [now]. *)
Definition next_evening (now evening : Z) : Prop :=
  now < evening <= now + days 1 /\ evening mod days 1 = hours 22.

(** The rows the sweep selects at the text [iso_now]: pending, with a
    due time that is not null and compares at most [iso_now] as a text
    (the comparison SQLite makes on the [TEXT] column). *)
Definition due_at (iso_now : string) (r : ReminderRow.t) : Prop :=
  ReminderRow.status r = "pending"
  /\ exists d, ReminderRow.due_time r = Some d /\ String.leb d iso_now = true.


(** The body of the loop of [trigger_due_reminders]. *)
Definition trigger_one `{Runtime} `{Collaborators} (self : ReminderManager)
    (reminder : Reminder) : M unit :=
  update_status self (id reminder) "triggered" None (ReminderRow.user_id (cols reminder)) true ;;
  mret tt.

(** [Reminder.from_row] on a fetched row. *)
Definition as_reminder (ir : Z * ReminderRow.t) : Reminder := {| id := fst ir; cols := snd ir |}.

(** The values of the [status] enumeration. *)
Definition statuses : list string := ["pending"; "triggered"; "completed"; "ignored"].

(** Every row of the table carries one of them. *)
Definition valid_statuses (s : Store) : Prop :=
  forall i r, reminders s !! i = Some r -> ReminderRow.status r ∈ statuses.

(** The [reminder] object of a message ([payload.get("reminder") or {}]). *)
Definition reminder_of (msg : Wire.message) : Wire.payload :=
  default Wire.empty (Wire.reminder msg).

(** The prompt context built from what the memory retrieved. *)
Definition prompt_of `{Runtime} (st : State) (context : RetrievedContext) : RagPayload :=
  {| rag_state := json_dumps st;
     rag_knowledge :=
       or_none (join_lines (List.map page_content (knowledge_snippets context)));
     rag_short_term :=
       or_none (join_lines (List.map page_content (short_term_memory context)));
     rag_profile := str_or (user_profile context) "无" |}.

(** The message substituted when the chat model fails with [exc]. *)
Definition fallback_message (exc : exn) : string :=
  "无法调用模型，改为规则输出。原因: " +:+ exn_text exc.

(** The two events [route] logs. *)
Definition request_content `{Runtime} (evaluation : RiskEvaluation) : string :=
  "Routing request level=" +:+ level evaluation +:+ " reasons="
  +:+ str_list (reasons evaluation).

Definition result_content (result : RouteResult.t) : string :=
  "Routing result via " +:+ RouteResult.route result +:+ ": "
  +:+ RouteResult.message result.

Definition log_request `{Runtime} `{Collaborators} (st : State) : M unit :=
  add_event (get_user_id st) (request_content (evaluate st)) "routing_request" 1.2%Q
    {[ "level" := MStr (level (evaluate st)) ]}.

Definition log_result `{Runtime} `{Collaborators} (st : State) (result : RouteResult.t)
    : M unit :=
  add_event (get_user_id st) (result_content result) "routing_result" 1.0%Q ∅.

(** A document logged under the event type [kind] with the text [content]. *)
Definition logged_as (kind content : string) (d : Document) : Prop :=
  page_content d = content /\ metadata d !! "event_type" = Some (MStr kind).

(** The memory answers every retrieval. *)
Definition memory_answers `{Collaborators} : Prop :=
  forall st user timeline, exists context, retrieve st user timeline = Return context.

(** ** Reference snapshots *)

Module Snapshots.

Definition snapshot (w : Weather) (v : Vitals) : State :=
  {| user_id := Some "user_001"; timestamp := Some "2024-06-01T10:30:00";
     weather := Some w; vitals := Some v; notes := None |}.

(** A mild day after a night without recorded sleep: [sleep = 0]. *)
Definition sleepless : State :=
  snapshot {| temperature := Some (PyInt 24); humidity := None; warnings := Some [] |}
           {| heart_rate := Some (PyInt 78); steps := Some (PyInt 4000);
              sleep := Some (PyInt 0) |}.

(** A mild day on which no step has been counted yet: [steps = 0]. *)
Definition idle : State :=
  snapshot {| temperature := Some (PyInt 24); humidity := None; warnings := Some [] |}
           {| heart_rate := Some (PyInt 78); steps := Some (PyInt 0);
              sleep := Some (PyFloat (72 # 10)) |}.

(** Scenario A of the specification. *)
Definition heatwave : State :=
  snapshot {| temperature := Some (PyInt 35); humidity := None;
              warnings := Some ["WHOT"] |}
           {| heart_rate := Some (PyInt 115); steps := Some (PyInt 1800);
              sleep := Some (PyFloat (55 # 10)) |}.

(** Scenario B of the specification. *)
Definition muggy : State :=
  snapshot {| temperature := Some (PyInt 32); humidity := Some (PyInt 88);
              warnings := Some [] |}
           {| heart_rate := Some (PyInt 95); steps := Some (PyInt 2000);
              sleep := Some (PyFloat (55 # 10)) |}.

(** Scenario C of the specification. *)
Definition calm : State :=
  snapshot {| temperature := Some (PyInt 24); humidity := None; warnings := Some [] |}
           {| heart_rate := Some (PyInt 78); steps := Some (PyInt 2500);
              sleep := Some (PyFloat (72 # 10)) |}.

(** A black rainstorm with a racing heart: high risk, yet neither heat
    nor short sleep. *)
Definition storm : State :=
  snapshot {| temperature := Some (PyInt 26); humidity := Some (PyInt 95);
              warnings := Some ["WRAINB"] |}
           {| heart_rate := Some (PyInt 115); steps := Some (PyInt 3500);
              sleep := Some (PyInt 8) |}.

(** A warm night of black rain with a racing heart and a sleep reading of
    zero: high risk. *)
Definition exhausted : State :=
  snapshot {| temperature := Some (PyInt 32); humidity := Some (PyInt 95);
              warnings := Some ["WRAINB"] |}
           {| heart_rate := Some (PyInt 115); steps := Some (PyInt 3500);
              sleep := Some (PyInt 0) |}.

End Snapshots.

(** ** Reference managers, stores and messages *)

Module Home.

(** A manager with a connected publisher, and its synchroniser: both
    carry the origin identity "hub". *)
Definition hub : ReminderManager :=
  {| publisher := Some {| topic := "ierg6200/health/reminders";
                          source := "hub"; available := true |} |}.

Definition sync : ReminderSync := {| manager := hub; source_id := "hub" |}.

(** Two pending reminders: one due at 09:00, one due at 18:00. *)
Definition pill : ReminderRow.t :=
  {| ReminderRow.user_id := "user_001"; ReminderRow.content := "服用降压药";
     ReminderRow.severity := "medium"; ReminderRow.due_time := Some "2024-06-01T09:00:00";
     ReminderRow.repeat_rule := None; ReminderRow.status := "pending"; ReminderRow.tags := None;
     ReminderRow.created_at := "2024-06-01 08:00:00" |}.

Definition walk : ReminderRow.t :=
  {| ReminderRow.user_id := "user_001"; ReminderRow.content := "傍晚散步 20 分钟";
     ReminderRow.severity := "low"; ReminderRow.due_time := Some "2024-06-01T18:00:00";
     ReminderRow.repeat_rule := None; ReminderRow.status := "pending"; ReminderRow.tags := Some "activity";
     ReminderRow.created_at := "2024-06-01 08:00:00" |}.

Definition world : World :=
  {| db := {| reminders := <[2 := walk]> (<[1 := pill]> ∅); sqlite_sequence := 2 |};
     timeline := []; outbox := []; ticks := 0 |}.

(** A message about reminder 1, as a device with origin [origin] would
    publish it. *)
Definition message (origin event status : string) : Wire.message :=
  {| Wire.event := Some event;
     Wire.reminder := Some (to_payload {| id := 1; cols := ReminderRow.set_status status pill |});
     Wire.published_at := Some "2024-06-01T10:29:58.120000";
     Wire.source := Some origin |}.

(** The hub's own publication, echoed back by the broker. *)
Definition echo : Wire.message := message "hub" "completed" "completed".

(** The watch reports reminder 1 completed. *)
Definition done : Wire.message := message "watch" "completed" "completed".

(** The watch reports reminder 1 completed, with a status the hub does
    not know. *)
Definition archived : Wire.message := message "watch" "completed" "archived".

(** The short-term memory accepts every write but the routing result. *)
Definition result_log_down : Collaborators :=
  {| add_documents_result := fun _ d =>
       match metadata d !! "event_type" with
       | Some (MStr kind) =>
           if String.eqb kind "routing_result"
           then AddFailed false (ExternalError "Connection error.")
           else Added
       | _ => Added
       end;
     retrieve := fun _ _ _ => Return Sample.no_context;
     llm_invoke := fun _ => Return (WithContent "保持补水与休息，关注近期睡眠");
     mqtt_publish_error := fun _ => None |}.

End Home.
(** ** [ReminderManager.list_reminders] *)

(** [COALESCE(due_time, created_at)], the key of [ORDER BY]. *)
Definition order_key (r : ReminderRow.t) : string := default (ReminderRow.created_at r) (ReminderRow.due_time r).

(** The order of two fetched rows under [ORDER BY]: their keys compared
    as texts.  SQLite leaves the order of rows with equal keys open. *)
Definition key_le (a b : Z * ReminderRow.t) : Prop :=
  String.leb (order_key (snd a)) (order_key (snd b)) = true.

#[global] Instance key_le_dec (a b : Z * ReminderRow.t) : Decision (key_le a b) :=
  bool_eq_dec (String.leb (order_key (snd a)) (order_key (snd b))) true.

(** [if value: query += " AND column = ?"]: a filter that is [None] or
    empty adds no condition. *)
Definition passes (filter : option string) (value : string) : bool :=
  match filter with
  | Some wanted => String.eqb wanted "" || String.eqb value wanted
  | None => true
  end.

(** The rows are fetched in ascending order of their keys; the place of
    a row among rows of the same key is that of the sort used here. *)
Definition list_reminders (status user_id : option string) : M (list Reminder) :=
  w ← get_world;
  let rows :=
    select_where (fun r => passes status (ReminderRow.status r) && passes user_id (ReminderRow.user_id r))
      (db w) in
  let rows := merge_sort key_le rows in
  mret (List.map (fun ir => {| id := fst ir; cols := snd ir |}) rows).

(** ** [ReminderMQTTPublisher.__init__] and [ReminderManager.__init__] *)

(** [config.REMINDER_TOPIC]. *)
Definition REMINDER_TOPIC : string := "ierg6200/health/reminders".

(** [connect_error] is the exception [client.connect] or
    [client.loop_start] raises, if any: the publisher is then marked
    unavailable. *)
Definition new_publisher (topic source : string) (connect_error : option exn)
    : ReminderMQTTPublisher :=
  {| topic := topic; source := source;
     available := match connect_error with
                  | Some _ => false
                  | None => true
                  end |}.

(** [self.publisher = ReminderMQTTPublisher() if enable_mqtt else None]. *)
Definition new_manager (enable_mqtt : bool) (source : string) (connect_error : option exn)
    : ReminderManager :=
  {| publisher := if enable_mqtt
                  then Some (new_publisher REMINDER_TOPIC source connect_error)
                  else None |}.

(** ** JSON values, as [json.loads] returns them

    An object is the list of the items of the dictionary read from it,
    in order; its keys are distinct. *)

#[warnings="-register-all"]
Inductive Json : Type :=
| JNull
| JBool (b : bool)
| JNum (x : num)
| JStr (s : string)
| JArr (elements : list Json)
| JObj (items : list (string * Json)).

Module PyJson.

(** The value under [key] among the items of a dictionary. *)
Fixpoint assoc {A : Type} (key : string) (items : list (string * A)) : option A :=
  match items with
  | [] => None
  | (k, v) :: rest => if String.eqb k key then Some v else assoc key rest
  end.

(** [d.get(key, default)]; [None] when [d] is not a dictionary and the
    call raises [AttributeError]. *)
Definition get (d : Json) (key : string) (default : Json) : option Json :=
  match d with
  | JObj items => Some (from_option (fun v => v) default (assoc key items))
  | _ => None
  end.

End PyJson.

(** Functions of the Python runtime on texts. *)
Class TextRuntime : Type := {
  (** [s.splitlines()] *)
  splitlines : string -> list string;
  (** [json.loads(s)], [None] when it raises *)
  json_loads : string -> option Json;
}.

(** ** [mqtt_payload.py] *)

(** [s.startswith(prefix)]. *)
Definition startswith (prefix s : string) : bool := String.prefix prefix s.

(** [s.split(",")]. *)
Fixpoint split_comma (s : string) : list string :=
  match s with
  | "" => [""]
  | String c rest =>
      if Ascii.eqb c ","%char then "" :: split_comma rest
      else match split_comma rest with
           | head :: tail => String c head :: tail
           | [] => [String c ""]
           end
  end.

(** One entry of the [reminders] list of the outgoing payload. *)
Module Entry.
Record t : Type := mk {
  id : Z;
  content : string;
  severity : string;
  due_time : option string;
  status : string;
  tags : list string;
}.
End Entry.

(** The dictionary [build_mqtt_payload] returns: the keys of the route
    result other than [evidence] and [reminder_ids], and the keys
    [weather] and [reminders]. *)
Module Outgoing.
Record t : Type := mk {
  route : string;
  risk_level : string;
  message : Json;
  weather : Weather;
  reminders : list Entry.t;
}.
End Outgoing.

Definition entry_of (r : Reminder) : Entry.t :=
  {| Entry.id := id r;
     Entry.content := ReminderRow.content (cols r);
     Entry.severity := ReminderRow.severity (cols r);
     Entry.due_time := ReminderRow.due_time (cols r);
     Entry.status := ReminderRow.status (cols r);
     Entry.tags := match ReminderRow.tags (cols r) with
                   | Some tags => if String.eqb tags "" then [] else split_comma tags
                   | None => []
                   end |}.

Section Payload.
Context `{Runtime} `{TextRuntime}.

(** The exception [ReminderManager(enable_mqtt=False)] raises, if any. *)
Variable manager_error : option exn.

Definition _extract_message_text (raw_message : Json) : Json :=
  match raw_message with
  | JStr raw =>
      let text := strip raw in
      let text :=
        if startswith "```" text then
          let lines := splitlines text in
          let lines :=
            match lines with
            | first :: rest => if startswith "```" first then rest else lines
            | [] => lines
            end in
          let lines :=
            match last lines with
            | Some final => if startswith "```" final then removelast lines else lines
            | None => lines
            end in
          strip (join_lines lines)
        else text in
      match json_loads text with
      | Some (JObj items) =>
          match PyJson.assoc "message" items with
          | Some message => message
          | None => raw_message
          end
      | _ => raw_message
      end
  | _ => raw_message
  end.

Definition build_mqtt_payload (route_result : RouteResult.t) (state : State)
    (reminder_manager : option ReminderManager) : M Outgoing.t :=
  let message := _extract_message_text (JStr (RouteResult.message route_result)) in
  let weather := get_weather state in
  let block :=
    {| temperature := temperature weather;
       humidity := humidity weather;
       warnings := Some (get_warnings weather) |} in
  let reminder_ids := default [] (RouteResult.reminder_ids route_result) in
  reminder_entries ←
    match reminder_ids with
    | [] => mret []
    | _ :: _ =>
        manager ← match reminder_manager with
                  | Some m => mret m
                  | None =>
                      match manager_error with
                      | Some e => raise e
                      | None => mret (new_manager false "" None)
                      end
                  end;
        reminders ← get_reminders_by_ids reminder_ids;
        mret (List.map entry_of reminders)
    end;
  mret {| Outgoing.route := RouteResult.route route_result;
          Outgoing.risk_level := RouteResult.risk_level route_result;
          Outgoing.message := message;
          Outgoing.weather := block;
          Outgoing.reminders := reminder_entries |}.

End Payload.

(** ** The tools of [ReminderManager.to_tools] *)

(** Functions of the Python runtime the tools call. *)
Class ToolRuntime : Type := {
  (** [datetime.fromisoformat(s)] *)
  fromisoformat : string -> outcome Z;
  (** [json.dumps(payload, ensure_ascii=False)] of one payload *)
  dumps_payload : Wire.payload -> string;
  (** [json.dumps(payloads, ensure_ascii=False)] of a list of payloads *)
  dumps_payloads : list Wire.payload -> string;
}.

Section Tools.
Context `{Runtime} `{Collaborators} `{ToolRuntime}.

Definition _create (self : ReminderManager) (content : string) (due_time : option string)
    : M string :=
  dt ← match due_time with
       | Some s => if String.eqb s "" then mret None
                   else t ← lift (fromisoformat s); mret (Some (AtInstant t))
       | None => mret None
       end;
  reminder ← create_reminder self content DEFAULT_USER_ID "medium" dt None None;
  mret (dumps_payload (to_payload reminder)).

Definition _list (status : option string) : M string :=
  reminders ← list_reminders status None;
  mret (dumps_payloads (List.map to_payload reminders)).

Definition _complete (self : ReminderManager) (reminder_id : Z) : M string :=
  reminder ← update_status self reminder_id "completed" None DEFAULT_USER_ID true;
  mret (dumps_payload (to_payload reminder)).

End Tools.

(** ** [SystemMemoryManager]: chat messages and retrieval *)

(** One message of a chat transcript. *)
Module Chat.
Record message : Type := {
  role : option string;
  content : option string;
}.
End Chat.

Section ChatLog.
Context `{Runtime} `{Collaborators}.

Definition add_chat_message (user_id role text : string) (importance : Q) : M unit :=
  let content := "[" +:+ role +:+ "] " +:+ text in
  add_event user_id content "chat_message" importance ∅.

Definition sync_chat_transcript (user_id : string) (transcript : list Chat.message)
    : M unit :=
  for_each (fun message =>
              add_chat_message user_id (default "user" (Chat.role message))
                (default "" (Chat.content message)) 1.0%Q)
    transcript.

End ChatLog.

(** The time-weighted retriever of the short-term memory. *)
Module Retriever.

(** What [retriever.invoke(query)] does: it returns documents, raises
    [AttributeError], or raises another exception. *)
Inductive answer : Type :=
| Documents (docs : list Document)
| AttributeError
| Failure (e : exn).

Record t : Type := {
  invoke : string -> answer;
  get_relevant_documents : string -> outcome (list Document);
}.

End Retriever.

Module Memory.

Record t : Type := {
  (** [self.k] *)
  k : Z;
  (** [self.retriever], [None] until the vector store exists *)
  retriever : option Retriever.t;
}.

(** [l[:limit]]: a negative [limit] counts from the end. *)
Definition up_to {A : Type} (limit : Z) (l : list A) : list A :=
  if 0 <=? limit then take (Z.to_nat limit) l
  else take (length l - Z.to_nat (- limit)) l.

Definition search_recent (self : t) (query : string) (user_id : option string)
    (top_k : option Z) : outcome (list Document) :=
  match retriever self with
  | None => Return []
  | Some retriever =>
      let docs :=
        match Retriever.invoke retriever query with
        | Retriever.Documents docs => Return docs
        | Retriever.AttributeError => Retriever.get_relevant_documents retriever query
        | Retriever.Failure e => Raise e
        end in
      match docs with
      | Raise e => Raise e
      | Return docs =>
          let docs :=
            match user_id with
            | Some u =>
                if String.eqb u "" then docs
                else List.filter
                       (fun doc => match metadata doc !! "user_id" with
                                   | Some (MStr owner) => String.eqb owner u
                                   | _ => false
                                   end)
                       docs
            | None => docs
            end in
          let limit :=
            match top_k with
            | Some n => if n =? 0 then k self else n
            | None => k self
            end in
          Return (up_to limit docs)
      end
  end.

End Memory.

(** ** [user_sensors.HealthMonitor] *)

Module Sensors.

(** The attributes of the monitor.  [__init__] assigns
    [current_heart_rate] and [current_steps] but not [current_sleep],
    which does not exist ([None] here) until a message assigns it. *)
Record HealthMonitor : Type := {
  current_heart_rate : Json;
  current_steps : Json;
  current_sleep : option Json;
}.

Definition init : HealthMonitor :=
  {| current_heart_rate := JNull; current_steps := JNull; current_sleep := None |}.

Definition set_heart_rate (v : Json) (self : HealthMonitor) : HealthMonitor :=
  {| current_heart_rate := v; current_steps := current_steps self;
     current_sleep := current_sleep self |}.
Definition set_steps (v : Json) (self : HealthMonitor) : HealthMonitor :=
  {| current_heart_rate := current_heart_rate self; current_steps := v;
     current_sleep := current_sleep self |}.
Definition set_sleep (v : Json) (self : HealthMonitor) : HealthMonitor :=
  {| current_heart_rate := current_heart_rate self; current_steps := current_steps self;
     current_sleep := Some v |}.

(** [_on_message]: [decoded] is the JSON value of the payload, [None]
    when the bytes do not decode.  Every exception ends the handler
    ([except Exception: pass]) and keeps what was assigned before. *)
Definition _on_message (self : HealthMonitor) (decoded : option Json) : HealthMonitor :=
  match decoded with
  | None => self
  | Some data =>
      match PyJson.get data "metrics" (JObj []) with
      | None => self
      | Some metrics =>
          match PyJson.get metrics "heart_rate" JNull with
          | None => self
          | Some v =>
              let self := set_heart_rate v self in
              match PyJson.get metrics "steps" JNull with
              | None => self
              | Some v =>
                  let self := set_steps v self in
                  match PyJson.get metrics "sleep" JNull with
                  | None => self
                  | Some v => set_sleep v self
                  end
              end
          end
      end
  end.

(** [get_latest_data]; [None] when reading [self.current_sleep] raises
    [AttributeError]. *)
Definition get_latest_data (self : HealthMonitor) : option (Json * Json * Json) :=
  match current_sleep self with
  | Some sleep => Some (current_heart_rate self, current_steps self, sleep)
  | None => None
  end.

(** The metrics of a payload the handler reads to the end: a JSON
    object whose [metrics] member, when there is one, is an object. *)
Definition metrics_of (decoded : option Json) : option (list (string * Json)) :=
  match decoded with
  | Some (JObj items) =>
      match PyJson.assoc "metrics" items with
      | Some (JObj metrics) => Some metrics
      | Some _ => None
      | None => Some []
      end
  | _ => None
  end.

(** The value of one metric, [None] (JSON [null]) when it is missing. *)
Definition metric (key : string) (metrics : list (string * Json)) : Json :=
  default JNull (PyJson.assoc key metrics).

End Sensors.

(** ** Further auxiliary definitions used by the statements *)

(** The route that serves a level. *)
Definition route_of_level (level : string) : string :=
  if String.eqb level "high" then "macro"
  else if String.eqb level "medium" then "rag"
  else "template".

(** A store after the status of the row [rid], if there is one, was
    overwritten; [None] is no change. *)
Definition with_status (change : option (Z * string)) (s : Store) : Store :=
  match change with
  | Some (rid, status) =>
      {| reminders := alter (ReminderRow.set_status status) rid (reminders s);
         sqlite_sequence := sqlite_sequence s |}
  | None => s
  end.

(** The message a publisher of origin [origin] sends for [event] on
    [reminder] at the instant [now]. *)
Definition published `{Runtime} (origin event : string) (reminder : Reminder) (now : Z)
    : Wire.message :=
  {| Wire.event := Some event;
     Wire.reminder := Some (to_payload reminder);
     Wire.published_at := Some (isoformat now);
     Wire.source := Some origin |}.

(** [msg] announces, from [origin], that [reminder] went to [status]. *)
Definition announces (origin status : string) (reminder : Reminder) (msg : Wire.message)
    : Prop :=
  Wire.event msg = Some status
  /\ Wire.source msg = Some origin
  /\ Wire.reminder msg
     = Some (to_payload {| id := id reminder;
                           cols := ReminderRow.set_status status (cols reminder) |}).

(** The text of the memory event of a change of status without a note. *)
Definition lifecycle_text (reminder_id : Z) (status : string) : string :=
  "Reminder " +:+ str_int reminder_id +:+ " status => " +:+ status.

(** The reminders [rs] are rows of the table, pending, under distinct
    ids. *)
Definition stored_pending (w : World) (rs : list Reminder) : Prop :=
  NoDup (id <$> rs)
  /\ Forall (fun r => reminders (db w) !! id r = Some (cols r)
                      /\ ReminderRow.status (cols r) = "pending") rs.

(** The MQTT client accepts every message. *)
Definition broker_accepts `{Collaborators} : Prop :=
  forall msg, mqtt_publish_error msg = None.

(** The order of the calendar days of two datetimes. *)
Definition day_compare (a b : Datetime.t) : comparison :=
  Datetime.lex (Datetime.year a ?= Datetime.year b)
    (Datetime.lex (Datetime.month a ?= Datetime.month b)
       (Datetime.day a ?= Datetime.day b)).

(** A text that holds no comma. *)
Definition comma_free (s : string) : Prop := ~ In ","%char (list_ascii_of_string s).

(** The text logged for one message of a transcript. *)
Definition chat_text (message : Chat.message) : string :=
  "[" +:+ default "user" (Chat.role message) +:+ "] "
  +:+ default "" (Chat.content message).

(** A document of the event type [kind] that belongs to [user]. *)
Definition filed_under (kind user : string) (d : Document) : Prop :=
  metadata d !! "event_type" = Some (MStr kind)
  /\ metadata d !! "user_id" = Some (MStr user).

(** ** Reference text runtime, devices and stores for the examples *)

Module Desk.

(** [splitlines] for texts whose line breaks are line feeds. *)
Fixpoint split_lines (s : string) : list string :=
  match s with
  | "" => []
  | String c rest =>
      if Ascii.eqb c "010"%char then "" :: split_lines rest
      else match split_lines rest with
           | line :: others => String c line :: others
           | [] => [String c ""]
           end
  end.

(** The answer of the fake chat model of [RiskRouter.__init__], as a
    text and as the value [json.loads] reads from it. *)
Definition fake_answer : string :=
  "{" +:+ Sample.quoted "message" +:+ ": " +:+ Sample.quoted "保持补水与休息，关注近期睡眠"
  +:+ ", " +:+ Sample.quoted "evidence" +:+ ": {" +:+ Sample.quoted "note" +:+ ": "
  +:+ Sample.quoted "fake response" +:+ "}}".

Definition fake_value : Json :=
  JObj [ ("message", JStr "保持补水与休息，关注近期睡眠");
         ("evidence", JObj [ ("note", JStr "fake response") ]) ].

(** A reader that knows that one JSON text and rejects every other. *)
#[global] Instance text : TextRuntime :=
  {| splitlines := split_lines;
     json_loads := fun s => if String.eqb s fake_answer then Some fake_value else None |}.

(** The fake answer inside a Markdown fence. *)
Definition fenced_answer : string :=
  "```json" +:+ String "010" "" +:+ fake_answer +:+ String "010" "" +:+ "```".

(** The short-term memory accepts writes but cannot be searched. *)
Definition search_down : Collaborators :=
  {| add_documents_result := fun _ _ => Added;
     retrieve := fun _ _ _ => Raise (ExternalError "Connection error.");
     llm_invoke := fun _ => Return (WithContent "保持补水与休息，关注近期睡眠");
     mqtt_publish_error := fun _ => None |}.

(** The synchroniser of a second device, the watch. *)
Definition watch : ReminderSync :=
  {| manager := {| publisher := None |}; source_id := "watch" |}.

(** A reminder without a due time, created at 23:00. *)
Definition diary : ReminderRow.t :=
  {| ReminderRow.user_id := "user_001"; ReminderRow.content := "写下今天的心情";
     ReminderRow.severity := "low"; ReminderRow.due_time := None;
     ReminderRow.repeat_rule := None; ReminderRow.status := "pending"; ReminderRow.tags := None;
     ReminderRow.created_at := "2024-06-01 23:00:00" |}.

(** The reference store with that reminder added. *)
Definition evening_world : World :=
  {| db := {| reminders := <[3 := diary]> (reminders (db Home.world));
              sqlite_sequence := 3 |};
     timeline := []; outbox := []; ticks := 0 |}.

(** The reference store of a household where reminder 1 belongs to a
    second user. *)
Definition guest_pill : ReminderRow.t :=
  {| ReminderRow.user_id := "user_002"; ReminderRow.content := ReminderRow.content Home.pill;
     ReminderRow.severity := "medium"; ReminderRow.due_time := ReminderRow.due_time Home.pill;
     ReminderRow.repeat_rule := None; ReminderRow.status := "pending"; ReminderRow.tags := None;
     ReminderRow.created_at := ReminderRow.created_at Home.pill |}.

Definition guest_world : World :=
  {| db := {| reminders := <[1 := guest_pill]> ∅; sqlite_sequence := 1 |};
     timeline := []; outbox := []; ticks := 0 |}.

(** JSON text of a reminder payload (strings are written without
    escapes), and a parser that knows the ISO text of one instant. *)
Definition json_payload (p : Wire.payload) : string :=
  "{" +:+ Sample.quoted "id" +:+ ": " +:+ Sample.json_opt str_int (Wire.id p)
  +:+ ", " +:+ Sample.quoted "user_id" +:+ ": "
  +:+ Sample.json_opt Sample.quoted (Wire.user_id p)
  +:+ ", " +:+ Sample.quoted "content" +:+ ": "
  +:+ Sample.json_opt Sample.quoted (Wire.content p)
  +:+ ", " +:+ Sample.quoted "severity" +:+ ": "
  +:+ Sample.json_opt Sample.quoted (Wire.severity p)
  +:+ ", " +:+ Sample.quoted "due_time" +:+ ": "
  +:+ Sample.json_opt Sample.quoted (Wire.due_time p)
  +:+ ", " +:+ Sample.quoted "repeat_rule" +:+ ": "
  +:+ Sample.json_opt Sample.quoted (Wire.repeat_rule p)
  +:+ ", " +:+ Sample.quoted "status" +:+ ": "
  +:+ Sample.json_opt Sample.quoted (Wire.status p)
  +:+ ", " +:+ Sample.quoted "tags" +:+ ": "
  +:+ Sample.json_opt Sample.quoted (Wire.tags p)
  +:+ ", " +:+ Sample.quoted "created_at" +:+ ": "
  +:+ Sample.json_opt Sample.quoted (Wire.created_at p)
  +:+ ", " +:+ Sample.quoted "type" +:+ ": "
  +:+ Sample.json_opt Sample.quoted (Wire.type p) +:+ "}".

#[global] Instance tools : ToolRuntime :=
  {| fromisoformat := fun s =>
       if String.eqb s (Sample.iso_text Sample.morning) then Return Sample.morning
       else Raise (ExternalError ("Invalid isoformat string: '" +:+ s +:+ "'"));
     dumps_payload := json_payload;
     dumps_payloads := fun ps => "[" +:+ String.concat ", " (List.map json_payload ps) +:+ "]" |}.

(** 23:00 and 09:00 on 2024-06-01. *)
Definition at_23 : Datetime.t :=
  {| Datetime.year := 2024; Datetime.month := 6; Datetime.day := 1;
     Datetime.hour := 23; Datetime.minute := 0; Datetime.second := 0;
     Datetime.microsecond := 0 |}.
Definition at_09 : Datetime.t :=
  {| Datetime.year := 2024; Datetime.month := 6; Datetime.day := 1;
     Datetime.hour := 9; Datetime.minute := 0; Datetime.second := 0;
     Datetime.microsecond := 0 |}.

End Desk.

(** * Properties *)

(** Unfolds the operations of the monad. *)
Ltac run := unfold mbind, M_bind, mret, M_ret, raise, lift, get_world, modify.

(** ** Comparisons of Python numbers, read on the rationals *)

Module PyFacts.

Lemma ge_spec x c : Py.ge x c = true <-> (inject_Z c <= Py.value x)%Q.
Proof. unfold Py.ge. apply Qle_bool_iff. Qed.

Lemma le_spec x c : Py.le x c = true <-> (Py.value x <= inject_Z c)%Q.
Proof. unfold Py.le. apply Qle_bool_iff. Qed.

Lemma lt_spec x c : Py.lt x c = true <-> (Py.value x < inject_Z c)%Q.
Proof.
  unfold Py.lt. rewrite negb_true_iff, <- not_true_iff_false, Qle_bool_iff.
  split; [apply Qnot_le_lt | apply Qlt_not_le].
Qed.

Lemma truthy_spec x : Py.truthy x = true <-> ~ (Py.value x == 0)%Q.
Proof.
  unfold Py.truthy. rewrite negb_true_iff, <- not_true_iff_false, Qeq_bool_iff.
  reflexivity.
Qed.

Lemma lt_not_ge x c : Py.lt x c = negb (Py.ge x c).
Proof. reflexivity. Qed.

(** A number at or above a positive literal is not zero, so the guard
    [o and o >= c] adds nothing to [o is not None and o >= c]. *)
Lemma ge_pos_truthy x c : 0 < c -> Py.ge x c = true -> Py.truthy x = true.
Proof.
  intros Hc Hge. apply truthy_spec. apply ge_spec in Hge.
  intros Heq. rewrite Heq in Hge.
  assert (inject_Z c <= inject_Z 0)%Q as Hle by exact Hge.
  rewrite <- Zle_Qle in Hle. lia.
Qed.

(** [o and o < c]: the reading is present, is not zero, and is below [c]. *)
Lemma guarded_lt o c :
  Py.guarded o (fun x => Py.lt x c) = true
  <-> exists x, o = Some x /\ ~ (Py.value x == 0)%Q /\ (Py.value x < inject_Z c)%Q.
Proof.
  unfold Py.guarded. destruct o as [x|].
  - rewrite andb_true_iff, truthy_spec, lt_spec. split.
    + intros [Hz Hlt]. exists x. auto.
    + intros (y & [= <-] & Hz & Hlt). auto.
  - split; [discriminate | intros (y & [=] & _)].
Qed.

(** [o and o >= c] for a positive [c]: the reading is present and at
    least [c]. *)
Lemma guarded_ge o c :
  0 < c ->
  Py.guarded o (fun x => Py.ge x c) = true
  <-> exists x, o = Some x /\ (inject_Z c <= Py.value x)%Q.
Proof.
  intros Hc. unfold Py.guarded. destruct o as [x|].
  - split.
    + intros [_ Hge]%andb_true_iff. exists x. split; [reflexivity | by apply ge_spec].
    + intros (y & [= <-] & Hge). apply ge_spec in Hge.
      apply andb_true_iff. split; [by apply (ge_pos_truthy x c) | assumption].
  - split; [discriminate | intros (y & [=] & _)].
Qed.

End PyFacts.

(** ** The risk evaluator *)

Section EvaluateFacts.
Context `{Runtime}.

Lemma level_of_leb s :
  (if 7 <=? s then "high" else if 4 <=? s then "medium" else "low") = Table.level_of s.
Proof.
  unfold Table.level_of.
  destruct (Z.leb_spec 7 s), (Z.leb_spec 4 s); repeat case_decide; try lia; reflexivity.
Qed.

Lemma level_of_cases s :
  (Table.level_of s = "high" <-> 7 <= s)
  /\ (Table.level_of s = "medium" <-> 4 <= s < 7)
  /\ (Table.level_of s = "low" <-> s < 4).
Proof.
  unfold Table.level_of.
  repeat case_decide; repeat split; intros; try lia; try discriminate; reflexivity.
Qed.

(** Folding the groups over an accumulator adds the table's score and
    appends the table's reasons. *)
Lemma foldl_apply_group st table acc :
  foldl (apply_group st) acc table
  = (fst acc + Table.score_of table st, snd acc ++ Table.reasons_of table st).
Proof.
  revert acc. induction table as [|g table IH]; intros [s rs]; cbn [foldl].
  - cbn. f_equal; [lia | by rewrite app_nil_r].
  - rewrite IH. unfold apply_group, Table.score_of, Table.reasons_of.
    cbn [foldr List.map concat].
    destruct (Table.first_match st g) as [b|]; cbn [from_option fire fst snd].
    + f_equal; [lia | by rewrite <- app_assoc].
    + f_equal.
Qed.

Ltac table_cbn :=
  cbn [List.find Table.applies Table.points Table.reason from_option negb andb].

Ltac table_done E :=
  table_cbn; rewrite ?E; table_cbn; reflexivity.

Ltac table_unfold :=
  unfold apply_group, Table.first_match, Table.hot, Table.warm, Table.cold, Table.humid,
    Table.warned, Table.fast_heart, Table.slow_heart, Table.short_sleep, Table.on,
    Table.shown, Table.counts, Table.temp_of, Table.humidity_of, Table.heart_rate_of,
    Table.sleep_of, Table.warnings_of;
  table_cbn.

(** Each block of [evaluate] is one group of the table. *)
Lemma temperature_step st acc :
  match temperature (get_weather st) with
  | Some t =>
      if Py.ge t 33 then fire 4 ("高温 " +:+ str_num t +:+ "°C") acc
      else if Py.ge t 30 then fire 2 ("偏高温度 " +:+ str_num t +:+ "°C") acc
      else if Py.le t 10 then fire 2 ("低温 " +:+ str_num t +:+ "°C") acc
      else acc
  | None => acc
  end = apply_group st acc [Table.hot; Table.warm; Table.cold].
Proof.
  table_unfold.
  destruct (temperature (get_weather st)) as [t|] eqn:E; cbn [from_option]; [|reflexivity].
  destruct (Py.ge t 33) eqn:E33; [table_done E|]. table_cbn.
  rewrite PyFacts.lt_not_ge, E33, andb_true_r.
  destruct (Py.ge t 30); [table_done E|].
  destruct (Py.le t 10); table_done E.
Qed.

Lemma humidity_step st acc :
  match humidity (get_weather st) with
  | Some h =>
      if Py.truthy h && Py.ge h 90 then fire 1 ("湿度 " +:+ str_num h +:+ "%") acc
      else acc
  | None => acc
  end = apply_group st acc [Table.humid].
Proof.
  table_unfold.
  destruct (humidity (get_weather st)) as [h|] eqn:E; cbn [from_option]; [|reflexivity].
  destruct (Py.ge h 90) eqn:E90.
  - rewrite (PyFacts.ge_pos_truthy h 90) by (lia || assumption). table_done E.
  - rewrite andb_false_r. reflexivity.
Qed.

Lemma warning_step st acc :
  (if has_warning "WHOT" (get_warnings (get_weather st))
      || has_warning "WRAINB" (get_warnings (get_weather st))
   then fire 3 "天文台高危警告" acc
   else acc) = apply_group st acc [Table.warned].
Proof.
  table_unfold.
  destruct (has_warning "WHOT" _ || has_warning "WRAINB" _); table_cbn; reflexivity.
Qed.

Lemma heart_rate_step st acc :
  match heart_rate (get_vitals st) with
  | Some hr =>
      if Py.truthy hr && Py.ge hr 110 then fire 3 ("心率偏高 " +:+ str_num hr) acc
      else if Py.truthy hr && Py.le hr 50 then fire 2 ("心率偏低 " +:+ str_num hr) acc
      else acc
  | None => acc
  end = apply_group st acc [Table.fast_heart; Table.slow_heart true].
Proof.
  table_unfold.
  destruct (heart_rate (get_vitals st)) as [hr|] eqn:E; cbn [from_option]; [|reflexivity].
  destruct (Py.ge hr 110) eqn:E110.
  - rewrite (PyFacts.ge_pos_truthy hr 110) by (lia || assumption). table_done E.
  - rewrite andb_false_r.
    destruct (Py.truthy hr && Py.le hr 50); table_done E.
Qed.

Lemma sleep_step st acc :
  match sleep (get_vitals st) with
  | Some s =>
      if Py.truthy s && Py.lt s 6 then fire 2 ("睡眠不足 " +:+ str_num s +:+ "h") acc
      else acc
  | None => acc
  end = apply_group st acc [Table.short_sleep true].
Proof.
  table_unfold.
  destruct (sleep (get_vitals st)) as [s|] eqn:E; cbn [from_option]; [|reflexivity].
  destruct (Py.truthy s && Py.lt s 6); table_done E.
Qed.

Lemma evaluate_as_fold st :
  (score (evaluate st), reasons (evaluate st)) = foldl (apply_group st) (0, []) Table.as_coded.
Proof.
  unfold Table.as_coded, Table.bands. cbn [foldl].
  rewrite <- sleep_step, <- heart_rate_step, <- warning_step, <- humidity_step,
    <- temperature_step.
  unfold evaluate. cbn [score reasons].
  rewrite <- surjective_pairing. reflexivity.
Qed.

(** The two readings of the table give the same first match in every
    group when no heart rate or sleep reading is zero. *)
Lemma counts_nonzero o (test : num -> bool) :
  nonzero_reading o ->
  from_option (fun x => Table.counts true x && test x) false o
  = from_option (fun x => Table.counts false x && test x) false o.
Proof.
  intros Hnz. destruct o as [x|]; cbn; [|reflexivity].
  assert (Py.truthy x = true) as -> by (apply PyFacts.truthy_spec; by apply Hnz).
  reflexivity.
Qed.

Lemma tables_agree st :
  zero_free st ->
  Table.score_of Table.stated st = Table.score_of Table.as_coded st
  /\ Table.reasons_of Table.stated st = Table.reasons_of Table.as_coded st.
Proof.
  intros [Hhr Hsl].
  assert (Table.applies (Table.slow_heart true) st
          = Table.applies (Table.slow_heart false) st) as Ehr
    by exact (counts_nonzero _ (fun hr => Py.le hr 50) Hhr).
  assert (Table.applies (Table.short_sleep true) st
          = Table.applies (Table.short_sleep false) st) as Esl
    by exact (counts_nonzero _ (fun s => Py.lt s 6) Hsl).
  unfold Table.score_of, Table.reasons_of, Table.stated, Table.as_coded, Table.bands,
    Table.first_match.
  cbn [foldr List.map concat List.find].
  rewrite Ehr, Esl.
  destruct (Table.applies Table.fast_heart st),
    (Table.applies (Table.slow_heart false) st),
    (Table.applies (Table.short_sleep false) st); split; reflexivity.
Qed.

(** C1 (amended).  For every state snapshot, [evaluate] returns the score
    and the reasons of the scoring table, read with a heart rate or a
    sleep duration of zero handled like an absent reading: temperature
    >= 33 gives +4, 30 <= temperature < 33 gives +2, temperature <= 10
    gives +2 (first matching band only); humidity >= 90 gives +1; "WHOT"
    or "WRAINB" among the warnings gives +3; heartRate >= 110 gives +3,
    else a non-zero heartRate <= 50 gives +2; a non-zero sleep < 6 gives
    +2.  Absent fields are skipped, one reason is appended per firing
    band in table order, and the level is high iff score >= 7, medium iff
    4 <= score < 7, low otherwise.  On snapshots without a zero heart
    rate or sleep reading this is the table exactly as the specification
    words it. *)
Theorem evaluate_follows_table (st : State) :
  score (evaluate st) = Table.score_of Table.as_coded st
  /\ reasons (evaluate st) = Table.reasons_of Table.as_coded st
  /\ (level (evaluate st) = "high" <-> 7 <= score (evaluate st))
  /\ (level (evaluate st) = "medium" <-> 4 <= score (evaluate st) < 7)
  /\ (level (evaluate st) = "low" <-> score (evaluate st) < 4)
  /\ (zero_free st ->
      score (evaluate st) = Table.score_of Table.stated st
      /\ reasons (evaluate st) = Table.reasons_of Table.stated st).
Proof.
  pose proof (evaluate_as_fold st) as E.
  rewrite foldl_apply_group in E.
  pose proof (f_equal fst E) as Es. pose proof (f_equal snd E) as Er.
  cbn [fst snd] in Es, Er. rewrite Z.add_0_l in Es.
  assert (level (evaluate st) = Table.level_of (score (evaluate st))) as El.
  { unfold evaluate. cbn [score level]. apply level_of_leb. }
  split; [exact Es|]. split; [exact Er|].
  rewrite El.
  destruct (level_of_cases (score (evaluate st))) as (Hh & Hm & Hl).
  split; [exact Hh|]. split; [exact Hm|]. split; [exact Hl|].
  intros Hz. destruct (tables_agree st Hz) as [-> ->]. split; assumption.
Qed.

End EvaluateFacts.

(** C1, as stated, fails on a snapshot whose sleep reading is zero: the
    table gives +2 for [sleep < 6], the code gives nothing. *)
Lemma evaluate_skips_zero_sleep :
  score (evaluate Snapshots.sleepless) <> Table.score_of Table.stated Snapshots.sleepless.
Proof. vm_compute. discriminate. Qed.

(** The conditions of the bands of [Table.as_coded], read on the
    snapshot. *)
Lemma band_readings `{Runtime} (st : State) :
  (Table.applies Table.hot st = true
   <-> exists t, Table.temp_of st = Some t /\ (inject_Z 33 <= Py.value t)%Q)
  /\ (Table.applies Table.warm st = true
      <-> exists t, Table.temp_of st = Some t
                    /\ (inject_Z 30 <= Py.value t)%Q /\ (Py.value t < inject_Z 33)%Q)
  /\ (Table.applies Table.cold st = true
      <-> exists t, Table.temp_of st = Some t /\ (Py.value t <= inject_Z 10)%Q)
  /\ (Table.applies Table.humid st = true
      <-> exists h, Table.humidity_of st = Some h /\ (inject_Z 90 <= Py.value h)%Q)
  /\ (Table.applies Table.warned st = true
      <-> "WHOT" ∈ Table.warnings_of st \/ "WRAINB" ∈ Table.warnings_of st)
  /\ (Table.applies Table.fast_heart st = true
      <-> exists hr, Table.heart_rate_of st = Some hr /\ (inject_Z 110 <= Py.value hr)%Q)
  /\ (Table.applies (Table.slow_heart true) st = true
      <-> exists hr, Table.heart_rate_of st = Some hr
                     /\ ~ (Py.value hr == 0)%Q /\ (Py.value hr <= inject_Z 50)%Q)
  /\ (Table.applies (Table.short_sleep true) st = true
      <-> exists s, Table.sleep_of st = Some s
                    /\ ~ (Py.value s == 0)%Q /\ (Py.value s < inject_Z 6)%Q).
Proof.
  unfold Table.hot, Table.warm, Table.cold, Table.humid, Table.warned, Table.fast_heart,
    Table.slow_heart, Table.short_sleep, Table.on, Table.counts, has_warning.
  cbn [Table.applies].
  assert (forall (o : option num) (test : num -> bool) (P : num -> Prop),
            (forall x, test x = true <-> P x) ->
            from_option test false o = true <-> exists x, o = Some x /\ P x) as Hon.
  { intros o test P Htest. destruct o as [x|]; cbn.
    - rewrite Htest. split; [eauto | by intros (y & [= <-] & Hy)].
    - split; [discriminate | by intros (y & [=] & _)]. }
  repeat split.
  all: try (apply Hon; intros x;
            rewrite ?andb_true_iff, ?PyFacts.ge_spec, ?PyFacts.le_spec, ?PyFacts.lt_spec,
              ?PyFacts.truthy_spec; tauto).
  all: rewrite ?orb_true_iff, ?bool_decide_eq_true; tauto.
Qed.

(** ** The template path *)

(** C10 (amended).  On the low-risk path the message is the base sentence
    when the snapshot has no active weather warning and the caution
    sentence otherwise, with the activity clause appended exactly when
    the steps reading is present, is not zero and is below 3000 (a step
    count of zero is handled like an absent one); the route is
    "template" and the evidence is the evaluation's list of reasons. *)
Theorem template_path_message (evaluation : RiskEvaluation) (st : State) :
  let result := _run_template_path evaluation st in
  let opening :=
    if decide (Table.warnings_of st = []) then base_sentence else caution_sentence in
  RouteResult.route result = "template"
  /\ RouteResult.risk_level result = level evaluation
  /\ RouteResult.evidence result = Some (Reasons (reasons evaluation))
  /\ RouteResult.reminder_ids result = None
  /\ (few_steps st -> RouteResult.message result = opening +:+ activity_clause)
  /\ (~ few_steps st -> RouteResult.message result = opening).
Proof.
  cbv zeta. unfold _run_template_path. cbn [RouteResult.route RouteResult.risk_level
    RouteResult.evidence RouteResult.reminder_ids RouteResult.message].
  repeat (split; [reflexivity|]).
  assert (match warnings (get_weather st) with
          | Some (_ :: _) => caution_sentence
          | _ => base_sentence
          end
          = if decide (Table.warnings_of st = []) then base_sentence else caution_sentence)
    as Eopen.
  { unfold Table.warnings_of, get_warnings.
    destruct (warnings (get_weather st)) as [[|c cs]|]; cbn;
      case_decide; congruence. }
  unfold few_steps, Table.steps_of.
  destruct (Py.guarded (steps (get_vitals st)) (fun s => Py.lt s 3000)) eqn:Eg.
  - split; [intros _ | intros Hn].
    + rewrite <- Eopen. destruct (warnings (get_weather st)) as [[|c cs]|]; reflexivity.
    + exfalso. apply Hn. by apply PyFacts.guarded_lt.
  - split; [intros Hf | intros _].
    + apply PyFacts.guarded_lt in Hf. congruence.
    + rewrite <- Eopen. destruct (warnings (get_weather st)) as [[|c cs]|]; reflexivity.
Qed.

(** C10, as stated, fails on a snapshot that counts zero steps: zero is
    below 3000, yet the message is the bare base sentence. *)
Lemma template_skips_zero_steps :
  Table.steps_of Snapshots.idle = Some (PyInt 0)
  /\ (Py.value (PyInt 0) < inject_Z 3000)%Q
  /\ RouteResult.message (_run_template_path (evaluate Snapshots.idle) Snapshots.idle)
     <> base_sentence +:+ activity_clause.
Proof.
  split; [reflexivity|]. split; [reflexivity|].
  vm_compute. discriminate.
Qed.

(** ** Effects of the memory, the publisher and the store *)

Section Effects.
Context `{Runtime} `{Collaborators}.

Lemma add_event_eq user_id content event_type importance extra w :
  add_event user_id content event_type importance extra w
  = _add_documents
      (event_document user_id content event_type importance extra (utc_clock (ticks w)))
      (set_ticks (S (ticks w)) w).
Proof. reflexivity. Qed.

(** Writing to the memory touches neither the database nor the outbox,
    whether it returns or raises. *)
Lemma add_event_frame user_id content event_type importance extra w :
  let w' := fst (add_event user_id content event_type importance extra w) in
  db w' = db w /\ outbox w' = outbox w /\ ticks w' = S (ticks w).
Proof.
  cbv zeta. rewrite add_event_eq. unfold _add_documents.
  destruct (add_documents_result _ _) as [|[] e]; cbn; auto.
Qed.

Lemma add_event_accepted user_id content event_type importance extra w :
  memory_accepts ->
  add_event user_id content event_type importance extra w
  = (set_timeline
       (timeline w ++ [event_document user_id content event_type importance extra
                         (utc_clock (ticks w))])
       (set_ticks (S (ticks w)) w),
     Return tt).
Proof.
  intros Hacc. rewrite add_event_eq. unfold _add_documents.
  rewrite Hacc. reflexivity.
Qed.

Lemma log_reminder_event_frame user_id reminder_id status note w :
  let w' := fst (log_reminder_event user_id reminder_id status note w) in
  db w' = db w /\ outbox w' = outbox w /\ ticks w' = S (ticks w).
Proof. unfold log_reminder_event. apply add_event_frame. Qed.

Lemma log_reminder_event_accepted user_id reminder_id status note w :
  memory_accepts ->
  exists doc,
    log_reminder_event user_id reminder_id status note w
    = (set_timeline (timeline w ++ [doc]) (set_ticks (S (ticks w)) w), Return tt).
Proof.
  intros Hacc. unfold log_reminder_event. rewrite add_event_accepted by assumption.
  eauto.
Qed.

(** [publish] never raises and touches neither the database nor the
    memory. *)
Lemma publish_frame p reminder event w :
  exists w', publish p reminder event w = (w', Return tt)
             /\ db w' = db w /\ timeline w' = timeline w
             /\ ticks w' = (ticks w + (if available p then 1 else 0))%nat.
Proof.
  unfold publish. destruct (available p); cbn [negb].
  - run. unfold utcnow, try_except, client_publish. cbn.
    destruct (mqtt_publish_error _); eexists; (split; [reflexivity|]); cbn;
      repeat split; lia.
  - exists w. run. repeat split. lia.
Qed.

End Effects.

(** ** The store: row ids *)

Section StoreFacts.

Lemma max_rowid_insert (m : gmap Z ReminderRow.t) i r :
  m !! i = None -> max_rowid (<[i := r]> m) = Z.max i (max_rowid m).
Proof.
  intros Hi. unfold max_rowid.
  apply (map_fold_insert_L (fun i (_ : ReminderRow.t) acc => Z.max i acc)); [|assumption].
  intros; lia.
Qed.

(** Every row id of the table is below the maximum. *)
Lemma max_rowid_ge (m : gmap Z ReminderRow.t) i r : m !! i = Some r -> i <= max_rowid m.
Proof.
  revert i r. induction m as [|j x m Hj IH] using map_ind; intros i r Hi.
  - by rewrite lookup_empty in Hi.
  - rewrite max_rowid_insert by assumption.
    destruct (decide (j = i)) as [->|Hne].
    + lia.
    + rewrite lookup_insert_ne in Hi by assumption.
      pose proof (IH _ _ Hi). lia.
Qed.

(** [AUTOINCREMENT] gives an id no row has. *)
Lemma next_rowid_fresh s : reminders s !! next_rowid s = None.
Proof.
  destruct (reminders s !! next_rowid s) as [r|] eqn:E; [|reflexivity].
  apply max_rowid_ge in E. unfold next_rowid in E. lia.
Qed.

Lemma next_rowid_above s i r : reminders s !! i = Some r -> i < next_rowid s.
Proof. intros Hi. apply max_rowid_ge in Hi. unfold next_rowid. lia. Qed.

(** After an insertion the next id is the following integer. *)
Lemma next_rowid_insert s r :
  next_rowid {| reminders := <[next_rowid s := r]> (reminders s);
                sqlite_sequence := next_rowid s |}
  = next_rowid s + 1.
Proof.
  unfold next_rowid at 1. cbn [reminders sqlite_sequence].
  rewrite max_rowid_insert by apply next_rowid_fresh.
  unfold next_rowid. lia.
Qed.

End StoreFacts.

(** ** [ReminderManager]: creation and status updates *)

Section ManagerFacts.
Context `{Runtime} `{Collaborators}.

(** When the memory accepts the lifecycle event, [create_reminder]
    returns the inserted row, pending, under the next row id. *)
Lemma create_reminder_accepted self content user_id severity due_time repeat_rule tags w :
  memory_accepts ->
  let i := next_rowid (db w) in
  let row :=
    ReminderRow.mk user_id content severity
      match due_time with
      | Some (AtInstant dt) => Some (isoformat dt)
      | Some (AsText s) => Some s
      | None => None
      end
      repeat_rule "pending"
      match tags with
      | Some (t :: ts) => Some (String.concat "," (t :: ts))
      | _ => None
      end
      (current_timestamp (utc_clock (ticks w))) in
  exists w',
    create_reminder self content user_id severity due_time repeat_rule tags w
    = (w', Return {| id := i; cols := row |})
    /\ db w' = {| reminders := <[i := row]> (reminders (db w)); sqlite_sequence := i |}
    /\ ticks w' = (ticks w + create_reads self)%nat.
Proof.
  intros Hacc. cbv zeta. unfold create_reminder. run. unfold utcnow, from_row.
  cbn [db set_db set_ticks ticks reminders].
  rewrite lookup_insert_eq. run. cbn [id].
  match goal with
  | |- context [log_reminder_event ?u ?i ?s ?n ?w0] =>
      destruct (log_reminder_event_accepted u i s n w0 Hacc) as [doc ->]
  end.
  unfold create_reads, publisher_reads.
  destruct (publisher self) as [p|].
  - match goal with
    | |- context [publish p ?r ?e ?w0] =>
        destruct (publish_frame p r e w0) as (w' & -> & Hdb & _ & Htk)
    end.
    exists w'. split; [reflexivity|]. rewrite Hdb, Htk. cbn.
    split; [reflexivity | destruct (available p); lia].
  - eexists. split; [reflexivity|]. cbn. split; [reflexivity | lia].
Qed.

End ManagerFacts.

(** ** The care macros *)

Section MacroFacts.
Context `{Runtime} `{Collaborators}.

(** The evening the sleep macro computes is the next 22:00: today's if
    it is still ahead, tomorrow's otherwise. *)
Lemma evening_is_next now :
  next_evening now
    (if replace_hour now 22 <=? now then replace_hour now 22 + days 1
     else replace_hour now 22).
Proof.
  unfold next_evening, replace_hour.
  assert (days 1 = 86400000000) as Ed by reflexivity.
  assert (hours 22 = 79200000000) as Eh by reflexivity.
  rewrite Ed, Eh.
  pose proof (Z.mod_pos_bound now 86400000000 ltac:(lia)) as Hm.
  assert (forall k, (now - now mod 86400000000 + k) mod 86400000000 = k mod 86400000000)
    as Hshift.
  { intros k. rewrite (Z.div_mod now 86400000000) at 1 by lia.
    replace (86400000000 * (now / 86400000000) + now mod 86400000000
             - now mod 86400000000 + k)
      with (k + (now / 86400000000) * 86400000000) by lia.
    apply Z.mod_add. lia. }
  destruct (Z.leb_spec (now - now mod 86400000000 + 79200000000) now).
  - split; [lia|].
    replace (now - now mod 86400000000 + 79200000000 + 86400000000)
      with (now - now mod 86400000000 + (79200000000 + 86400000000)) by lia.
    rewrite Hshift. reflexivity.
  - split; [lia|]. rewrite Hshift. reflexivity.
Qed.

Lemma heat_macro_accepted self user w :
  memory_accepts ->
  let n := next_rowid (db w) in
  let now := utc_clock (ticks w) in
  exists w' r1 r2,
    _heat_macro self user w
    = (w', Return {| macro_message := heat_sentence;
                     macro_reminders := [ {| id := n; cols := r1 |};
                                          {| id := n + 1; cols := r2 |} ] |})
    /\ db w' = {| reminders := <[n + 1 := r2]> (<[n := r1]> (reminders (db w)));
                  sqlite_sequence := n + 1 |}
    /\ ticks w' = (ticks w + (1 + 2 * create_reads self))%nat
    /\ planned r1 user hydration_content "high" (isoformat (now + minutes 30))
         "heat,hydration"
    /\ planned r2 user family_content "high" (isoformat (now + hours 1)) "family,safety".
Proof.
  intros Hacc. cbv zeta. unfold _heat_macro. run. unfold utcnow.
  match goal with
  | |- context [create_reminder self ?c ?u ?s ?d ?r ?t ?w0] =>
      destruct (create_reminder_accepted self c u s d r t w0 Hacc) as (w1 & -> & Hdb1 & Htk1)
  end.
  match goal with
  | |- context [create_reminder self ?c ?u ?s ?d ?r ?t w1] =>
      destruct (create_reminder_accepted self c u s d r t w1 Hacc) as (w2 & -> & Hdb2 & Htk2)
  end.
  cbn [db set_ticks ticks] in *.
  rewrite Hdb1 in Hdb2 |- *. rewrite next_rowid_insert in Hdb2 |- *.
  cbn [reminders] in Hdb2.
  do 3 eexists. split; [reflexivity|]. split; [exact Hdb2|].
  split; [lia|]. split; repeat split.
Qed.

Lemma sleep_macro_accepted self user w :
  memory_accepts ->
  let n := next_rowid (db w) in
  let now := utc_clock (ticks w) in
  exists w' r1 r2 evening,
    _sleep_macro self user w
    = (w', Return {| macro_message := sleep_sentence;
                     macro_reminders := [ {| id := n; cols := r1 |};
                                          {| id := n + 1; cols := r2 |} ] |})
    /\ db w' = {| reminders := <[n + 1 := r2]> (<[n := r1]> (reminders (db w)));
                  sqlite_sequence := n + 1 |}
    /\ ticks w' = (ticks w + (1 + 2 * create_reads self))%nat
    /\ next_evening now evening
    /\ planned r1 user wind_down_content "medium" (isoformat evening) "sleep,routine"
    /\ planned r2 user sleep_log_content "low" (isoformat (now + hours 12))
         "sleep,tracking".
Proof.
  intros Hacc. cbv zeta. unfold _sleep_macro. run. unfold utcnow.
  match goal with
  | |- context [create_reminder self ?c ?u ?s ?d ?r ?t ?w0] =>
      destruct (create_reminder_accepted self c u s d r t w0 Hacc) as (w1 & -> & Hdb1 & Htk1)
  end.
  match goal with
  | |- context [create_reminder self ?c ?u ?s ?d ?r ?t w1] =>
      destruct (create_reminder_accepted self c u s d r t w1 Hacc) as (w2 & -> & Hdb2 & Htk2)
  end.
  cbn [db set_ticks ticks] in *.
  rewrite Hdb1 in Hdb2 |- *. rewrite next_rowid_insert in Hdb2 |- *.
  cbn [reminders] in Hdb2.
  do 4 eexists. split; [reflexivity|]. split; [exact Hdb2|].
  split; [lia|]. split; [apply evening_is_next|]. split; repeat split.
Qed.

End MacroFacts.

Section RunFacts.
Context `{Runtime} `{Collaborators}.

Ltac lookups :=
  repeat first [ rewrite lookup_insert_eq | rewrite lookup_insert_ne by lia ].

(** The two conditions of [run], read on the snapshot. *)
Lemma heat_condition_spec st :
  heat_condition st = true
  <-> (exists t, Table.temp_of st = Some t /\ (inject_Z 33 <= Py.value t)%Q)
      \/ "WHOT" ∈ Table.warnings_of st.
Proof.
  unfold heat_condition, has_warning, Table.temp_of, Table.warnings_of.
  rewrite orb_true_iff, PyFacts.guarded_ge by lia.
  rewrite bool_decide_eq_true. reflexivity.
Qed.

Lemma sleep_condition_spec st :
  sleep_condition st = true
  <-> exists s, Table.sleep_of st = Some s
                /\ ~ (Py.value s == 0)%Q /\ (Py.value s < inject_Z 6)%Q.
Proof. unfold sleep_condition, Table.sleep_of. apply PyFacts.guarded_lt. Qed.

(** C3.  Whenever neither the heat macro nor the sleep macro fires,
    [run] returns route "macro" with the single generic caution message
    and an empty [reminder_ids] list, and leaves the world as it was: no
    reminder is created, whatever the risk level of the evaluation, the
    high level included. *)
Theorem run_without_macro (self : ReminderManager) (evaluation : RiskEvaluation)
    (st : State) (w : World) :
  heat_condition st = false ->
  sleep_condition st = false ->
  run self evaluation st w
  = (w, Return {| RouteResult.route := "macro";
                  RouteResult.risk_level := level evaluation;
                  RouteResult.message := caution_message;
                  RouteResult.reminder_ids := Some [];
                  RouteResult.evidence := None |}).
Proof.
  intros Hheat Hsleep. unfold run. rewrite Hheat, Hsleep. reflexivity.
Qed.

(** C2 (amended).  When the memory accepts the lifecycle events, [run]
    returns, and: the heat macro fires exactly when temperature >= 33 or
    "WHOT" is among the warnings, creating a hydration reminder due 30
    minutes after the macro's clock reading and a family-contact reminder
    due 1 hour after it, both of severity high; the sleep macro fires
    exactly when the sleep reading is present, is not zero and is below 6
    (a sleep of zero is handled like an absent reading), creating a
    wind-down reminder due at the next 22:00 after the macro's clock
    reading (severity medium) and a sleep-logging reminder due 12 hours
    after it (severity low); all four are pending; the message joins the
    sentences of the fired macros with newlines, heat first, and
    [reminder_ids] lists the ids of the created reminders in that order;
    no other row of the table changes. *)
Theorem run_fires_macros (self : ReminderManager) (evaluation : RiskEvaluation)
    (st : State) (w : World) :
  memory_accepts ->
  let heat := heat_condition st in
  let short := sleep_condition st in
  let user := get_user_id st in
  let first := next_rowid (db w) in
  let third := if heat then first + 2 else first in
  let heat_now := utc_clock (ticks w) in
  let sleep_now :=
    utc_clock (ticks w + (if heat then 1 + 2 * create_reads self else 0))%nat in
  let heat_ids := if heat then [first; first + 1] else [] in
  let sleep_ids := if short then [third; third + 1] else [] in
  (heat = true
   <-> (exists t, Table.temp_of st = Some t /\ (inject_Z 33 <= Py.value t)%Q)
       \/ "WHOT" ∈ Table.warnings_of st)
  /\ (short = true
      <-> exists s, Table.sleep_of st = Some s
                    /\ ~ (Py.value s == 0)%Q /\ (Py.value s < inject_Z 6)%Q)
  /\ exists w' result,
      run self evaluation st w = (w', Return result)
      /\ RouteResult.route result = "macro"
      /\ RouteResult.risk_level result = level evaluation
      /\ RouteResult.reminder_ids result = Some (heat_ids ++ sleep_ids)
      /\ (heat || short = true ->
          RouteResult.message result
          = join_lines ((if heat then [heat_sentence] else [])
                        ++ (if short then [sleep_sentence] else [])))
      /\ (heat = true ->
          exists r1 r2,
            reminders (db w') !! first = Some r1
            /\ reminders (db w') !! (first + 1) = Some r2
            /\ planned r1 user hydration_content "high"
                 (isoformat (heat_now + minutes 30)) "heat,hydration"
            /\ planned r2 user family_content "high"
                 (isoformat (heat_now + hours 1)) "family,safety")
      /\ (short = true ->
          exists r3 r4 evening,
            reminders (db w') !! third = Some r3
            /\ reminders (db w') !! (third + 1) = Some r4
            /\ next_evening sleep_now evening
            /\ planned r3 user wind_down_content "medium" (isoformat evening)
                 "sleep,routine"
            /\ planned r4 user sleep_log_content "low"
                 (isoformat (sleep_now + hours 12)) "sleep,tracking")
      /\ (forall i, i ∉ heat_ids ++ sleep_ids ->
                    reminders (db w') !! i = reminders (db w) !! i).
Proof.
  intros Hacc. cbv zeta.
  split; [apply heat_condition_spec|]. split; [apply sleep_condition_spec|].
  unfold run. run.
  destruct (heat_condition st) eqn:Eheat; destruct (sleep_condition st) eqn:Esleep.
  - (* both macros *)
    destruct (heat_macro_accepted self (get_user_id st) w Hacc)
      as (w1 & r1 & r2 & -> & Hdb1 & Htk1 & Hp1 & Hp2).
    destruct (sleep_macro_accepted self (get_user_id st) w1 Hacc)
      as (w2 & r3 & r4 & evening & -> & Hdb2 & Htk2 & Hev & Hp3 & Hp4).
    assert (next_rowid (db w1) = next_rowid (db w) + 2) as En.
    { rewrite Hdb1.
      replace (next_rowid (db w) + 1)
        with (next_rowid {| reminders := <[next_rowid (db w) := r1]> (reminders (db w));
                            sqlite_sequence := next_rowid (db w) |})
        by apply next_rowid_insert.
      rewrite next_rowid_insert, next_rowid_insert. lia. }
    rewrite En in Hdb2 |- *. rewrite Htk1 in Hev, Hp4. rewrite Hdb1 in Hdb2.
    cbn [reminders] in Hdb2.
    pose proof (next_rowid_fresh (db w)) as Hfresh.
    do 2 eexists. split; [reflexivity|]. cbn.
    do 3 (split; [reflexivity|]).
    split; [intros _; reflexivity|]. rewrite Hdb2. cbn [reminders].
    split; [|split].
    + intros _. exists r1, r2.
      lookups. auto.
    + intros _. exists r3, r4, evening.
      lookups. auto.
    + intros i Hi. rewrite !not_elem_of_cons in Hi.
      destruct Hi as (? & ? & ? & ? & _).
      lookups. reflexivity.
  - (* the heat macro alone *)
    destruct (heat_macro_accepted self (get_user_id st) w Hacc)
      as (w1 & r1 & r2 & -> & Hdb1 & Htk1 & Hp1 & Hp2).
    do 2 eexists. split; [reflexivity|]. cbn.
    do 3 (split; [reflexivity|]).
    split; [intros _; reflexivity|]. rewrite Hdb1. cbn [reminders].
    split; [|split].
    + intros _. exists r1, r2.
      lookups. auto.
    + discriminate.
    + intros i Hi. rewrite !not_elem_of_cons in Hi.
      destruct Hi as (? & ? & _).
      lookups. reflexivity.
  - (* the sleep macro alone *)
    destruct (sleep_macro_accepted self (get_user_id st) w Hacc)
      as (w2 & r3 & r4 & evening & -> & Hdb2 & Htk2 & Hev & Hp3 & Hp4).
    rewrite Nat.add_0_r.
    do 2 eexists. split; [reflexivity|]. cbn.
    do 3 (split; [reflexivity|]).
    split; [intros _; reflexivity|]. rewrite Hdb2. cbn [reminders].
    split; [|split].
    + discriminate.
    + intros _. exists r3, r4, evening.
      lookups. auto.
    + intros i Hi. rewrite !not_elem_of_cons in Hi.
      destruct Hi as (? & ? & _).
      lookups. reflexivity.
  - (* neither *)
    do 2 eexists. split; [reflexivity|]. cbn.
    do 3 (split; [reflexivity|]).
    split; [discriminate|]. split; [discriminate|]. split; [discriminate|].
    reflexivity.
Qed.

End RunFacts.

(** ** Status updates and the due-time sweep *)

Section SweepFacts.
Context `{Runtime} `{Collaborators}.

(** Whatever happens afterwards (a missing row, a failed memory write),
    [update_status] has run its [UPDATE]: the status of row [i], if
    there is one, is overwritten, and nothing else in the database
    changes. *)
Lemma update_status_db self i status note user propagate w :
  db (fst (update_status self i status note user propagate w))
  = {| reminders := alter (ReminderRow.set_status status) i (reminders (db w));
       sqlite_sequence := sqlite_sequence (db w) |}.
Proof.
  unfold update_status. run. unfold from_row. cbn [db set_db reminders].
  destruct (alter _ i _ !! i) as [r|]; run; [|reflexivity].
  match goal with
  | |- context [log_reminder_event ?u ?j ?s ?n ?w0] =>
      pose proof (log_reminder_event_frame u j s n w0) as (Hdb & _);
      destruct (log_reminder_event u j s n w0) as [w1 [[]|e]]
  end; cbn [fst] in *; [|exact Hdb].
  destruct (publisher self) as [p|]; [destruct propagate|].
  - destruct (publish_frame p {| id := i; cols := r |} status w1) as (w2 & -> & Hdb2 & _).
    cbn [fst]. rewrite Hdb2. exact Hdb.
  - exact Hdb.
  - exact Hdb.
Qed.

(** With [propagate_mqtt=False] nothing is handed to the MQTT client. *)
Lemma update_status_quiet self i status note user w :
  outbox (fst (update_status self i status note user false w)) = outbox w.
Proof.
  unfold update_status. run. unfold from_row. cbn [db set_db reminders].
  destruct (alter _ i _ !! i) as [r|]; run; [|reflexivity].
  match goal with
  | |- context [log_reminder_event ?u ?j ?s ?n ?w0] =>
      pose proof (log_reminder_event_frame u j s n w0) as (_ & Hout & _);
      destruct (log_reminder_event u j s n w0) as [w1 [[]|e]]
  end; cbn [fst] in *; [|exact Hout].
  destruct (publisher self) as [p|]; exact Hout.
Qed.





End SweepFacts.

Section SweepTheorem.
Context `{Runtime} `{Collaborators}.



Lemma select_where_elem cond s i r :
  (i, r) ∈ select_where cond s <-> reminders s !! i = Some r /\ cond r = true.
Proof.
  unfold select_where. rewrite list_elem_of_In, filter_In, <- list_elem_of_In.
  rewrite elem_of_map_to_list. reflexivity.
Qed.


Lemma select_where_ids_NoDup cond s : NoDup (fst <$> select_where cond s).
Proof.
  unfold select_where.
  pose proof (NoDup_fst_map_to_list (reminders s)) as Hnd.
  induction (map_to_list (reminders s)) as [|[i r] l IH]; cbn; [constructor|].
  apply NoDup_cons in Hnd as [Hi Hnd].
  destruct (cond r); cbn; [|by apply IH].
  apply NoDup_cons. split; [|by apply IH].
  intros Hin. apply Hi. apply list_elem_of_fmap in Hin as ([j x] & -> & Hjx).
  apply list_elem_of_fmap. exists (j, x). split; [reflexivity|].
  apply list_elem_of_In. apply list_elem_of_In in Hjx. apply filter_In in Hjx. tauto.
Qed.

(** Called without [now], the sweep reads the clock once and proceeds
    as if it had been given that reading. *)
Lemma trigger_due_default_now self w :
  trigger_due_reminders self None w
  = trigger_due_reminders self (Some (utc_clock (ticks w))) (set_ticks (S (ticks w)) w).
Proof. reflexivity. Qed.


End SweepTheorem.

(** ** The synchroniser *)

Section SyncFacts.
Context `{Runtime} `{Collaborators}.

(** C5.  A received sync event whose [source] equals the local origin
    identity is discarded: processing it returns without changing the
    world (the store, the memory, the outbox), whatever event value and
    reminder status it carries. *)
Theorem on_message_discards_own (self : ReminderSync) (msg : Wire.message) (w : World) :
  Wire.source msg = Some (source_id self) ->
  _on_message self (Some msg) w = (w, Return tt).
Proof.
  intros Hsrc. unfold _on_message. rewrite bool_decide_eq_true_2 by assumption.
  reflexivity.
Qed.

(** [try: update_status(...) except Exception: log] never raises. *)
Lemma guarded_update_returns self i status note user propagate w :
  try_except (update_status self i status note user propagate ;; mret tt)
    (fun _ => mret tt) w
  = (fst (update_status self i status note user propagate w), Return tt).
Proof.
  unfold try_except. run.
  destruct (update_status self i status note user propagate w) as [w' [r|e]]; reflexivity.
Qed.

(** No message, of any shape, makes the synchroniser publish. *)
Lemma on_message_never_publishes self decoded w :
  outbox (fst (_on_message self decoded w)) = outbox w.
Proof.
  unfold _on_message. destruct decoded as [msg|]; [|reflexivity].
  case_bool_decide; [reflexivity|].
  destruct (Wire.event msg) as [ev|]; [|reflexivity].
  destruct (Wire.id _) as [rid|]; [|reflexivity].
  destruct (bool_decide (ev ∈ status_events) && negb (rid =? 0)); [|reflexivity].
  rewrite guarded_update_returns. cbn [fst]. apply update_status_quiet.
Qed.

(** C6.  Applying an accepted remote sync event (an event among
    completed, ignored, pending and triggered, from another origin, with
    a reminder id) never publishes: nothing is handed to the MQTT client
    and the handler returns, whether or not the update raised.  For a
    row id, which is never zero, it runs the store's [update_status] on
    that id with the derived status and with propagation switched off,
    overwriting the status of that row; an id of zero, which no row has,
    is passed over like a missing id. *)
Theorem on_message_applies_quietly (self : ReminderSync) (msg : Wire.message)
    (ev : string) (rid : Z) (w : World) :
  Wire.source msg <> Some (source_id self) ->
  Wire.event msg = Some ev ->
  ev ∈ status_events ->
  Wire.id (reminder_of msg) = Some rid ->
  let status := str_or (Wire.status (reminder_of msg)) ev in
  let user := str_or (Wire.user_id (reminder_of msg)) DEFAULT_USER_ID in
  let w' := fst (_on_message self (Some msg) w) in
  snd (_on_message self (Some msg) w) = Return tt
  /\ outbox w' = outbox w
  /\ (rid <> 0 ->
      w' = fst (update_status (manager self) rid status None user false w)
      /\ db w' = {| reminders := alter (ReminderRow.set_status status) rid (reminders (db w));
                    sqlite_sequence := sqlite_sequence (db w) |})
  /\ (rid = 0 -> w' = w).
Proof.
  intros Hsrc Hev Hin Hid. cbv zeta.
  split; [|split; [apply on_message_never_publishes|split]].
  - unfold _on_message. rewrite bool_decide_eq_false_2 by assumption.
    fold (reminder_of msg). rewrite Hev, Hid.
    destruct (bool_decide (ev ∈ status_events) && negb (rid =? 0)); [|reflexivity].
    rewrite guarded_update_returns. reflexivity.
  - intros Hrid.
    assert (_on_message self (Some msg) w
            = (fst (update_status (manager self) rid
                      (str_or (Wire.status (reminder_of msg)) ev) None
                      (str_or (Wire.user_id (reminder_of msg)) DEFAULT_USER_ID) false w),
               Return tt)) as E.
    { unfold _on_message. rewrite bool_decide_eq_false_2 by assumption.
      fold (reminder_of msg). rewrite Hev, Hid.
      rewrite bool_decide_eq_true_2 by assumption.
      assert ((rid =? 0) = false) as -> by lia.
      cbn [negb andb]. apply guarded_update_returns. }
    rewrite E. cbn [fst]. split; [reflexivity | apply update_status_db].
  - intros ->. unfold _on_message. rewrite bool_decide_eq_false_2 by assumption.
    fold (reminder_of msg). rewrite Hev, Hid.
    rewrite andb_false_r. reflexivity.
Qed.

End SyncFacts.

(** ** The status invariant *)

Section InvariantFacts.
Context `{Runtime} `{Collaborators}.

(** Whatever happens after the [INSERT] (a failed memory write
    included), the table holds one more row, pending, under a new id;
    a reminder that is returned is that row. *)
Lemma create_reminder_db self content user severity due_time repeat_rule tags w :
  exists row,
    db (fst (create_reminder self content user severity due_time repeat_rule tags w))
    = {| reminders := <[next_rowid (db w) := row]> (reminders (db w));
         sqlite_sequence := next_rowid (db w) |}
    /\ ReminderRow.status row = "pending"
    /\ forall r,
         snd (create_reminder self content user severity due_time repeat_rule tags w)
         = Return r ->
         r = {| id := next_rowid (db w); cols := row |}.
Proof.
  unfold create_reminder. run. unfold utcnow, from_row.
  cbn [db set_db set_ticks ticks reminders].
  rewrite lookup_insert_eq. run. cbn [id].
  eexists.
  match goal with
  | |- context [log_reminder_event ?u ?i ?s ?n ?w0] =>
      pose proof (log_reminder_event_frame u i s n w0) as (Hdb & _);
      destruct (log_reminder_event u i s n w0) as [w1 [[]|e]]
  end; cbn [fst snd] in *.
  - destruct (publisher self) as [p|].
    + match goal with
      | |- context [publish p ?r ?e ?w0] =>
          destruct (publish_frame p r e w0) as (w2 & -> & Hdb2 & _)
      end.
      cbn [fst snd]. rewrite Hdb2, Hdb.
      split; [reflexivity|]. split; [reflexivity | by intros r [= <-]].
    + cbn [fst snd]. rewrite Hdb.
      split; [reflexivity|]. split; [reflexivity | by intros r [= <-]].
  - rewrite Hdb. split; [reflexivity|]. split; [reflexivity | intros r [=]].
Qed.

Lemma valid_after_insert s i row :
  valid_statuses s -> ReminderRow.status row ∈ statuses ->
  valid_statuses {| reminders := <[i := row]> (reminders s); sqlite_sequence := i |}.
Proof.
  intros Hv Hrow j r. cbn [reminders].
  destruct (decide (i = j)) as [->|Hne].
  - rewrite lookup_insert_eq. by intros [= <-].
  - rewrite lookup_insert_ne by assumption. apply Hv.
Qed.

Lemma valid_after_update s i status seq :
  valid_statuses s -> status ∈ statuses ->
  valid_statuses {| reminders := alter (ReminderRow.set_status status) i (reminders s);
                    sqlite_sequence := seq |}.
Proof.
  intros Hv Hst j r. cbn [reminders].
  destruct (decide (i = j)) as [->|Hne].
  - rewrite lookup_alter_eq. destruct (reminders s !! j); [|discriminate].
    by intros [= <-].
  - rewrite lookup_alter_ne by assumption. apply Hv.
Qed.

Lemma update_status_valid self i status note user propagate w :
  valid_statuses (db w) -> status ∈ statuses ->
  valid_statuses (db (fst (update_status self i status note user propagate w))).
Proof. intros Hv Hst. rewrite update_status_db. by apply valid_after_update. Qed.

(** A loop keeps what each of its rounds keeps, also when a round raises
    and the loop stops there. *)
Lemma for_each_keeps {A} (P : World -> Prop) (body : A -> M unit) (l : list A) w :
  (forall x w0, P w0 -> P (fst (body x w0))) ->
  P w -> P (fst (for_each body l w)).
Proof.
  intros Hbody. revert w. induction l as [|x l IH]; intros w Hw; [exact Hw|].
  cbn [for_each]. run. specialize (Hbody x w Hw).
  destruct (body x w) as [w1 [[]|e]]; cbn [fst] in *; [by apply IH | exact Hbody].
Qed.

Lemma trigger_due_valid self now w :
  valid_statuses (db w) ->
  valid_statuses (db (fst (trigger_due_reminders self now w))).
Proof.
  intros Hv. unfold trigger_due_reminders. run.
  assert (forall (l : list Reminder) w0, valid_statuses (db w0) ->
            valid_statuses (db (fst (for_each (trigger_one self) l w0)))) as Hloop.
  { intros l w0 Hw0. apply (for_each_keeps (fun w => valid_statuses (db w))); [|exact Hw0].
    intros r w1 Hw1. unfold trigger_one. run.
    pose proof (update_status_valid self (id r) "triggered" None
                  (ReminderRow.user_id (cols r)) true w1 Hw1) as Hup.
    destruct (update_status _ _ _ _ _ _ w1) as [w2 [x|e]]; cbn [fst] in *;
      apply Hup; unfold statuses; rewrite !elem_of_cons; auto. }
  destruct now as [t|].
  - match goal with
    | |- context [for_each ?b ?l w] =>
        change (for_each b l w) with (for_each (trigger_one self) l w);
        specialize (Hloop l w Hv);
        destruct (for_each (trigger_one self) l w) as [w1 [[]|e]]
    end; exact Hloop.
  - unfold utcnow.
    match goal with
    | |- context [for_each ?b ?l ?w0] =>
        change (for_each b l w0) with (for_each (trigger_one self) l w0);
        specialize (Hloop l w0 Hv);
        destruct (for_each (trigger_one self) l w0) as [w1 [[]|e]]
    end; exact Hloop.
Qed.

Lemma status_events_are_statuses ev : ev ∈ status_events -> ev ∈ statuses.
Proof.
  unfold status_events, statuses. rewrite !elem_of_cons, elem_of_nil.
  intros [->|[->|[->|[->|[]]]]]; auto 6.
Qed.

Lemma on_message_valid self decoded w :
  valid_statuses (db w) ->
  (forall msg s, decoded = Some msg -> Wire.status (reminder_of msg) = Some s ->
                 s <> "" -> s ∈ statuses) ->
  valid_statuses (db (fst (_on_message self decoded w))).
Proof.
  intros Hv Hst. unfold _on_message. destruct decoded as [msg|]; [|exact Hv].
  case_bool_decide; [exact Hv|].
  fold (reminder_of msg).
  destruct (Wire.event msg) as [ev|]; [|exact Hv].
  destruct (Wire.id _) as [rid|]; [|exact Hv].
  destruct (bool_decide (ev ∈ status_events)) eqn:Eev; cbn [andb]; [|exact Hv].
  destruct (negb (rid =? 0)); [|exact Hv].
  rewrite guarded_update_returns. cbn [fst].
  apply update_status_valid; [exact Hv|].
  apply bool_decide_eq_true in Eev.
  unfold str_or. destruct (Wire.status (reminder_of msg)) as [s|] eqn:Es.
  - destruct (String.eqb s "") eqn:Ee.
    + by apply status_events_are_statuses.
    + apply (Hst msg s); [reflexivity | assumption |].
      intros ->. discriminate.
  - by apply status_events_are_statuses.
Qed.

(** C9 (amended).  From a store in which every reminder has a status
    among pending, triggered, completed and ignored: [create_reminder]
    adds a pending reminder and keeps the invariant;
    [trigger_due_reminders] keeps it; [update_status] writes the status
    it is given without checking it, so it keeps the invariant when that
    status is one of the four; and the synchroniser keeps it when the
    [status] field of the message's reminder is absent, empty, or one of
    the four.  Each operation keeps the invariant whether it returns or
    raises. *)
Theorem status_invariant_preserved (w : World) :
  valid_statuses (db w) ->
  (forall self content user severity due_time repeat_rule tags,
     let out := create_reminder self content user severity due_time repeat_rule tags w in
     valid_statuses (db (fst out))
     /\ forall r, snd out = Return r ->
                  ReminderRow.status (cols r) = "pending"
                  /\ reminders (db (fst out)) !! id r = Some (cols r))
  /\ (forall self now, valid_statuses (db (fst (trigger_due_reminders self now w))))
  /\ (forall self i status note user propagate,
        status ∈ statuses ->
        valid_statuses (db (fst (update_status self i status note user propagate w))))
  /\ (forall self decoded,
        (forall msg s, decoded = Some msg -> Wire.status (reminder_of msg) = Some s ->
                       s <> "" -> s ∈ statuses) ->
        valid_statuses (db (fst (_on_message self decoded w)))).
Proof.
  intros Hv. split; [|split; [|split]].
  - intros self content user severity due_time repeat_rule tags. cbv zeta.
    destruct (create_reminder_db self content user severity due_time repeat_rule tags w)
      as (row & Hdb & Hrow & Hret).
    rewrite Hdb. split.
    + apply valid_after_insert; [exact Hv|]. rewrite Hrow. unfold statuses. constructor.
    + intros r Hr. rewrite (Hret r Hr). cbn [id cols reminders].
      split; [exact Hrow | apply lookup_insert_eq].
  - intros self now. by apply trigger_due_valid.
  - intros self i status note user propagate Hst. by apply update_status_valid.
  - intros self decoded Hst. by apply on_message_valid.
Qed.

End InvariantFacts.

(** ** The route dispatcher *)

Section RouterFacts.
Context `{Runtime} `{Collaborators}.

(** C8.  On the medium-risk path, when the chat model fails on the
    prompt context it is sent (a timeout, a provider error: any
    exception), the failure is caught and the fallback message, which
    states the failure, is substituted; the result is returned with
    route "rag" and its evidence is the prompt context that was sent. *)
Theorem rag_path_falls_back (evaluation : RiskEvaluation) (st : State) (w : World)
    (context : RetrievedContext) (exc : exn) :
  retrieve st (get_user_id st) (timeline w) = Return context ->
  llm_invoke (prompt_of st context) = Raise exc ->
  _run_rag_path evaluation st w
  = (w, Return {| RouteResult.route := "rag";
                  RouteResult.risk_level := level evaluation;
                  RouteResult.message := strip (fallback_message exc);
                  RouteResult.reminder_ids := None;
                  RouteResult.evidence := Some (PromptContext (prompt_of st context)) |}).
Proof.
  intros Hctx Hllm. unfold _run_rag_path. run. rewrite Hctx.
  unfold try_except. run. fold (prompt_of st context). rewrite Hllm.
  reflexivity.
Qed.

(** The medium-risk path returns whenever the memory answers. *)
Lemma rag_path_returns evaluation st w :
  memory_answers ->
  exists result, _run_rag_path evaluation st w = (w, Return result).
Proof.
  intros Hmem. destruct (Hmem st (get_user_id st) (timeline w)) as [context Hctx].
  unfold _run_rag_path. run. rewrite Hctx. unfold try_except. run.
  destruct (llm_invoke _) as [response|exc]; eauto.
Qed.

(** The high-risk path returns whenever the memory accepts the lifecycle
    events of the reminders it creates. *)
Lemma run_returns self evaluation st w :
  memory_accepts ->
  exists w' result, run self evaluation st w = (w', Return result).
Proof.
  intros Hacc. unfold run. run.
  destruct (heat_condition st).
  - destruct (heat_macro_accepted self (get_user_id st) w Hacc)
      as (w1 & r1 & r2 & -> & _).
    destruct (sleep_condition st).
    + destruct (sleep_macro_accepted self (get_user_id st) w1 Hacc)
        as (w2 & r3 & r4 & evening & -> & _). eauto.
    + eauto.
  - destruct (sleep_condition st).
    + destruct (sleep_macro_accepted self (get_user_id st) w Hacc)
        as (w2 & r3 & r4 & evening & -> & _). eauto.
    + eauto.
Qed.

Lemma dispatch_returns self st w :
  memory_accepts -> memory_answers ->
  exists w' result, dispatch self (evaluate st) st w = (w', Return result).
Proof.
  intros Hacc Hmem. unfold dispatch.
  destruct (String.eqb (level (evaluate st)) "high").
  - apply run_returns. exact Hacc.
  - destruct (String.eqb (level (evaluate st)) "medium").
    + destruct (rag_path_returns (evaluate st) st w Hmem) as [result Hr]. eauto.
    + run. eauto.
Qed.

Lemma route_eq self st w :
  route self st w
  = (log_request st ;;
     result ← dispatch self (evaluate st) st;
     log_result st result ;;
     mret result) w.
Proof. reflexivity. Qed.

(** A memory write that returns has appended its document. *)
Lemma add_event_returned user content kind importance extra w w' :
  extra !! "event_type" = None ->
  add_event user content kind importance extra w = (w', Return tt) ->
  exists d, timeline w' = timeline w ++ [d] /\ logged_as kind content d
            /\ db w' = db w /\ outbox w' = outbox w.
Proof.
  intros Hextra. rewrite add_event_eq. unfold _add_documents.
  destruct (add_documents_result _ _) as [|[] e]; intros [= <-].
  eexists. split; [reflexivity|]. split; [|split; reflexivity].
  split; [reflexivity|]. cbn [metadata event_document].
  rewrite lookup_union_r by assumption.
  rewrite lookup_insert_ne by discriminate. apply lookup_insert_eq.
Qed.

(** C7 (amended).  For every state snapshot, [route] logs a
    "routing_request" event to the memory before dispatch and a
    "routing_result" event after dispatch, and neither log call is
    guarded: a failure raised by the request log aborts [route] before
    anything is dispatched, and a failure raised by the result log is
    raised to the caller in place of the RouteResult that dispatch had
    computed.  When both log calls return, [route] returns the result of
    dispatch, with the request document written before dispatch ran and
    the result document after; it does return whenever the memory
    accepts every write and answers every retrieval. *)
Theorem route_logs_around_dispatch (self : ReminderManager) (st : State) (w : World) :
  (forall w1 e,
     log_request st w = (w1, Raise e) ->
     route self st w = (w1, Raise e) /\ db w1 = db w /\ outbox w1 = outbox w)
  /\ (forall w1 w2 result,
        log_request st w = (w1, Return tt) ->
        dispatch self (evaluate st) st w1 = (w2, Return result) ->
        (forall w3 e,
           log_result st result w2 = (w3, Raise e) -> route self st w = (w3, Raise e))
        /\ (forall w3,
              log_result st result w2 = (w3, Return tt) ->
              route self st w = (w3, Return result)
              /\ exists d1 d2,
                   timeline w1 = timeline w ++ [d1]
                   /\ logged_as "routing_request" (request_content (evaluate st)) d1
                   /\ timeline w3 = timeline w2 ++ [d2]
                   /\ logged_as "routing_result" (result_content result) d2))
  /\ (memory_accepts -> memory_answers ->
      exists w' result, route self st w = (w', Return result)).
Proof.
  split; [|split].
  - intros w1 e Hreq. rewrite route_eq. run. rewrite Hreq.
    split; [reflexivity|].
    pose proof (add_event_frame (get_user_id st) (request_content (evaluate st))
                  "routing_request" 1.2%Q {[ "level" := MStr (level (evaluate st)) ]} w)
      as (Hdb & Hout & _).
    unfold log_request in Hreq. rewrite Hreq in Hdb, Hout. auto.
  - intros w1 w2 result Hreq Hdis. split.
    + intros w3 e Hres. rewrite route_eq. run. rewrite Hreq, Hdis, Hres. reflexivity.
    + intros w3 Hres. split.
      * rewrite route_eq. run. rewrite Hreq, Hdis, Hres. reflexivity.
      * apply add_event_returned in Hreq as (d1 & Ht1 & Hl1 & _);
          [|by rewrite lookup_singleton_ne].
        apply add_event_returned in Hres as (d2 & Ht2 & Hl2 & _);
          [|apply lookup_empty].
        exists d1, d2. auto.
  - intros Hacc Hmem. rewrite route_eq. run. unfold log_request, log_result.
    rewrite add_event_accepted by assumption.
    match goal with
    | |- context [dispatch self (evaluate st) st ?w0] =>
        destruct (dispatch_returns self st w0 Hacc Hmem) as (w2 & result & ->)
    end.
    rewrite add_event_accepted by assumption. eauto.
Qed.

End RouterFacts.

(** ** The theorems at work on the reference inputs *)

Lemma reliable_memory_accepts : @memory_accepts Sample.reliable.
Proof. intros timeline document. reflexivity. Defined.

(** C2 at scenario A: both macros fire and four reminders are created. *)
Lemma run_fires_macros_witness :
  @memory_accepts Sample.reliable
  /\ exists w' result,
       @run Sample.runtime Sample.reliable Home.hub (evaluate Snapshots.heatwave)
         Snapshots.heatwave Sample.fresh_world = (w', Return result)
       /\ RouteResult.reminder_ids result = Some [1; 2; 3; 4]
       /\ RouteResult.message result = join_lines [heat_sentence; sleep_sentence].
Proof.
  split; [exact reliable_memory_accepts|].
  destruct (@run_fires_macros Sample.runtime Sample.reliable Home.hub
              (evaluate Snapshots.heatwave) Snapshots.heatwave Sample.fresh_world
              reliable_memory_accepts)
    as (_ & _ & w' & result & Hrun & _ & _ & Hids & Hmsg & _).
  exists w', result. split; [exact Hrun|]. split; [exact Hids|].
  apply Hmsg. reflexivity.
Defined.

(** C2, as stated, fails on a high-risk snapshot whose sleep reading is
    zero: zero is below 6, yet the sleep macro does not fire and no
    reminder is created. *)
Lemma run_skips_zero_sleep :
  level (evaluate Snapshots.exhausted) = "high"
  /\ Table.sleep_of Snapshots.exhausted = Some (PyInt 0)
  /\ (Py.value (PyInt 0) < inject_Z 6)%Q
  /\ @run Sample.runtime Sample.reliable Home.hub (evaluate Snapshots.exhausted)
       Snapshots.exhausted Home.world
     = (Home.world,
        Return {| RouteResult.route := "macro";
                  RouteResult.risk_level := "high";
                  RouteResult.message := caution_message;
                  RouteResult.reminder_ids := Some [];
                  RouteResult.evidence := None |}).
Proof. split; [reflexivity|]. split; [reflexivity|]. split; reflexivity. Qed.

(** C3 at a high-risk snapshot that triggers neither macro. *)
Lemma run_without_macro_witness :
  level (evaluate Snapshots.storm) = "high"
  /\ heat_condition Snapshots.storm = false
  /\ sleep_condition Snapshots.storm = false
  /\ @run Sample.runtime Sample.reliable Home.hub (evaluate Snapshots.storm)
       Snapshots.storm Home.world
     = (Home.world,
        Return {| RouteResult.route := "macro";
                  RouteResult.risk_level := level (evaluate Snapshots.storm);
                  RouteResult.message := caution_message;
                  RouteResult.reminder_ids := Some [];
                  RouteResult.evidence := None |}).
Proof.
  split; [reflexivity|]. split; [reflexivity|]. split; [reflexivity|].
  apply run_without_macro; reflexivity.
Defined.


(** C5 at the hub's own echoed publication. *)
Lemma on_message_discards_own_witness :
  Wire.source Home.echo = Some (source_id Home.sync)
  /\ @_on_message Sample.runtime Sample.reliable Home.sync (Some Home.echo) Home.world
     = (Home.world, Return tt).
Proof.
  split; [reflexivity|].
  apply on_message_discards_own. reflexivity.
Defined.

(** C6 at the watch's report: reminder 1 becomes completed and the
    outbox stays empty. *)
Lemma on_message_applies_quietly_witness :
  Wire.source Home.done <> Some (source_id Home.sync)
  /\ Wire.event Home.done = Some "completed"
  /\ Wire.id (reminder_of Home.done) = Some 1
  /\ reminders (db (fst (@_on_message Sample.runtime Sample.reliable Home.sync
                           (Some Home.done) Home.world))) !! 1
     = Some (ReminderRow.set_status "completed" Home.pill)
  /\ outbox (fst (@_on_message Sample.runtime Sample.reliable Home.sync
                    (Some Home.done) Home.world)) = [].
Proof.
  split; [discriminate|]. split; [reflexivity|]. split; [reflexivity|].
  destruct (@on_message_applies_quietly Sample.runtime Sample.reliable Home.sync
              Home.done "completed" 1 Home.world)
    as (_ & Hout & Hrow & _).
  - discriminate.
  - reflexivity.
  - unfold status_events. rewrite !elem_of_cons. auto.
  - reflexivity.
  - destruct Hrow as [_ Hdb]; [lia|].
    split; [rewrite Hdb; reflexivity | exact Hout].
Defined.

(** C7, as stated, fails when the memory rejects the routing-result
    document: on the low-risk snapshot of scenario C the request is
    logged and dispatch computes the template result, yet [route] raises
    and the caller gets no result. *)
Lemma route_loses_result_when_log_fails :
  exists w1,
    @log_request Sample.runtime Home.result_log_down Snapshots.calm Sample.fresh_world
    = (w1, Return tt)
    /\ @dispatch Sample.runtime Home.result_log_down Home.hub (evaluate Snapshots.calm)
         Snapshots.calm w1
       = (w1, Return (_run_template_path (evaluate Snapshots.calm) Snapshots.calm))
    /\ snd (@route Sample.runtime Home.result_log_down Home.hub Snapshots.calm
              Sample.fresh_world)
       = Raise (ExternalError "Connection error.").
Proof.
  eexists. split; [vm_compute; reflexivity|].
  split; vm_compute; reflexivity.
Qed.

(** C7 at scenario C with collaborators that answer: the template result
    is returned, between the two log documents. *)
Lemma route_logs_around_dispatch_witness :
  exists w3,
    @route Sample.runtime Sample.reliable Home.hub Snapshots.calm Sample.fresh_world
    = (w3, Return (_run_template_path (evaluate Snapshots.calm) Snapshots.calm))
    /\ List.map page_content (timeline w3)
       = [ "Routing request level=low reasons=[]";
           "Routing result via template: 今日状态平稳，继续保持规律作息和补水。 适量活动可帮助维持心肺功能。" ].
Proof.
  destruct (@route_logs_around_dispatch Sample.runtime Sample.reliable Home.hub
              Snapshots.calm Sample.fresh_world) as (_ & Hmid & _).
  destruct (Hmid _ _ _ eq_refl eq_refl) as (_ & Hok).
  destruct (Hok _ eq_refl) as (Hroute & _).
  eexists. split; [exact Hroute|]. reflexivity.
Defined.

(** C8 at scenario B with a chat model that times out. *)
Lemma rag_path_falls_back_witness :
  @retrieve Sample.llm_down Snapshots.muggy (get_user_id Snapshots.muggy)
    (timeline Sample.fresh_world) = Return Sample.no_context
  /\ @llm_invoke Sample.llm_down (prompt_of Snapshots.muggy Sample.no_context)
     = Raise (ExternalError "Request timed out.")
  /\ @_run_rag_path Sample.runtime Sample.llm_down (evaluate Snapshots.muggy)
       Snapshots.muggy Sample.fresh_world
     = (Sample.fresh_world,
        Return {| RouteResult.route := "rag";
                  RouteResult.risk_level := "medium";
                  RouteResult.message :=
                    "无法调用模型，改为规则输出。原因: Request timed out.";
                  RouteResult.reminder_ids := None;
                  RouteResult.evidence :=
                    Some (PromptContext (prompt_of Snapshots.muggy Sample.no_context)) |}).
Proof.
  split; [reflexivity|]. split; [reflexivity|].
  apply (@rag_path_falls_back Sample.runtime Sample.llm_down (evaluate Snapshots.muggy)
           Snapshots.muggy Sample.fresh_world Sample.no_context
           (ExternalError "Request timed out.")); reflexivity.
Defined.

Lemma home_statuses_valid : valid_statuses (db Home.world).
Proof.
  intros i r. cbn [db reminders Home.world].
  destruct (decide (i = 2)) as [->|H2].
  - rewrite lookup_insert_eq. intros [= <-]. left.
  - rewrite lookup_insert_ne by congruence.
    destruct (decide (i = 1)) as [->|H1].
    + rewrite lookup_insert_eq. intros [= <-]. left.
    + rewrite lookup_insert_ne by congruence. rewrite lookup_empty. discriminate.
Defined.

(** C9 at the reference store: a sweep keeps the invariant. *)
Lemma status_invariant_preserved_witness :
  valid_statuses (db Home.world)
  /\ valid_statuses
       (db (fst (@trigger_due_reminders Sample.runtime Sample.reliable Home.hub
                   (Some Sample.morning) Home.world))).
Proof.
  split; [exact home_statuses_valid|].
  destruct (@status_invariant_preserved Sample.runtime Sample.reliable Home.world
              home_statuses_valid) as (_ & Hsweep & _).
  apply Hsweep.
Defined.

(** C9, as stated, fails for the synchroniser: a remote event
    "completed" whose reminder carries the status "archived" is accepted,
    and the store then holds a status outside the four. *)
Lemma on_message_writes_unknown_status :
  valid_statuses (db Home.world)
  /\ ~ valid_statuses
         (db (fst (@_on_message Sample.runtime Sample.reliable Home.sync
                     (Some Home.archived) Home.world))).
Proof.
  split; [exact home_statuses_valid|].
  intros Hvalid.
  specialize (Hvalid 1 (ReminderRow.set_status "archived" Home.pill) eq_refl).
  unfold statuses in Hvalid. rewrite !elem_of_cons, elem_of_nil in Hvalid.
  cbn in Hvalid. intuition discriminate.
Qed.

(** ** ISO texts order as datetimes do *)

Module DatetimeFacts.

Lemma digit_compare x y :
  0 <= x < 10 -> 0 <= y < 10 ->
  Ascii.compare (Datetime.digit x) (Datetime.digit y) = (x ?= y).
Proof.
  intros Hx Hy.
  assert (x = 0 \/ x = 1 \/ x = 2 \/ x = 3 \/ x = 4 \/ x = 5 \/ x = 6 \/ x = 7
          \/ x = 8 \/ x = 9) as Ex by lia.
  assert (y = 0 \/ y = 1 \/ y = 2 \/ y = 3 \/ y = 4 \/ y = 5 \/ y = 6 \/ y = 7
          \/ y = 8 \/ y = 9) as Ey by lia.
  destruct Ex as [->|[->|[->|[->|[->|[->|[->|[->|[->| ->]]]]]]]]];
    destruct Ey as [->|[->|[->|[->|[->|[->|[->|[->|[->| ->]]]]]]]]]; reflexivity.
Qed.

(** The digits [pad] prints are those of the number modulo [10 ^ width]. *)
Lemma pad_mod w n : Datetime.pad w (n mod 10 ^ Z.of_nat w) = Datetime.pad w n.
Proof.
  assert (forall k, (k <= w)%nat ->
            Datetime.pad k (n mod 10 ^ Z.of_nat w) = Datetime.pad k n) as Hk.
  { induction k as [|k IH]; intros Hle; [reflexivity|].
    cbn [Datetime.pad]. rewrite IH by lia. f_equal. f_equal.
    replace (10 ^ Z.of_nat w) with (10 ^ Z.of_nat (S k) * 10 ^ Z.of_nat (w - S k)).
    2:{ rewrite <- Z.pow_add_r by lia. f_equal. lia. }
    replace (10 ^ Z.of_nat (S k)) with (10 ^ Z.of_nat k * 10).
    2:{ rewrite Nat2Z.inj_succ, Z.pow_succ_r by lia. lia. }
    assert (0 < 10 ^ Z.of_nat k) by (apply Z.pow_pos_nonneg; lia).
    assert (0 < 10 ^ Z.of_nat (w - S k)) by (apply Z.pow_pos_nonneg; lia).
    rewrite <- Z.mul_assoc.
    rewrite Z.rem_mul_r by lia.
    rewrite Z.mul_comm, Z.div_add by lia.
    rewrite Z.div_small by (apply Z.mod_pos_bound; lia).
    rewrite Z.add_0_l.
    rewrite Z.rem_mul_r by lia.
    rewrite Z.mul_comm, Z.mod_add by lia.
    rewrite Z.mod_mod by lia. reflexivity. }
  apply Hk. lia.
Qed.

Lemma compare_cons c d s t :
  String.compare (String c s) (String d t)
  = match Ascii.compare c d with
    | Eq => String.compare s t
    | Lt => Lt
    | Gt => Gt
    end.
Proof. cbn [String.compare]. destruct (Ascii.compare c d); reflexivity. Qed.

Lemma compare_same c s t : String.compare (String c s) (String c t) = String.compare s t.
Proof.
  rewrite compare_cons.
  assert (Ascii.compare c c = Eq) as -> by (unfold Ascii.compare; apply N.compare_refl).
  reflexivity.
Qed.

Lemma append_cons c p s : String c p +:+ s = String c (p +:+ s).
Proof. reflexivity. Qed.

Lemma append_nil s : "" +:+ s = s.
Proof. reflexivity. Qed.

Lemma append_nil_r s : s +:+ "" = s.
Proof. induction s as [|c s IH]; [reflexivity|]. by rewrite append_cons, IH. Qed.

Lemma separator_compare c s t :
  String.compare (String c "" +:+ s) (String c "" +:+ t) = String.compare s t.
Proof. rewrite !append_cons, !append_nil. apply compare_same. Qed.

(** Two padded numbers of the same width compare as the numbers do; when
    the numbers are equal, what follows them decides. *)
Lemma pad_compare w a b s t :
  0 <= a < 10 ^ Z.of_nat w -> 0 <= b < 10 ^ Z.of_nat w ->
  String.compare (Datetime.pad w a +:+ s) (Datetime.pad w b +:+ t)
  = Datetime.lex (a ?= b) (String.compare s t).
Proof.
  revert a b. induction w as [|w IH]; intros a b Ha Hb.
  - cbn in Ha, Hb. assert (a = 0) as -> by lia. assert (b = 0) as -> by lia. reflexivity.
  - cbn [Datetime.pad]. rewrite !append_cons, compare_cons.
    rewrite Nat2Z.inj_succ, Z.pow_succ_r in Ha, Hb by lia.
    set (P := 10 ^ Z.of_nat w) in *.
    assert (0 < P) as HP by (apply Z.pow_pos_nonneg; lia).
    pose proof (Z.div_mod a P ltac:(lia)) as Ea.
    pose proof (Z.div_mod b P ltac:(lia)) as Eb.
    pose proof (Z.mod_pos_bound a P HP) as Hra.
    pose proof (Z.mod_pos_bound b P HP) as Hrb.
    assert (0 <= a / P < 10) as Hqa.
    { split; [apply Z.div_pos; lia | apply Z.div_lt_upper_bound; lia]. }
    assert (0 <= b / P < 10) as Hqb.
    { split; [apply Z.div_pos; lia | apply Z.div_lt_upper_bound; lia]. }
    rewrite !(Z.mod_small (_ / P) 10) by assumption.
    rewrite digit_compare by assumption.
    rewrite <- (pad_mod w a), <- (pad_mod w b). fold P.
    rewrite IH by assumption.
    set (qa := a / P) in *. set (qb := b / P) in *.
    set (ra := a mod P) in *. set (rb := b mod P) in *.
    destruct (Z.compare_spec qa qb) as [Hq|Hq|Hq].
    + subst qb. unfold Datetime.lex at 1.
      assert ((a ?= b) = (ra ?= rb)) as ->.
      { rewrite Ea, Eb. rewrite Hq.
        destruct (Z.compare_spec ra rb);
          [apply Z.compare_eq_iff | apply Z.compare_lt_iff | apply Z.compare_gt_iff]; lia. }
      reflexivity.
    + assert ((a ?= b) = Lt) as ->; [|reflexivity].
      apply Z.compare_lt_iff. nia.
    + assert ((a ?= b) = Gt) as ->; [|reflexivity].
      apply Z.compare_gt_iff. nia.
Qed.

(** The fractions compare as the microseconds do: the empty fraction of
    a whole second comes first. *)
Lemma fraction_compare a b :
  0 <= a < 1000000 -> 0 <= b < 1000000 ->
  String.compare (Datetime.fraction a) (Datetime.fraction b) = (a ?= b).
Proof.
  intros Ha Hb. unfold Datetime.fraction.
  destruct (Z.eqb_spec a 0) as [->|Hna]; destruct (Z.eqb_spec b 0) as [->|Hnb].
  - reflexivity.
  - rewrite append_cons. cbn [String.compare]. symmetry. apply Z.compare_lt_iff. lia.
  - rewrite append_cons. cbn [String.compare]. symmetry. apply Z.compare_gt_iff. lia.
  - rewrite !append_cons, !append_nil, compare_same.
    rewrite <- (append_nil_r (Datetime.pad 6 a)), <- (append_nil_r (Datetime.pad 6 b)).
    rewrite pad_compare by (cbn; lia).
    cbn [String.compare]. destruct (a ?= b); reflexivity.
Qed.

Lemma isoformat_compare a b :
  Datetime.valid a -> Datetime.valid b ->
  String.compare (Datetime.isoformat a) (Datetime.isoformat b) = Datetime.compare a b.
Proof.
  intros (Hy & Hm & Hd & Hh & Hmi & Hs & Hu) (Hy' & Hm' & Hd' & Hh' & Hmi' & Hs' & Hu').
  unfold Datetime.isoformat, Datetime.compare.
  repeat first
    [ rewrite pad_compare by (cbn; lia)
    | rewrite separator_compare ].
  rewrite fraction_compare by lia. reflexivity.
Qed.

Lemma isoformat_leb a b :
  Datetime.valid a -> Datetime.valid b ->
  String.leb (Datetime.isoformat a) (Datetime.isoformat b) = true
  <-> Datetime.compare a b <> Gt.
Proof.
  intros Ha Hb. unfold String.leb. rewrite isoformat_compare by assumption.
  destruct (Datetime.compare a b); split; congruence.
Qed.

(** The ISO texts of two datetimes compare, as texts, the way the
    datetimes compare: the text comparison the sweep leaves to the
    database is the comparison of the datetimes. *)
Theorem isoformat_order (a b : Datetime.t) :
  Datetime.valid a -> Datetime.valid b ->
  String.leb (Datetime.isoformat a) (Datetime.isoformat b) = true <-> Datetime.le a b.
Proof.
  intros Ha Hb. unfold String.leb, Datetime.le.
  rewrite isoformat_compare by assumption.
  destruct (Datetime.compare a b); split; congruence.
Qed.

(** A row whose due time is the ISO text of the datetime [due] is
    selected by the sweep at the datetime [now] exactly when it is
    pending and [due <= now]. *)
Theorem due_at_chronological (r : ReminderRow.t) (due now : Datetime.t) :
  Datetime.valid due -> Datetime.valid now ->
  ReminderRow.due_time r = Some (Datetime.isoformat due) ->
  due_at (Datetime.isoformat now) r <-> ReminderRow.status r = "pending" /\ Datetime.le due now.
Proof.
  intros Hdue Hnow Hr. unfold due_at, Datetime.le. rewrite <- isoformat_leb by assumption.
  split.
  - intros (Hs & d & Hd & Hle). rewrite Hr in Hd. injection Hd as <-. auto.
  - intros (Hs & Hle). eauto.
Qed.

End DatetimeFacts.

(** 09:00 is before 10:30, as texts and as datetimes. *)
Lemma isoformat_order_witness :
  Datetime.valid (Sample.fields (Sample.morning - minutes 90))
  /\ Datetime.valid (Sample.fields Sample.morning)
  /\ Datetime.isoformat (Sample.fields (Sample.morning - minutes 90)) = "2024-06-01T09:00:00"
  /\ Datetime.le (Sample.fields (Sample.morning - minutes 90)) (Sample.fields Sample.morning).
Proof.
  assert (Datetime.valid (Sample.fields (Sample.morning - minutes 90))) as Ha
    by (vm_compute; intuition discriminate).
  assert (Datetime.valid (Sample.fields Sample.morning)) as Hb
    by (vm_compute; intuition discriminate).
  split; [exact Ha|]. split; [exact Hb|]. split; [reflexivity|].
  apply (DatetimeFacts.isoformat_order _ _ Ha Hb). reflexivity.
Defined.

(** The 09:00 reminder of the reference store is due at 10:30. *)
Lemma due_at_chronological_witness :
  due_at (isoformat Sample.morning) Home.pill.
Proof.
  apply (DatetimeFacts.due_at_chronological Home.pill
           (Sample.fields (Sample.morning - minutes 90)) (Sample.fields Sample.morning)).
  - vm_compute; intuition discriminate.
  - vm_compute; intuition discriminate.
  - reflexivity.
  - split; [reflexivity|]. vm_compute. discriminate.
Defined.


(** ** Further properties *)

(** The three scenarios of the specification: scenario A scores
    4 + 3 + 3 + 2 = 12 (high), scenario B scores 2 + 2 = 4 (medium, its
    humidity of 88 being below 90), scenario C scores 0 (low) and its
    template message carries the activity clause. *)
Lemma scenarios_evaluate :
  (score (evaluate Snapshots.heatwave) = 12 /\ level (evaluate Snapshots.heatwave) = "high")
  /\ (score (evaluate Snapshots.muggy) = 4 /\ level (evaluate Snapshots.muggy) = "medium")
  /\ (score (evaluate Snapshots.calm) = 0 /\ level (evaluate Snapshots.calm) = "low")
  /\ RouteResult.message (_run_template_path (evaluate Snapshots.calm) Snapshots.calm)
     = base_sentence +:+ activity_clause.
Proof. repeat split; reflexivity. Qed.

Section FurtherFacts.
Context `{Runtime} `{Collaborators}.

(** [update_status] on an id the table does not hold raises, and the
    world is left as it was. *)
Lemma update_status_missing self i status note user propagate w :
  reminders (db w) !! i = None ->
  update_status self i status note user propagate w
  = (w, Raise (TypeError "'NoneType' object is not subscriptable")).
Proof.
  intros Hi. unfold update_status. run. unfold from_row.
  cbn [db set_db reminders]. rewrite lookup_alter_eq, Hi. cbn. run.
  f_equal. rewrite alter_id by (intros x Hx; congruence).
  destruct w as [[rows seq] tl out tk]. reflexivity.
Qed.

(** The lifecycle event is not guarded: when the memory rejects it,
    [update_status] raises after its [UPDATE] is in place, and nothing
    is published. *)
Lemma update_status_log_failure self i status note user propagate w r kept e :
  reminders (db w) !! i = Some r ->
  (forall timeline document, add_documents_result timeline document = AddFailed kept e) ->
  exists w',
    update_status self i status note user propagate w = (w', Raise e)
    /\ reminders (db w') !! i = Some (ReminderRow.set_status status r)
    /\ outbox w' = outbox w.
Proof.
  intros Hr Hfail.
  pose proof (update_status_db self i status note user propagate w) as Hdb.
  unfold update_status in *. revert Hdb. run. unfold from_row.
  cbn [db set_db reminders]. rewrite lookup_alter_eq, Hr.
  cbn [fmap option_fmap option_map]. run.
  unfold log_reminder_event. rewrite add_event_eq. unfold _add_documents.
  rewrite Hfail. destruct kept; cbn [fst]; intros Hdb; eexists;
    (split; [reflexivity|]); rewrite Hdb; cbn [reminders]; rewrite lookup_alter_eq, Hr;
    split; reflexivity.
Qed.

Lemma singleton_list {A} (l : list A) (a : A) :
  NoDup l -> (forall x, x ∈ l <-> x = a) -> l = [a].
Proof.
  intros Hnd Hl. destruct l as [|x l].
  - exfalso. apply (not_elem_of_nil a), Hl. reflexivity.
  - assert (x = a) as -> by (apply Hl; left).
    destruct l as [|y l]; [reflexivity|].
    assert (y = a) as -> by (apply Hl; right; left).
    apply NoDup_cons in Hnd as [Hnot _]. exfalso. apply Hnot. left.
Qed.

(** Fetching one id returns the row the table holds under it. *)
Lemma get_reminder_by_id i row w :
  reminders (db w) !! i = Some row ->
  get_reminders_by_ids [i] w = (w, Return [ {| id := i; cols := row |} ]).
Proof.
  intros Hrow. unfold get_reminders_by_ids. run. f_equal. f_equal.
  change [ {| id := i; cols := row |} ] with (List.map as_reminder [(i, row)]).
  change (fun ir : Z * ReminderRow.t => {| id := fst ir; cols := snd ir |}) with as_reminder.
  f_equal. apply singleton_list.
  - apply NoDup_ListNoDup, List.NoDup_filter, NoDup_ListNoDup, NoDup_map_to_list.
  - intros [j x]. rewrite list_elem_of_In, filter_In, <- list_elem_of_In.
    rewrite elem_of_map_to_list, bool_decide_eq_true, list_elem_of_singleton. cbn [fst].
    split.
    + intros [Hx ->]. congruence.
    + intros [= -> ->]. auto.
Qed.

(** Round trip: a reminder that [create_reminder] returns is what
    [get_reminders_by_ids] fetches under its id, with the same content,
    severity, due time and tags; it is pending. *)
Theorem create_then_get self content user severity due_time repeat_rule tags w :
  memory_accepts ->
  exists w' r,
    create_reminder self content user severity due_time repeat_rule tags w
    = (w', Return r)
    /\ get_reminders_by_ids [id r] w' = (w', Return [r])
    /\ ReminderRow.content (cols r) = content
    /\ ReminderRow.severity (cols r) = severity
    /\ ReminderRow.status (cols r) = "pending"
    /\ ReminderRow.due_time (cols r)
       = match due_time with
         | Some (AtInstant dt) => Some (isoformat dt)
         | Some (AsText text) => Some text
         | None => None
         end
    /\ ReminderRow.tags (cols r)
       = match tags with
         | Some (t :: ts) => Some (String.concat "," (t :: ts))
         | _ => None
         end.
Proof.
  intros Hacc.
  destruct (create_reminder_accepted self content user severity due_time repeat_rule
              tags w Hacc) as (w' & Hrun & Hdb & _).
  do 2 eexists. split; [exact Hrun|]. cbn [id cols].
  split; [|repeat split].
  apply get_reminder_by_id. rewrite Hdb. cbn [reminders]. apply lookup_insert_eq.
Qed.

End FurtherFacts.

(** On the reference store, completing reminder 7, which does not exist,
    raises and changes nothing. *)
Lemma update_status_missing_witness :
  reminders (db Home.world) !! 7 = None
  /\ @update_status Sample.runtime Sample.reliable Home.hub 7 "completed" None
       DEFAULT_USER_ID true Home.world
     = (Home.world, Raise (TypeError "'NoneType' object is not subscriptable")).
Proof.
  split; [reflexivity|].
  apply update_status_missing. reflexivity.
Defined.

(** On the reference store with the memory down, completing reminder 1
    raises, with the row already completed in the table. *)
Lemma update_status_log_failure_witness :
  exists w',
    @update_status Sample.runtime Sample.memory_down Home.hub 1 "completed" None
      DEFAULT_USER_ID true Home.world
    = (w', Raise (ExternalError "Connection error."))
    /\ reminders (db w') !! 1 = Some (ReminderRow.set_status "completed" Home.pill)
    /\ outbox w' = [].
Proof.
  apply (@update_status_log_failure Sample.runtime Sample.memory_down Home.hub 1
           "completed" None DEFAULT_USER_ID true Home.world Home.pill false
           (ExternalError "Connection error.")).
  - reflexivity.
  - intros timeline document. reflexivity.
Defined.

(** The hydration reminder, created on the reference store and fetched
    back. *)
Lemma create_then_get_witness :
  exists w' r,
    @create_reminder Sample.runtime Sample.reliable Home.hub hydration_content
      "user_001" "high" (Some (AtInstant (Sample.morning + minutes 30))) None
      (Some ["heat"; "hydration"]) Home.world = (w', Return r)
    /\ @get_reminders_by_ids [id r] w' = (w', Return [r])
    /\ id r = 3
    /\ ReminderRow.due_time (cols r) = Some "2024-06-01T11:00:00"
    /\ ReminderRow.tags (cols r) = Some "heat,hydration".
Proof.
  destruct (@create_then_get Sample.runtime Sample.reliable Home.hub hydration_content
              "user_001" "high" (Some (AtInstant (Sample.morning + minutes 30))) None
              (Some ["heat"; "hydration"]) Home.world reliable_memory_accepts)
    as (w' & r & Hrun & Hget & _ & _ & _ & Hdue & Htags).
  exists w', r. split; [exact Hrun|]. split; [exact Hget|].
  split; [|split; [exact Hdue | exact Htags]].
  vm_compute in Hrun. injection Hrun as _ <-. reflexivity.
Defined.
(** ** Listing reminders *)

Section ListFacts.

Lemma ascii_compare_trans a b c :
  Ascii.compare a b <> Gt -> Ascii.compare b c <> Gt -> Ascii.compare a c <> Gt.
Proof.
  unfold Ascii.compare. rewrite !N.compare_le_iff. lia.
Qed.

Lemma ascii_compare_eq a b : Ascii.compare a b = Eq -> a = b.
Proof.
  unfold Ascii.compare. rewrite N.compare_eq_iff. intros E.
  rewrite <- (ascii_N_embedding a), <- (ascii_N_embedding b). by rewrite E.
Qed.

Lemma string_compare_trans s t u :
  String.compare s t <> Gt -> String.compare t u <> Gt -> String.compare s u <> Gt.
Proof.
  revert t u. induction s as [|a s IH]; intros [|b t] [|c u]; cbn [String.compare];
    try congruence.
  destruct (Ascii.compare a b) eqn:Eab; [|destruct (Ascii.compare b c) eqn:Ebc|congruence].
  - apply ascii_compare_eq in Eab as ->. destruct (Ascii.compare b c); [apply IH|congruence..].
  - apply ascii_compare_eq in Ebc as ->. rewrite Eab. congruence.
  - intros _ _. assert (Ascii.compare a c <> Gt) as Hac
      by (apply (ascii_compare_trans a b c); congruence).
    destruct (Ascii.compare a c) eqn:Eac; [|congruence..].
    apply ascii_compare_eq in Eac as ->.
    unfold Ascii.compare in Eab, Ebc. rewrite N.compare_lt_iff in Eab, Ebc. lia.
  - congruence.
Qed.

Lemma leb_trans s t u :
  String.leb s t = true -> String.leb t u = true -> String.leb s u = true.
Proof.
  unfold String.leb. intros Hst Htu.
  pose proof (string_compare_trans s t u) as Htrans.
  destruct (String.compare s t), (String.compare t u), (String.compare s u);
    try reflexivity; try discriminate; exfalso; apply Htrans; congruence.
Qed.

Lemma key_le_trans : Transitive key_le.
Proof. intros a b c. unfold key_le. apply leb_trans. Qed.

Lemma key_le_total : Total key_le.
Proof. intros a b. unfold key_le. apply String.leb_total. Qed.

Lemma passes_spec filter value :
  passes filter value = true
  <-> forall wanted, filter = Some wanted -> wanted <> "" -> value = wanted.
Proof.
  unfold passes. destruct filter as [wanted|].
  - rewrite orb_true_iff, !String.eqb_eq. split.
    + intros [-> | ->] x [= <-] Hx; [contradiction | reflexivity].
    + intros Hw. destruct (decide (wanted = "")); [by left | right; by apply Hw].
  - split; [intros _ ? [=] | reflexivity].
Qed.

Lemma sorted_lookup (rows : list (Z * ReminderRow.t)) m n x y :
  StronglySorted key_le rows -> (m <= n)%nat ->
  rows !! m = Some x -> rows !! n = Some y -> key_le x y.
Proof.
  intros Hsorted. revert m n x y.
  induction Hsorted as [|z l Hl IH Hall]; intros m n x y Hmn Ex Ey; [discriminate|].
  destruct m as [|m], n as [|n]; cbn in Ex, Ey; try lia.
  - injection Ex as ->. injection Ey as ->. unfold key_le.
    destruct (String.leb_total (order_key (snd y)) (order_key (snd y))); assumption.
  - injection Ex as ->. rewrite Forall_forall in Hall.
    apply (Hall y). eapply list_elem_of_lookup_2. exact Ey.
  - apply (IH m n); [lia|assumption..].
Qed.

Lemma listed_in_order status user w listed m n a b :
  list_reminders status user w = (w, Return listed) ->
  (m <= n)%nat -> listed !! m = Some a -> listed !! n = Some b ->
  String.leb (order_key (cols a)) (order_key (cols b)) = true.
Proof.
  unfold list_reminders. run. intros [= <-] Hmn Ha Hb.
  match type of Ha with
  | context [merge_sort key_le ?l] => set (rows := merge_sort key_le l) in *
  end.
  assert (StronglySorted key_le rows) as Hsorted by (apply StronglySorted_merge_sort; [apply key_le_trans | apply key_le_total]).
  change (List.map ?f rows) with (f <$> rows) in Ha, Hb.
  rewrite list_lookup_fmap in Ha, Hb.
  destruct (rows !! m) as [x|] eqn:Ex; [|discriminate].
  destruct (rows !! n) as [y|] eqn:Ey; [|discriminate].
  injection Ha as <-. injection Hb as <-. cbn [cols].
  exact (sorted_lookup rows m n x y Hsorted Hmn Ex Ey).
Qed.

(** [list_reminders] reads the table and changes nothing.  It returns
    each row that passes the two filters once, a filter that is absent
    or empty passing every row, in ascending order of
    [COALESCE(due_time, created_at)] compared as texts. *)
Theorem list_reminders_sorted_selection (status user : option string) (w : World) :
  exists listed,
    list_reminders status user w = (w, Return listed)
    /\ (forall i r,
          {| id := i; cols := r |} ∈ listed
          <-> reminders (db w) !! i = Some r
              /\ (forall s, status = Some s -> s <> "" -> ReminderRow.status r = s)
              /\ (forall u, user = Some u -> u <> "" -> ReminderRow.user_id r = u))
    /\ NoDup (id <$> listed)
    /\ (forall m n a b,
          (m <= n)%nat -> listed !! m = Some a -> listed !! n = Some b ->
          String.leb (order_key (cols a)) (order_key (cols b)) = true).
Proof.
  set (cond := fun r : ReminderRow.t => passes status (ReminderRow.status r) && passes user (ReminderRow.user_id r)).
  set (rows := merge_sort key_le (select_where cond (db w))).
  exists (List.map as_reminder rows). split; [reflexivity|].
  assert (rows ≡ₚ select_where cond (db w)) as Hperm by apply merge_sort_Permutation.
  change (fun ir : Z * ReminderRow.t => {| id := fst ir; cols := snd ir |}) with as_reminder.
  split; [|split].
  - intros i r. rewrite list_elem_of_In, in_map_iff. split.
    + intros ([j x] & [= -> ->] & Hin). apply list_elem_of_In in Hin.
      rewrite Hperm in Hin. apply select_where_elem in Hin as [Hrow Hc].
      unfold cond in Hc. apply andb_true_iff in Hc as [Hs Hu].
      rewrite passes_spec in Hs, Hu. auto.
    + intros (Hrow & Hs & Hu). exists (i, r). split; [reflexivity|].
      apply list_elem_of_In. rewrite Hperm. apply select_where_elem. split; [exact Hrow|].
      unfold cond. apply andb_true_iff. rewrite !passes_spec. auto.
  - replace (id <$> (List.map as_reminder rows)) with (fst <$> rows).
    2:{ clear. induction rows as [|[j x] l IH]; [reflexivity|]. cbn. by rewrite IH. }
    rewrite Hperm. apply select_where_ids_NoDup.
  - intros m n a b Hmn Ha Hb.
    apply (listed_in_order status user w (List.map as_reminder rows) m n a b);
      [reflexivity|assumption..].
Qed.

End ListFacts.
(** ** The outgoing payload *)

Section PayloadFacts.
Context `{Runtime} `{TextRuntime}.

Lemma split_comma_nonempty s : split_comma s <> [].
Proof.
  destruct s as [|c s]; cbn; [discriminate|].
  destruct (Ascii.eqb c ","); [discriminate|].
  destruct (split_comma s); discriminate.
Qed.

Lemma split_comma_free s : comma_free s -> split_comma s = [s].
Proof.
  unfold comma_free. induction s as [|c s IH]; intros Hfree; [reflexivity|].
  cbn in *. destruct (Ascii.eqb_spec c ","%char) as [->|Hc]; [tauto|].
  rewrite IH by tauto. reflexivity.
Qed.

Lemma split_comma_app s t :
  comma_free s -> split_comma (s +:+ "," +:+ t) = s :: split_comma t.
Proof.
  unfold comma_free. induction s as [|c s IH]; intros Hfree; [reflexivity|].
  cbn in Hfree. rewrite DatetimeFacts.append_cons. cbn [split_comma].
  destruct (Ascii.eqb_spec c ","%char) as [->|Hc]; [tauto|].
  rewrite IH by tauto. reflexivity.
Qed.

(** Joining tags with commas and splitting the text at its commas gives
    the tags back, when there is at least one tag and no tag holds a
    comma. *)
Lemma split_join tags :
  tags <> [] -> Forall comma_free tags -> split_comma (String.concat "," tags) = tags.
Proof.
  induction tags as [|t tags IH]; intros Hne Hfree; [contradiction|].
  apply Forall_cons_1 in Hfree as [Ht Hfree].
  destruct tags as [|t' tags].
  - cbn [String.concat]. by apply split_comma_free.
  - change (String.concat "," (t :: t' :: tags))
      with (t +:+ "," +:+ String.concat "," (t' :: tags)).
    rewrite split_comma_app by assumption. f_equal. by apply IH.
Qed.

Lemma get_reminders_by_ids_eq ids w :
  exists found,
    get_reminders_by_ids ids w = (w, Return found)
    /\ (forall i r, {| id := i; cols := r |} ∈ found
                    <-> i ∈ ids /\ reminders (db w) !! i = Some r)
    /\ NoDup (id <$> found).
Proof.
  destruct ids as [|i0 ids].
  - exists []. split; [reflexivity|]. split; [|constructor].
    intros i r. rewrite elem_of_nil. split; [tauto|]. intros [Hi _].
    by apply elem_of_nil in Hi.
  - set (l := i0 :: ids).
    set (rows := List.filter (fun ir : Z * ReminderRow.t => bool_decide (fst ir ∈ l))
                   (map_to_list (reminders (db w)))).
    exists (List.map as_reminder rows). split; [reflexivity|]. split.
    + intros i r. rewrite list_elem_of_In, in_map_iff. split.
      * intros ([j x] & [= -> ->] & Hin). apply filter_In in Hin as [Hin Hl].
        apply list_elem_of_In, elem_of_map_to_list in Hin.
        apply bool_decide_eq_true in Hl. auto.
      * intros [Hi Hr]. exists (i, r). split; [reflexivity|].
        apply filter_In. split.
        -- by apply list_elem_of_In, elem_of_map_to_list.
        -- by apply bool_decide_eq_true.
    + replace (id <$> List.map as_reminder rows) with (fst <$> rows).
      2:{ clear. induction rows as [|[j x] rows IH]; [reflexivity|]. cbn. by rewrite IH. }
      unfold rows. clear.
      pose proof (NoDup_fst_map_to_list (reminders (db w))) as Hnd.
      induction (map_to_list (reminders (db w))) as [|[j x] rest IH]; [constructor|].
      cbn [fmap list_fmap] in Hnd. apply NoDup_cons in Hnd as [Hj Hnd].
      cbn [List.filter]. destruct (bool_decide _); [|by apply IH].
      cbn [fmap list_fmap]. apply NoDup_cons. split; [|by apply IH].
      intros Hin. apply Hj. clear -Hin.
      induction rest as [|[j' x'] rest IH]; [by apply elem_of_nil in Hin|].
      cbn [List.filter] in Hin. cbn [fmap list_fmap].
      destruct (bool_decide _).
      * cbn [fmap list_fmap] in Hin. apply elem_of_cons in Hin as [->|Hin]; [left|right; auto].
      * right. auto.
Qed.

(** With reminder ids and a manager to ask, the payload lists what
    [get_reminders_by_ids] fetches. *)
Lemma payload_of_ids manager_error route_result state mgr w i0 ids found :
  default [] (RouteResult.reminder_ids route_result) = i0 :: ids ->
  is_Some mgr \/ manager_error = None ->
  get_reminders_by_ids (i0 :: ids) w = (w, Return found) ->
  build_mqtt_payload manager_error route_result state mgr w
  = (w, Return {| Outgoing.route := RouteResult.route route_result;
                  Outgoing.risk_level := RouteResult.risk_level route_result;
                  Outgoing.message :=
                    _extract_message_text (JStr (RouteResult.message route_result));
                  Outgoing.weather :=
                    {| temperature := temperature (get_weather state);
                       humidity := humidity (get_weather state);
                       warnings := Some (get_warnings (get_weather state)) |};
                  Outgoing.reminders := List.map entry_of found |}).
Proof.
  intros Eids Hok Eget. unfold build_mqtt_payload. rewrite Eids.
  assert ((manager ← match mgr with
                     | Some m => mret m
                     | None => match manager_error with
                               | Some e => raise e
                               | None => mret (new_manager false "" None)
                               end
                     end;
           reminders ← get_reminders_by_ids (i0 :: ids);
           mret (List.map entry_of reminders)) w
          = (w, Return (List.map entry_of found))) as Emgr.
  { destruct Hok as [[m ->]| ->]; [|destruct mgr]; run; rewrite Eget; reflexivity. }
  unfold mbind at 1, M_bind at 1. rewrite Emgr. reflexivity.
Qed.

(** [build_mqtt_payload] reads the table and changes nothing.  When it
    has a manager to ask (none is needed without reminder ids), it
    returns the route and risk level of the route result, the three
    weather readings with [warnings] defaulting to the empty list, and
    one entry for each row whose id is among [reminder_ids]: an id the
    table does not hold is left out silently, and a repeated id gives
    one entry.  When it needs a manager, is given none and cannot
    build one, it raises. *)
Theorem payload_lists_stored_reminders (manager_error : option exn)
    (route_result : RouteResult.t) (state : State) (mgr : option ReminderManager)
    (w : World) :
  let ids := default [] (RouteResult.reminder_ids route_result) in
  (ids = [] \/ is_Some mgr \/ manager_error = None ->
   exists payload,
     build_mqtt_payload manager_error route_result state mgr w = (w, Return payload)
     /\ Outgoing.route payload = RouteResult.route route_result
     /\ Outgoing.risk_level payload = RouteResult.risk_level route_result
     /\ Outgoing.weather payload
        = {| temperature := temperature (get_weather state);
             humidity := humidity (get_weather state);
             warnings := Some (get_warnings (get_weather state)) |}
     /\ (forall e,
           e ∈ Outgoing.reminders payload
           <-> exists r, Entry.id e ∈ ids
                         /\ reminders (db w) !! Entry.id e = Some r
                         /\ e = entry_of {| id := Entry.id e; cols := r |})
     /\ NoDup (Entry.id <$> Outgoing.reminders payload))
  /\ (forall e,
        ids <> [] -> mgr = None -> manager_error = Some e ->
        build_mqtt_payload manager_error route_result state mgr w = (w, Raise e)).
Proof.
  cbv zeta. split.
  - intros Hok.
    destruct (default [] (RouteResult.reminder_ids route_result)) as [|i0 ids] eqn:Eids.
    + unfold build_mqtt_payload. rewrite Eids. run. eexists. split; [reflexivity|]. cbn.
      repeat split; try constructor.
      * intros He. by apply elem_of_nil in He.
      * intros (r & Hin & _). by apply elem_of_nil in Hin.
    + destruct (get_reminders_by_ids_eq (i0 :: ids) w) as (found & Eget & Hfound & Hnd).
      assert (is_Some mgr \/ manager_error = None) as Hmgr
        by (destruct Hok as [?|?]; [discriminate|assumption]).
      rewrite (payload_of_ids _ _ _ _ _ _ _ _ Eids Hmgr Eget).
      eexists. split; [reflexivity|]. cbn [Outgoing.route Outgoing.risk_level
        Outgoing.weather Outgoing.reminders].
      do 3 (split; [reflexivity|]). split.
      * intros e. rewrite list_elem_of_In, in_map_iff. split.
        -- intros ([i r] & <- & Hin). apply list_elem_of_In, Hfound in Hin as [Hi Hr].
           exists r. cbn [entry_of Entry.id id]. auto.
        -- intros (r & Hi & Hr & ->). cbn [entry_of Entry.id id] in *.
           eexists. split; [reflexivity|]. apply list_elem_of_In, Hfound. auto.
      * replace (Entry.id <$> List.map entry_of found) with (id <$> found); [exact Hnd|].
        clear. induction found as [|r l IH]; [reflexivity|]. cbn. by rewrite IH.
  - intros e Hids -> ->. unfold build_mqtt_payload.
    destruct (default [] (RouteResult.reminder_ids route_result)); [contradiction|].
    reflexivity.
Qed.

End PayloadFacts.
Section PayloadRoundTrip.
Context `{Runtime} `{Collaborators} `{TextRuntime}.

Lemma concat_nonempty (labels : list string) :
  labels <> [] -> labels <> [""] -> String.concat "," labels <> "".
Proof.
  destruct labels as [|t [|t' rest]]; intros Hne Hone.
  - contradiction.
  - cbn. congruence.
  - change (String.concat "," (t :: t' :: rest))
      with (t +:+ "," +:+ String.concat "," (t' :: rest)).
    destruct t; discriminate.
Qed.

(** Round trip of the tags: a reminder created with a list of tags, none
    of which holds a comma, shows in the outgoing payload built from its
    id with that list of tags, pending, with the content and severity it
    was created with.  (The tags are stored joined by commas and split
    again at commas; the single empty tag is stored as the empty text
    and comes back as no tag.) *)
Theorem created_reminder_in_payload (manager_error : option exn) (self : ReminderManager)
    (content user severity : string) (due_time : option due_arg)
    (repeat_rule : option string) (labels : list string)
    (mgr : option ReminderManager) (state : State) (w : World) :
  memory_accepts ->
  labels <> [] -> labels <> [""] -> Forall comma_free labels ->
  is_Some mgr \/ manager_error = None ->
  exists w' r,
    create_reminder self content user severity due_time repeat_rule (Some labels) w
    = (w', Return r)
    /\ forall route_result,
         RouteResult.reminder_ids route_result = Some [id r] ->
         exists payload,
           build_mqtt_payload manager_error route_result state mgr w' = (w', Return payload)
           /\ Outgoing.reminders payload
              = [ {| Entry.id := id r; Entry.content := content;
                     Entry.severity := severity;
                     Entry.due_time := ReminderRow.due_time (cols r);
                     Entry.status := "pending"; Entry.tags := labels |} ].
Proof.
  intros Hacc Hne Hone Hfree Hmgr.
  destruct labels as [|t ts]; [contradiction|].
  destruct (create_reminder_accepted self content user severity due_time repeat_rule
              (Some (t :: ts)) w Hacc) as (w' & Hrun & Hdb & _).
  assert (String.concat "," (t :: ts) <> "") as Hjoin by (by apply concat_nonempty).
  pose proof (split_join (t :: ts) Hne Hfree) as Hsplit.
  set (joined := String.concat "," (t :: ts)) in *.
  do 2 eexists. split; [exact Hrun|]. cbn [id cols].
  intros route_result Hids.
  erewrite payload_of_ids;
    [|by rewrite Hids|assumption
     |apply get_reminder_by_id; rewrite Hdb; cbn [reminders]; apply lookup_insert_eq].
  eexists. split; [reflexivity|].
  cbn [Outgoing.reminders List.map entry_of id cols ReminderRow.content ReminderRow.severity ReminderRow.status
       ReminderRow.due_time ReminderRow.tags].
  unfold entry_of. cbn [id cols ReminderRow.content ReminderRow.severity ReminderRow.status ReminderRow.due_time ReminderRow.tags].
  apply String.eqb_neq in Hjoin. rewrite Hjoin, Hsplit. reflexivity.
Qed.

End PayloadRoundTrip.
(** ** Chat transcripts *)

Section ChatFacts.
Context `{Runtime} `{Collaborators}.

Lemma event_document_filed user content kind importance now :
  filed_under kind user (event_document user content kind importance ∅ now).
Proof.
  unfold filed_under, event_document. cbn [metadata].
  rewrite !lookup_union_r by apply lookup_empty. split.
  - rewrite lookup_insert_ne by discriminate. apply lookup_insert_eq.
  - apply lookup_insert_eq.
Qed.

(** [sync_chat_transcript] logs the messages in order, one document
    each, as "[role] text" with the role defaulting to "user" and the
    text to the empty text, filed as chat messages of the user.  No
    write is guarded: the first one that fails ends the
    synchronisation, the messages before it stay logged and those after
    it are not written.  The database and the outbox are not touched. *)
Theorem sync_chat_transcript_prefix (user : string) (transcript : list Chat.message)
    (w : World) :
  let w' := fst (sync_chat_transcript user transcript w) in
  let result := snd (sync_chat_transcript user transcript w) in
  db w' = db w /\ outbox w' = outbox w
  /\ (exists n docs,
        (n <= length transcript)%nat
        /\ timeline w' = timeline w ++ docs
        /\ page_content <$> docs = chat_text <$> take n transcript
        /\ Forall (filed_under "chat_message" user) docs
        /\ (result = Return tt -> n = length transcript))
  /\ (memory_accepts -> result = Return tt).
Proof.
  cbv zeta. unfold sync_chat_transcript. revert w.
  induction transcript as [|m rest IH]; intros w.
  - cbn. repeat split; try reflexivity.
    exists 0%nat, []. rewrite app_nil_r. repeat split; auto.
  - cbn [for_each]. run. unfold add_chat_message at 1 3 5 7 9.
    rewrite add_event_eq. unfold _add_documents.
    set (doc := event_document user _ "chat_message" 1.0%Q ∅ _).
    assert (page_content doc = chat_text m) as Hdoc by reflexivity.
    assert (filed_under "chat_message" user doc) as Hfiled
      by apply event_document_filed.
    destruct (add_documents_result _ doc) as [|[] e] eqn:Eadd; cbn [fst snd].
    + match goal with
      | |- context [for_each _ rest ?w0] => set (w1 := w0)
      end.
      assert (timeline w1 = timeline w ++ [doc]) as Htl1 by reflexivity.
      destruct (IH w1) as (Hdb & Hout & (n & docs & Hn & Htl & Hpc & Hall & Hret) & Hacc).
      split; [exact Hdb|]. split; [exact Hout|]. split; [|exact Hacc].
      exists (S n), (doc :: docs). cbn [length take fmap list_fmap].
      split; [lia|]. split; [rewrite Htl, Htl1; by rewrite <- app_assoc|].
      split; [by rewrite Hdoc, Hpc|].
      split; [by constructor|]. intros Hr. by rewrite Hret.
    + split; [reflexivity|]. split; [reflexivity|]. split.
      * exists 1%nat, [doc]. cbn [length take fmap list_fmap]. split; [lia|].
        split; [reflexivity|]. split; [rewrite ?take_0; cbn [fmap list_fmap]; by rewrite Hdoc|].
        split; [by repeat constructor|]. discriminate.
      * intros Hacc. by rewrite Hacc in Eadd.
    + split; [reflexivity|]. split; [reflexivity|]. split.
      * exists 0%nat, []. rewrite app_nil_r. cbn. repeat split; auto with lia.
        discriminate.
      * intros Hacc. by rewrite Hacc in Eadd.
Qed.

End ChatFacts.
(** ** Retrieval from the short-term memory *)

Section SearchFacts.

Lemma filter_sublist {A : Type} (f : A -> bool) (l : list A) : List.filter f l `sublist_of` l.
Proof.
  induction l as [|x l IH]; [constructor|]. cbn [List.filter].
  destruct (f x); by constructor.
Qed.

Lemma up_to_sublist {A : Type} (limit : Z) (l : list A) : Memory.up_to limit l `sublist_of` l.
Proof. unfold Memory.up_to. destruct (0 <=? limit); apply sublist_take. Qed.

Lemma up_to_length {A : Type} (limit : Z) (l : list A) :
  0 <= limit -> (Z.of_nat (length (Memory.up_to limit l)) <= limit).
Proof.
  intros Hl. unfold Memory.up_to. rewrite (proj2 (Z.leb_le 0 limit) Hl).
  rewrite length_take. lia.
Qed.

(** What [search_recent] returns.  Without a retriever (nothing was ever
    stored) it returns no document.  Otherwise the documents it returns
    are among those the retriever gave ([get_relevant_documents]
    standing in when [invoke] raises [AttributeError]), in the same
    order; with a user id that is not empty each belongs to that user,
    and with an empty user id no document is filtered out; there are at
    most [top_k] of them, or [k] when [top_k] is absent or zero. *)
Theorem search_recent_selection (self : Memory.t) (query : string)
    (user : option string) (top_k : option Z) :
  (Memory.retriever self = None ->
   Memory.search_recent self query user top_k = Return [])
  /\ (forall retriever docs,
        Memory.retriever self = Some retriever ->
        Memory.search_recent self query user top_k = Return docs ->
        exists retrieved,
          (Retriever.invoke retriever query = Retriever.Documents retrieved
           \/ (Retriever.invoke retriever query = Retriever.AttributeError
               /\ Retriever.get_relevant_documents retriever query = Return retrieved))
          /\ docs `sublist_of` retrieved
          /\ (forall u, user = Some u -> u <> "" ->
              Forall (fun d => metadata d !! "user_id" = Some (MStr u)) docs)
          /\ (forall n, top_k = Some n -> 0 < n -> Z.of_nat (length docs) <= n)
          /\ (top_k = None \/ top_k = Some 0 -> 0 <= Memory.k self ->
              Z.of_nat (length docs) <= Memory.k self)
          /\ (user = None \/ user = Some "" ->
              forall n, top_k = Some n -> Z.of_nat (length retrieved) <= n ->
              docs = retrieved)).
Proof.
  split.
  - intros Hnone. unfold Memory.search_recent. by rewrite Hnone.
  - intros retriever docs Hr. unfold Memory.search_recent. rewrite Hr.
    set (filtered := fun retrieved : list Document =>
           match user with
           | Some u =>
               if String.eqb u "" then retrieved
               else List.filter
                      (fun doc => match metadata doc !! "user_id" with
                                  | Some (MStr owner) => String.eqb owner u
                                  | _ => false
                                  end) retrieved
           | None => retrieved
           end).
    set (limit := match top_k with
                  | Some n => if n =? 0 then Memory.k self else n
                  | None => Memory.k self
                  end).
    assert (forall retrieved,
              Memory.up_to limit (filtered retrieved) `sublist_of` retrieved
              /\ (forall u, user = Some u -> u <> "" ->
                  Forall (fun d => metadata d !! "user_id" = Some (MStr u))
                    (Memory.up_to limit (filtered retrieved)))
              /\ (forall n, top_k = Some n -> 0 < n ->
                  Z.of_nat (length (Memory.up_to limit (filtered retrieved))) <= n)
              /\ (top_k = None \/ top_k = Some 0 -> 0 <= Memory.k self ->
                  Z.of_nat (length (Memory.up_to limit (filtered retrieved)))
                  <= Memory.k self)
              /\ (user = None \/ user = Some "" ->
                  forall n, top_k = Some n -> Z.of_nat (length retrieved) <= n ->
                  Memory.up_to limit (filtered retrieved) = retrieved)) as Hfacts.
    { intros retrieved. split; [|split; [|split; [|split]]].
      - etrans; [apply up_to_sublist|]. unfold filtered.
        destruct user as [u|]; [|reflexivity].
        destruct (String.eqb u ""); [reflexivity | apply filter_sublist].
      - intros u -> Hu. unfold filtered. apply String.eqb_neq in Hu. rewrite Hu.
        apply Forall_forall. intros d Hd.
        assert (d ∈ List.filter
                  (fun doc => match metadata doc !! "user_id" with
                              | Some (MStr owner) => String.eqb owner u
                              | _ => false
                              end) retrieved) as Hin.
        { eapply elem_of_sublist; [exact Hd | apply up_to_sublist]. }
        apply list_elem_of_In, filter_In in Hin as [_ Hm].
        destruct (metadata d !! "user_id") as [[owner| |]|]; try discriminate.
        apply String.eqb_eq in Hm. by subst.
      - intros n -> Hn. unfold limit.
        assert ((n =? 0) = false) as -> by lia. apply up_to_length. lia.
      - intros Hk Hpos.
        assert (limit = Memory.k self) as ->
          by (unfold limit; destruct Hk as [-> | ->]; reflexivity).
        by apply up_to_length.
      - intros Hu n -> Hn.
        assert (filtered retrieved = retrieved) as ->
          by (unfold filtered; destruct Hu as [-> | ->]; reflexivity).
        unfold limit, Memory.up_to. clear limit.
        destruct (Z.eqb_spec n 0) as [En|Hn0]; [rewrite En in Hn|].
        + assert (retrieved = []) as -> by (destruct retrieved; [reflexivity | cbn in Hn; lia]).
          destruct (0 <=? Memory.k self); by rewrite take_nil.
        + assert ((0 <=? n) = true) as -> by lia.
          apply take_ge. lia. }
    destruct (Retriever.invoke retriever query) as [retrieved| |e] eqn:Einv.
    + intros [= <-]. exists retrieved. split; [by left|]. apply Hfacts.
    + destruct (Retriever.get_relevant_documents retriever query) as [retrieved|e] eqn:Eget;
        [|discriminate].
      intros [= <-]. exists retrieved. split; [right; by split|]. apply Hfacts.
    + discriminate.
Qed.

End SearchFacts.
(** ** The sensor monitor *)

Module SensorFacts.
Import Sensors.

Lemma on_message_read self decoded metrics :
  metrics_of decoded = Some metrics ->
  _on_message self decoded
  = {| current_heart_rate := metric "heart_rate" metrics;
       current_steps := metric "steps" metrics;
       current_sleep := Some (metric "sleep" metrics) |}.
Proof.
  unfold metrics_of, _on_message.
  destruct decoded as [[| | | | |items]|]; try discriminate.
  cbn [PyJson.get]. destruct (PyJson.assoc "metrics" items) as [[| | | | |ms]|];
    try discriminate; intros [= <-]; reflexivity.
Qed.

Lemma on_message_skipped self decoded :
  metrics_of decoded = None -> _on_message self decoded = self.
Proof.
  unfold metrics_of, _on_message.
  destruct decoded as [[| | | | |items]|]; try reflexivity.
  cbn [PyJson.get]. destruct (PyJson.assoc "metrics" items) as [[| | | | |ms]|];
    try discriminate; reflexivity.
Qed.

Lemma skipped_all self messages :
  Forall (fun m => metrics_of m = None) messages ->
  foldl _on_message self messages = self.
Proof.
  intros Hall. revert self. induction Hall as [|m rest Hm _ IH]; intros self; [reflexivity|].
  cbn [foldl]. rewrite on_message_skipped by assumption. apply IH.
Qed.

Lemma latest_none self messages :
  get_latest_data (foldl _on_message self messages) = None
  <-> get_latest_data self = None /\ Forall (fun m => metrics_of m = None) messages.
Proof.
  revert self. induction messages as [|m rest IH]; intros self; cbn [foldl].
  - split; [intros Hn; split; [exact Hn | constructor] | tauto].
  - rewrite IH. destruct (metrics_of m) as [metrics|] eqn:Em.
    + rewrite (on_message_read _ _ _ Em). split.
      * intros [Hn _]. discriminate.
      * intros [_ Hall]. apply Forall_cons_1 in Hall as [Hm _]. congruence.
    + rewrite on_message_skipped by assumption. split.
      * intros [Hn Hall]. split; [exact Hn | by constructor].
      * intros [Hn Hall]. apply Forall_cons_1 in Hall as [_ Hall]. auto.
Qed.

(** What the monitor answers after a sequence of messages, starting
    from its initial state.  [get_latest_data] raises
    ([current_sleep] was never assigned) exactly as long as no message
    was read to the end: undecodable payloads, payloads that are not
    JSON objects and payloads whose [metrics] is not an object leave
    the monitor as it was.  Once one was, it returns the three metrics
    of the last such message, all from that one message, a missing
    metric reading as [None]. *)
Theorem latest_data_after_messages (messages : list (option Json)) :
  let monitor := foldl _on_message init messages in
  (get_latest_data monitor = None
   <-> Forall (fun m => metrics_of m = None) messages)
  /\ (forall before m after metrics,
        messages = before ++ m :: after ->
        metrics_of m = Some metrics ->
        Forall (fun m' => metrics_of m' = None) after ->
        get_latest_data monitor
        = Some (metric "heart_rate" metrics, metric "steps" metrics,
                metric "sleep" metrics)).
Proof.
  cbv zeta. split.
  - rewrite latest_none. split; [tauto | intros Hall; split; [reflexivity | exact Hall]].
  - intros before m after metrics -> Hm Hafter.
    rewrite foldl_app. cbn [foldl]. rewrite skipped_all by assumption.
    rewrite (on_message_read _ _ _ Hm). reflexivity.
Qed.

End SensorFacts.
(** ** The publisher *)

Section PublisherFacts.
Context `{Runtime} `{Collaborators}.

(** [publish] never raises, whatever the MQTT client does.  A publisher
    that is not available does nothing at all.  An available one reads
    the clock once and hands the client one message, which carries the
    event, the reminder as [to_payload] gives it, the time of
    publication and the origin identity; the message is in the outbox
    unless the client raised.  Neither the database nor the memory is
    touched. *)
Theorem publish_never_raises (p : ReminderMQTTPublisher) (reminder : Reminder)
    (event : string) (w : World) :
  let msg :=
    {| Wire.event := Some event;
       Wire.reminder := Some (to_payload reminder);
       Wire.published_at := Some (isoformat (utc_clock (ticks w)));
       Wire.source := Some (source p) |} in
  exists w',
    publish p reminder event w = (w', Return tt)
    /\ db w' = db w /\ timeline w' = timeline w
    /\ (available p = false -> w' = w)
    /\ (available p = true ->
        ticks w' = S (ticks w)
        /\ outbox w' = match mqtt_publish_error msg with
                       | Some _ => outbox w
                       | None => outbox w ++ [msg]
                       end).
Proof.
  cbv zeta. unfold publish. destruct (available p); cbn [negb].
  - run. unfold utcnow, try_except, client_publish. cbn [ticks set_ticks].
    destruct (mqtt_publish_error _); eexists; (split; [reflexivity|]);
      cbn; repeat split; discriminate.
  - exists w. run. repeat split; discriminate.
Qed.

Lemma publish_unavailable p reminder event w :
  available p = false -> publish p reminder event w = (w, Return tt).
Proof. intros Hp. unfold publish. rewrite Hp. reflexivity. Qed.

Lemma create_reminder_offline self p content user severity due_time repeat_rule tags w :
  publisher self = Some p -> available p = false ->
  create_reminder self content user severity due_time repeat_rule tags w
  = create_reminder {| publisher := None |} content user severity due_time repeat_rule
      tags w.
Proof.
  intros Hself Hp. unfold create_reminder. rewrite Hself. cbn [publisher]. run.
  unfold utcnow. cbn.
  repeat match goal with
         | |- context [from_row ?i ?o ?w0] => destruct (from_row i o w0) as [? [?|?]]
         | |- context [log_reminder_event ?u ?i ?s ?n ?w0] =>
             destruct (log_reminder_event u i s n w0) as [? [[]|?]]
         end; try reflexivity.
  rewrite publish_unavailable by assumption. reflexivity.
Qed.

Lemma update_status_offline self p i status note user propagate w :
  publisher self = Some p -> available p = false ->
  update_status self i status note user propagate w
  = update_status {| publisher := None |} i status note user propagate w.
Proof.
  intros Hself Hp. unfold update_status. rewrite Hself. cbn [publisher]. run. cbn.
  repeat match goal with
         | |- context [from_row ?j ?o ?w0] => destruct (from_row j o w0) as [? [?|?]]
         | |- context [log_reminder_event ?u ?j ?s ?n ?w0] =>
             destruct (log_reminder_event u j s n w0) as [? [[]|?]]
         end; try reflexivity.
  destruct propagate; [|reflexivity].
  rewrite publish_unavailable by assumption. reflexivity.
Qed.

Lemma for_each_ext {A : Type} (f g : A -> M unit) (l : list A) (w : World) :
  (forall x w0, f x w0 = g x w0) -> for_each f l w = for_each g l w.
Proof.
  intros Hfg. revert w. induction l as [|x l IH]; intros w; [reflexivity|].
  cbn [for_each]. run. rewrite Hfg. destruct (g x w) as [w1 [[]|e]]; [apply IH|reflexivity].
Qed.

(** Local mode.  A manager built with MQTT enabled whose connection to
    the broker failed behaves, in every operation on reminders, exactly
    like a manager built with MQTT disabled: same results, same
    database, same memory, nothing published, not even the clock is
    read for a message.  The publisher never reconnects. *)
Theorem failed_connection_is_local_mode (origin : string) (e : exn) :
  let self := new_manager true origin (Some e) in
  let offline := new_manager false origin None in
  (forall content user severity due_time repeat_rule tags w,
     create_reminder self content user severity due_time repeat_rule tags w
     = create_reminder offline content user severity due_time repeat_rule tags w)
  /\ (forall i status note user propagate w,
        update_status self i status note user propagate w
        = update_status offline i status note user propagate w)
  /\ (forall now w,
        trigger_due_reminders self now w = trigger_due_reminders offline now w).
Proof.
  cbv zeta. split; [|split].
  - intros. by eapply create_reminder_offline.
  - intros. by eapply update_status_offline.
  - intros now w. unfold trigger_due_reminders. run. unfold utcnow.
    destruct now as [t|]; cbv beta iota;
      (erewrite for_each_ext; [reflexivity|]);
      intros x w0; run; erewrite update_status_offline; reflexivity.
Qed.

End PublisherFacts.
(** ** Synchronisation between devices *)

Section PeerFacts.
Context `{Runtime}.

Lemma with_status_none s : with_status None s = s.
Proof. reflexivity. Qed.

(** What a message does to the database depends on the message alone:
    it overwrites the status of one row, or it changes nothing. *)
Lemma on_message_change `{Collaborators} (self : ReminderSync) (decoded : option Wire.message) :
  exists change,
    forall w,
      _on_message self decoded w
      = (fst (_on_message self decoded w), Return tt)
      /\ db (fst (_on_message self decoded w)) = with_status change (db w).
Proof.
  unfold _on_message. destruct decoded as [msg|]; [|by exists None].
  case_bool_decide; [by exists None|].
  destruct (Wire.event msg) as [ev|]; [|by exists None].
  destruct (Wire.id _) as [rid|]; [|by exists None].
  destruct (bool_decide (ev ∈ status_events) && negb (rid =? 0)); [|by exists None].
  eexists (Some (rid, _)). intros w. rewrite guarded_update_returns. cbn [fst].
  split; [reflexivity | apply update_status_db].
Qed.


(** A message that is delivered twice (MQTT redelivers) leaves the
    database as one delivery does. *)
Theorem on_message_replay `{Collaborators} (self : ReminderSync)
    (decoded : option Wire.message) (w : World) :
  db (fst (_on_message self decoded (fst (_on_message self decoded w))))
  = db (fst (_on_message self decoded w)).
Proof.
  destruct (on_message_change self decoded) as [change Hchange].
  rewrite !(proj2 (Hchange _)).
  destruct change as [[rid status]|]; [|reflexivity].
  cbn [with_status reminders sqlite_sequence]. f_equal.
  apply map_eq. intros i. destruct (decide (i = rid)) as [->|Hne].
  - rewrite !lookup_alter_eq. by destruct (reminders (db w) !! rid).
  - by rewrite !lookup_alter_ne by congruence.
Qed.

Lemma update_status_published `{Collaborators} self p i status note user r w :
  memory_accepts -> broker_accepts ->
  publisher self = Some p -> available p = true ->
  reminders (db w) !! i = Some r ->
  exists w' now,
    update_status self i status note user true w
    = (w', Return {| id := i; cols := ReminderRow.set_status status r |})
    /\ outbox w'
       = outbox w ++ [published (source p) status
                        {| id := i; cols := ReminderRow.set_status status r |} now].
Proof.
  intros Hacc Hbroker Hself Hp Hr.
  unfold update_status. run. unfold from_row. cbn [db set_db reminders].
  rewrite lookup_alter_eq, Hr. cbn [fmap option_fmap option_map]. run.
  match goal with
  | |- context [log_reminder_event ?u ?j ?s ?n ?w0] =>
      destruct (log_reminder_event_accepted u j s n w0 Hacc) as [doc ->]
  end.
  rewrite Hself. unfold publish. rewrite Hp. cbn [negb]. run.
  unfold utcnow, try_except, client_publish. cbn [ticks set_ticks set_timeline].
  rewrite Hbroker. cbn.
  eexists _, _. split; reflexivity.
Qed.

Lemma create_reminder_published `{Collaborators} self p content user severity due_time
    repeat_rule tags w :
  memory_accepts -> broker_accepts ->
  publisher self = Some p -> available p = true ->
  exists w' created now,
    create_reminder self content user severity due_time repeat_rule tags w
    = (w', Return created)
    /\ outbox w' = outbox w ++ [published (source p) "created" created now].
Proof.
  intros Hacc Hbroker Hself Hp.
  unfold create_reminder. run. unfold utcnow, from_row.
  cbn [db set_db set_ticks ticks reminders].
  rewrite lookup_insert_eq. run. cbn [id].
  match goal with
  | |- context [log_reminder_event ?u ?j ?s ?n ?w0] =>
      destruct (log_reminder_event_accepted u j s n w0 Hacc) as [doc ->]
  end.
  rewrite Hself. unfold publish. rewrite Hp. cbn [negb]. run.
  unfold utcnow, try_except, client_publish. cbn [ticks set_ticks set_timeline].
  rewrite Hbroker. cbn.
  eexists _, _, _. split; reflexivity.
Qed.

(** From one device to another.  When [update_status] succeeds on a
    device whose publisher is connected, for one of the four statuses,
    the message it publishes makes the synchroniser of every device of
    another origin overwrite the status of the row of the same id with
    the same status, without publishing in turn. *)
Theorem status_update_reaches_peer (here there : Collaborators) (self : ReminderManager)
    (p : ReminderMQTTPublisher) (peer : ReminderSync) (i : Z) (status : string)
    (note : option string) (user : string) (r : ReminderRow.t) (w away : World) :
  @memory_accepts here -> @broker_accepts here ->
  publisher self = Some p -> available p = true ->
  reminders (db w) !! i = Some r ->
  status ∈ status_events -> i <> 0 ->
  source_id peer <> source p ->
  exists w' now,
    let updated := {| id := i; cols := ReminderRow.set_status status r |} in
    let msg := published (source p) status updated now in
    @update_status _ here self i status note user true w = (w', Return updated)
    /\ outbox w' = outbox w ++ [msg]
    /\ let away' := fst (@_on_message _ there peer (Some msg) away) in
       db away' = with_status (Some (i, status)) (db away)
       /\ outbox away' = outbox away.
Proof.
  intros Hacc Hbroker Hself Hp Hr Hstatus Hi Hpeer.
  assert (status <> "") as Hne.
  { intros ->. unfold status_events in Hstatus.
    repeat (apply elem_of_cons in Hstatus as [Hstatus|Hstatus]; [discriminate|]).
    by apply elem_of_nil in Hstatus. }
  destruct (@update_status_published here self p i status note user r w
              Hacc Hbroker Hself Hp Hr) as (w' & now & Hrun & Hout).
  exists w', now. cbv zeta. split; [exact Hrun|]. split; [exact Hout|].
  split; [|apply (@on_message_never_publishes _ there)].
  unfold _on_message, published. cbn [Wire.source Wire.event Wire.reminder default].
  rewrite bool_decide_eq_false_2 by congruence.
  cbn [from_option Datatypes.id to_payload Wire.id Wire.status Wire.user_id id cols
       ReminderRow.status ReminderRow.set_status].
  rewrite bool_decide_eq_true_2 by assumption.
  assert ((i =? 0) = false) as -> by lia. cbn [negb andb].
  rewrite guarded_update_returns. cbn [fst]. rewrite update_status_db.
  unfold str_or at 1. apply String.eqb_neq in Hne. rewrite Hne. reflexivity.
Qed.

(** Creations are not synchronised.  The "created" message a device
    publishes for a new reminder is passed over by the synchroniser of
    every device: the world there is left as it was. *)
Theorem created_event_ignored_by_peer (here there : Collaborators) (self : ReminderManager)
    (p : ReminderMQTTPublisher) (content user severity : string)
    (due_time : option due_arg) (repeat_rule : option string)
    (tags : option (list string)) (w : World) :
  @memory_accepts here -> @broker_accepts here ->
  publisher self = Some p -> available p = true ->
  exists w' created now,
    @create_reminder _ here self content user severity due_time repeat_rule tags w
    = (w', Return created)
    /\ outbox w' = outbox w ++ [published (source p) "created" created now]
    /\ forall peer away,
         @_on_message _ there peer
           (Some (published (source p) "created" created now)) away
         = (away, Return tt).
Proof.
  intros Hacc Hbroker Hself Hp.
  destruct (@create_reminder_published here self p content user severity due_time
              repeat_rule tags w Hacc Hbroker Hself Hp) as (w' & created & now & Hrun & Hout).
  exists w', created, now. split; [exact Hrun|]. split; [exact Hout|].
  intros peer away. unfold _on_message, published.
  cbn [Wire.source Wire.event Wire.reminder default].
  case_bool_decide; [reflexivity|].
  cbn [from_option Datatypes.id to_payload Wire.id id].
  rewrite bool_decide_eq_false_2; [reflexivity|].
  unfold status_events. intros Hin.
  repeat (apply elem_of_cons in Hin as [Hin|Hin]; [discriminate|]).
  by apply elem_of_nil in Hin.
Qed.

End PeerFacts.
(** ** Bounds of the evaluation and the shape of a route result *)

Section RouteShape.
Context `{Runtime} `{Collaborators}.

Lemma apply_group_bounds st acc group cap total count :
  Forall (fun b => 1 <= Table.points b <= cap) group ->
  0 <= cap <= 4 ->
  Z.of_nat (length (snd acc)) <= fst acc <= 4 * Z.of_nat (length (snd acc)) ->
  fst acc <= total -> (length (snd acc) <= count)%nat ->
  let acc' := apply_group st acc group in
  Z.of_nat (length (snd acc')) <= fst acc' <= 4 * Z.of_nat (length (snd acc'))
  /\ fst acc' <= total + cap /\ (length (snd acc') <= S count)%nat.
Proof.
  intros Hgroup Hcap Hlen Htotal Hcount. cbv zeta. unfold apply_group, Table.first_match.
  destruct (List.find _ group) as [b|] eqn:Efind.
  - apply find_some in Efind as [Hin _]. apply list_elem_of_In in Hin.
    rewrite Forall_forall in Hgroup. specialize (Hgroup b Hin).
    unfold fire. cbn [fst snd]. rewrite length_app. cbn [length]. lia.
  - lia.
Qed.

(** The score is between 0 and 13, at most five reasons are given, the
    score is zero exactly when no reason is given, and the level is one
    of low, medium and high. *)
Theorem evaluate_bounds (st : State) :
  0 <= score (evaluate st) <= 13
  /\ (length (reasons (evaluate st)) <= 5)%nat
  /\ (score (evaluate st) = 0 <-> reasons (evaluate st) = [])
  /\ level (evaluate st) ∈ ["low"; "medium"; "high"].
Proof.
  assert (Z.of_nat (length (reasons (evaluate st))) <= score (evaluate st)
          <= 4 * Z.of_nat (length (reasons (evaluate st)))
          /\ score (evaluate st) <= 13
          /\ (length (reasons (evaluate st)) <= 5)%nat) as (Hlen & Hmax & Hcount).
  { pose proof (evaluate_as_fold st) as E.
    unfold Table.as_coded, Table.bands in E. cbn [foldl] in E.
    assert (forall acc total count g1 g2 g3 g4 g5 c1 c2 c3 c4 c5,
              Forall (fun b => 1 <= Table.points b <= c1) g1 -> 0 <= c1 <= 4 ->
              Forall (fun b => 1 <= Table.points b <= c2) g2 -> 0 <= c2 <= 4 ->
              Forall (fun b => 1 <= Table.points b <= c3) g3 -> 0 <= c3 <= 4 ->
              Forall (fun b => 1 <= Table.points b <= c4) g4 -> 0 <= c4 <= 4 ->
              Forall (fun b => 1 <= Table.points b <= c5) g5 -> 0 <= c5 <= 4 ->
              Z.of_nat (length (snd acc)) <= fst acc <= 4 * Z.of_nat (length (snd acc)) ->
              fst acc <= total -> (length (snd acc) <= count)%nat ->
              let acc' :=
                apply_group st
                  (apply_group st
                     (apply_group st (apply_group st (apply_group st acc g1) g2) g3) g4)
                  g5 in
              Z.of_nat (length (snd acc')) <= fst acc' <= 4 * Z.of_nat (length (snd acc'))
              /\ fst acc' <= total + c1 + c2 + c3 + c4 + c5
              /\ (length (snd acc') <= 5 + count)%nat) as Hchain.
    { intros acc total count g1 g2 g3 g4 g5 c1 c2 c3 c4 c5
        H1 B1 H2 B2 H3 B3 H4 B4 H5 B5 Hl Ht Hc. cbv zeta.
      destruct (apply_group_bounds st acc g1 c1 total count H1 B1 Hl Ht Hc)
        as (Hl1 & Ht1 & Hc1).
      destruct (apply_group_bounds st _ g2 c2 _ _ H2 B2 Hl1 Ht1 Hc1) as (Hl2 & Ht2 & Hc2).
      destruct (apply_group_bounds st _ g3 c3 _ _ H3 B3 Hl2 Ht2 Hc2) as (Hl3 & Ht3 & Hc3).
      destruct (apply_group_bounds st _ g4 c4 _ _ H4 B4 Hl3 Ht3 Hc3) as (Hl4 & Ht4 & Hc4).
      destruct (apply_group_bounds st _ g5 c5 _ _ H5 B5 Hl4 Ht4 Hc4) as (Hl5 & Ht5 & Hc5).
      split; [exact Hl5|]. split; [exact Ht5 | lia]. }
    specialize (Hchain (0, []) 0 0%nat
                  [Table.hot; Table.warm; Table.cold] [Table.humid] [Table.warned]
                  [Table.fast_heart; Table.slow_heart true] [Table.short_sleep true]
                  4 1 3 3 2).
    rewrite <- E in Hchain. cbn [fst snd length] in Hchain.
    apply Hchain; try lia; repeat constructor; cbn; lia. }
  split; [lia|]. split; [exact Hcount|]. split.
  - split.
    + intros Hz. destruct (reasons (evaluate st)); [reflexivity | cbn [length] in Hlen; lia].
    + intros Hnil. rewrite Hnil in Hlen. cbn [length] in Hlen. lia.
  - unfold evaluate. cbn [level].
    match goal with
    | |- (if ?a then _ else if ?b then _ else _) ∈ _ => destruct a; [|destruct b]
    end; rewrite !elem_of_cons; auto.
Qed.

Lemma run_shape self evaluation st w w' result :
  run self evaluation st w = (w', Return result) ->
  RouteResult.route result = "macro"
  /\ RouteResult.risk_level result = level evaluation
  /\ is_Some (RouteResult.reminder_ids result)
  /\ RouteResult.evidence result = None.
Proof.
  unfold run. run.
  destruct (heat_condition st).
  - destruct (_heat_macro self (get_user_id st) w) as [w1 [m1|e]]; [|discriminate].
    destruct (sleep_condition st).
    + destruct (_sleep_macro self (get_user_id st) w1) as [w2 [m2|e]]; [|discriminate].
      intros [= _ <-]. cbn. eauto.
    + intros [= _ <-]. cbn. eauto.
  - destruct (sleep_condition st).
    + destruct (_sleep_macro self (get_user_id st) w) as [w2 [m2|e]]; [|discriminate].
      intros [= _ <-]. cbn. eauto.
    + intros [= _ <-]. cbn. eauto.
Qed.

Lemma rag_path_frame evaluation st w :
  fst (_run_rag_path evaluation st w) = w
  /\ forall result,
       snd (_run_rag_path evaluation st w) = Return result ->
       RouteResult.route result = "rag"
       /\ RouteResult.risk_level result = level evaluation
       /\ RouteResult.reminder_ids result = None
       /\ exists payload, RouteResult.evidence result = Some (PromptContext payload).
Proof.
  unfold _run_rag_path. run.
  destruct (retrieve st (get_user_id st) (timeline w)) as [context|e]; cbn [fst snd].
  - unfold try_except. run. destruct (llm_invoke _) as [response|exc]; cbn [fst snd];
      (split; [reflexivity|]); intros result [= <-]; cbn; eauto.
  - split; [reflexivity|]. discriminate.
Qed.

(** The result [route] returns names its route after the evaluated
    level (macro on high, rag on medium, template on low) and carries
    that level; [reminder_ids] is present on the macro route only and
    [evidence] on the two others only.  Below the high level [route]
    creates and changes no reminder and publishes nothing, whether it
    returns or raises. *)
Theorem route_follows_level (self : ReminderManager) (st : State) (w : World) :
  (forall w' result,
     route self st w = (w', Return result) ->
     RouteResult.risk_level result = level (evaluate st)
     /\ RouteResult.route result = route_of_level (level (evaluate st))
     /\ (is_Some (RouteResult.reminder_ids result) <-> level (evaluate st) = "high")
     /\ (is_Some (RouteResult.evidence result) <-> level (evaluate st) <> "high"))
  /\ (level (evaluate st) <> "high" ->
      db (fst (route self st w)) = db w /\ outbox (fst (route self st w)) = outbox w).
Proof.
  split.
  - intros w' result. rewrite route_eq. run.
    destruct (log_request st w) as [w1 [[]|e1]]; [|discriminate].
    destruct (dispatch self (evaluate st) st w1) as [w2 [res|e2]] eqn:Edis; [|discriminate].
    destruct (log_result st res w2) as [w3 [[]|e3]]; [|discriminate].
    intros [= _ <-]. unfold dispatch in Edis. unfold route_of_level.
    destruct (String.eqb_spec (level (evaluate st)) "high") as [Hhigh|Hhigh].
    + apply run_shape in Edis as (Hroute & Hlevel & Hids & Hev).
      rewrite Hroute, Hlevel, Hev.
      split; [reflexivity|]. split; [reflexivity|]. split; [tauto|].
      split; [intros [x Hx]; discriminate | intros Hn; contradiction].
    + destruct (String.eqb (level (evaluate st)) "medium").
      * destruct (rag_path_frame (evaluate st) st w1) as [_ Hshape].
        rewrite Edis in Hshape.
        destruct (Hshape res eq_refl) as (Hroute & Hlevel & Hids & payload & Hev).
        rewrite Hroute, Hlevel, Hids, Hev.
        split; [reflexivity|]. split; [reflexivity|].
        split; [split; [intros [x Hx]; discriminate | intros Hn; contradiction]|].
        split; eauto.
      * revert Edis. run. intros [= _ <-].
        cbn [_run_template_path RouteResult.route RouteResult.risk_level
             RouteResult.reminder_ids RouteResult.evidence].
        split; [reflexivity|]. split; [reflexivity|].
        split; [split; [intros [x Hx]; discriminate | intros Hn; contradiction]|].
        split; eauto.
  - intros Hlow. apply String.eqb_neq in Hlow. rewrite route_eq. run.
    pose proof (add_event_frame (get_user_id st) (request_content (evaluate st))
                  "routing_request" 1.2%Q {[ "level" := MStr (level (evaluate st)) ]} w)
      as (Hdb1 & Hout1 & _).
    fold (log_request st) in Hdb1, Hout1.
    destruct (log_request st w) as [w1 [[]|e1]]; cbn [fst] in *; [|auto].
    assert (exists o, dispatch self (evaluate st) st w1 = (w1, o)) as [o Edis].
    { unfold dispatch. rewrite Hlow.
      destruct (String.eqb (level (evaluate st)) "medium").
      - destruct (rag_path_frame (evaluate st) st w1) as [Hw _].
        destruct (_run_rag_path (evaluate st) st w1) as [w2 o]. cbn [fst] in Hw.
        subst w2. eauto.
      - run. eauto. }
    rewrite Edis. destruct o as [res|e2]; cbn [fst]; [|auto].
    pose proof (add_event_frame (get_user_id st) (result_content res)
                  "routing_result" 1.0%Q ∅ w1) as (Hdb3 & Hout3 & _).
    fold (log_result st res) in Hdb3, Hout3.
    destruct (log_result st res w1) as [w3 [[]|e3]]; cbn [fst] in *;
      rewrite Hdb3, Hout3; auto.
Qed.

End RouteShape.
(** ** Creation and the sweep, seen from the memory and the broker *)

Section LifecycleFacts.
Context `{Runtime} `{Collaborators}.

(** The lifecycle event of [create_reminder] is not guarded: when the
    memory rejects it, [create_reminder] raises after its [INSERT] is
    committed.  The caller gets no reminder and no id, yet the row is in
    the table, pending, and the next id has moved on; nothing is
    published. *)
Theorem create_reminder_log_failure (self : ReminderManager) (content user severity : string)
    (due_time : option due_arg) (repeat_rule : option string)
    (tags : option (list string)) (w : World) (kept : bool) (e : exn) :
  (forall timeline document, add_documents_result timeline document = AddFailed kept e) ->
  exists w' row,
    create_reminder self content user severity due_time repeat_rule tags w = (w', Raise e)
    /\ reminders (db w') = <[next_rowid (db w) := row]> (reminders (db w))
    /\ ReminderRow.content row = content /\ ReminderRow.user_id row = user /\ ReminderRow.status row = "pending"
    /\ next_rowid (db w') = next_rowid (db w) + 1
    /\ outbox w' = outbox w.
Proof.
  intros Hfail. unfold create_reminder. run. unfold utcnow, from_row.
  cbn [db set_db set_ticks ticks reminders].
  rewrite lookup_insert_eq. run. cbn [id].
  unfold log_reminder_event. rewrite add_event_eq. unfold _add_documents.
  rewrite Hfail.
  destruct kept; do 2 eexists; (split; [reflexivity|]);
    cbn [db set_db set_ticks set_timeline reminders outbox];
    (split; [reflexivity|]); cbn [ReminderRow.content ReminderRow.user_id ReminderRow.status];
    do 3 (split; [reflexivity|]); (split; [|reflexivity]);
    apply (next_rowid_insert (db w)).
Qed.

Lemma update_status_announced self p i status user r w :
  memory_accepts -> broker_accepts ->
  publisher self = Some p -> available p = true ->
  reminders (db w) !! i = Some r ->
  exists w' msg doc,
    update_status self i status None user true w
    = (w', Return {| id := i; cols := ReminderRow.set_status status r |})
    /\ db w' = with_status (Some (i, status)) (db w)
    /\ outbox w' = outbox w ++ [msg]
    /\ announces (source p) status {| id := i; cols := r |} msg
    /\ timeline w' = timeline w ++ [doc]
    /\ page_content doc = lifecycle_text i status.
Proof.
  intros Hacc Hbroker Hself Hp Hr.
  pose proof (update_status_db self i status None user true w) as Hdb.
  revert Hdb.
  unfold update_status. run. unfold from_row. cbn [db set_db reminders].
  rewrite lookup_alter_eq, Hr. cbn [fmap option_fmap option_map]. run.
  unfold log_reminder_event. rewrite add_event_accepted by assumption.
  rewrite Hself. unfold publish. rewrite Hp. cbn [negb]. run.
  unfold utcnow, try_except, client_publish. cbn [ticks set_ticks set_timeline].
  rewrite Hbroker. cbn [fst]. intros Hdb.
  eexists _, _, _. split; [reflexivity|]. split; [exact Hdb|].
  split; [reflexivity|]. split; [repeat split|]. split; reflexivity.
Qed.

Lemma sweep_loop_announces self p (rs : list Reminder) w :
  memory_accepts -> broker_accepts ->
  publisher self = Some p -> available p = true ->
  NoDup (id <$> rs) ->
  (forall r, r ∈ rs -> reminders (db w) !! id r = Some (cols r)) ->
  exists w' msgs docs,
    for_each (trigger_one self) rs w = (w', Return tt)
    /\ outbox w' = outbox w ++ msgs
    /\ Forall2 (announces (source p) "triggered") rs msgs
    /\ timeline w' = timeline w ++ docs
    /\ page_content <$> docs = (fun r => lifecycle_text (id r) "triggered") <$> rs.
Proof.
  intros Hacc Hbroker Hself Hp. revert w.
  induction rs as [|r rs IH]; intros w Hnd Hrows.
  - exists w, [], []. rewrite !app_nil_r. repeat split; constructor.
  - cbn [fmap list_fmap] in Hnd. apply NoDup_cons in Hnd as [Hfresh Hnd].
    destruct (update_status_announced self p (id r) "triggered" (ReminderRow.user_id (cols r))
                (cols r) w Hacc Hbroker Hself Hp)
      as (w1 & msg & doc & Eup & Hdb & Hout & Hmsg & Htl & Hdoc); [apply Hrows; left|].
    destruct (IH w1 Hnd) as (w' & msgs & docs & Eloop & Hout' & Hall & Htl' & Hdocs).
    { intros r' Hr'. rewrite Hdb. cbn [with_status reminders].
      rewrite lookup_alter_ne.
      - apply Hrows. by right.
      - intros Eid. apply Hfresh. rewrite Eid. apply list_elem_of_fmap. eauto. }
    exists w', (msg :: msgs), (doc :: docs).
    cbn [for_each]. run. unfold trigger_one at 1. run. rewrite Eup, Eloop.
    split; [reflexivity|]. split; [rewrite Hout', Hout; by rewrite <- app_assoc|].
    split; [constructor; [|exact Hall]; by destruct r|].
    split; [rewrite Htl', Htl; by rewrite <- app_assoc|].
    cbn [fmap list_fmap]. by rewrite Hdoc, Hdocs.
Qed.

(** With a connected publisher, a memory and a broker that accept what
    they are sent, the sweep announces every reminder it returns, in
    the order of the list it returns: for each of them one "triggered"
    message, carrying the reminder with its new status and the origin
    of this device, is handed to the broker, and one lifecycle event is
    written to the memory.  Nothing else is published or logged. *)
Theorem sweep_announces_each (self : ReminderManager) (p : ReminderMQTTPublisher)
    (now : Z) (w : World) :
  memory_accepts -> broker_accepts ->
  publisher self = Some p -> available p = true ->
  exists w1 due msgs docs,
    trigger_due_reminders self (Some now) w = (w1, Return due)
    /\ outbox w1 = outbox w ++ msgs
    /\ Forall2 (announces (source p) "triggered") due msgs
    /\ timeline w1 = timeline w ++ docs
    /\ page_content <$> docs = (fun r => lifecycle_text (id r) "triggered") <$> due.
Proof.
  intros Hacc Hbroker Hself Hp.
  set (rows := select_where (is_due (isoformat now)) (db w)).
  destruct (sweep_loop_announces self p (as_reminder <$> rows) w Hacc Hbroker Hself Hp)
    as (w1 & msgs & docs & Eloop & Hout & Hall & Htl & Hdocs).
  { rewrite <- list_fmap_compose. apply select_where_ids_NoDup. }
  { intros r [[i x] [-> Hin]]%list_elem_of_fmap.
    apply select_where_elem in Hin as [Hx _]. exact Hx. }
  exists w1, (as_reminder <$> rows), msgs, docs.
  split; [|auto].
  unfold trigger_due_reminders. run.
  change (for_each _ _ w) with (for_each (trigger_one self) (as_reminder <$> rows) w).
  rewrite Eloop. reflexivity.
Qed.

End LifecycleFacts.
(** ** Reminders without a due time in the listing *)

Section UndatedFacts.

Lemma day_then_space (a b : Datetime.t) :
  Datetime.valid a -> Datetime.valid b ->
  String.compare (Datetime.sqlite_text a) (Datetime.isoformat b)
  = Datetime.lex (day_compare a b) Lt.
Proof.
  intros (Hy & Hm & Hd & _) (Hy' & Hm' & Hd' & _).
  unfold Datetime.sqlite_text, Datetime.isoformat, day_compare.
  repeat first
    [ rewrite DatetimeFacts.pad_compare by (cbn; lia)
    | rewrite DatetimeFacts.separator_compare ].
  rewrite !DatetimeFacts.append_cons. cbn [String.compare Ascii.compare].
  destruct (Datetime.year a ?= Datetime.year b),
    (Datetime.month a ?= Datetime.month b), (Datetime.day a ?= Datetime.day b);
    reflexivity.
Qed.

(** Where a reminder without a due time stands in the listing.  Its
    sort key is its creation stamp, written [YYYY-MM-DD HH:MM:SS]; the
    key of a reminder with a due time is the ISO text of that time,
    written with a [T].  As texts the first comes before the second
    exactly when its day is the same or an earlier one, whatever the
    hours: a reminder created at 23:00 without a due time is listed
    before a reminder due at 09:00 that day. *)
Theorem undated_listed_by_day (status user : option string) (w : World)
    (listed : list Reminder) (m n : nat) (a b : Reminder) (created due : Datetime.t) :
  Datetime.valid created -> Datetime.valid due ->
  list_reminders status user w = (w, Return listed) ->
  listed !! m = Some a -> listed !! n = Some b ->
  ReminderRow.due_time (cols a) = None ->
  ReminderRow.created_at (cols a) = Datetime.sqlite_text created ->
  ReminderRow.due_time (cols b) = Some (Datetime.isoformat due) ->
  (m < n)%nat <-> day_compare created due <> Gt.
Proof.
  intros Hcreated Hdue Hlist Ha Hb Hnone Hstamp Htime.
  pose proof (day_then_space created due Hcreated Hdue) as Hcmp.
  assert (order_key (cols a) = Datetime.sqlite_text created) as Ka
    by (unfold order_key; by rewrite Hnone, Hstamp).
  assert (order_key (cols b) = Datetime.isoformat due) as Kb
    by (unfold order_key; by rewrite Htime).
  split.
  - intros Hmn Hgt.
    pose proof (listed_in_order status user w listed m n a b Hlist ltac:(lia) Ha Hb) as Hle.
    rewrite Ka, Kb in Hle. unfold String.leb in Hle. rewrite Hcmp, Hgt in Hle.
    cbn in Hle. discriminate.
  - intros Hday. destruct (decide (m < n)%nat) as [|Hnm]; [assumption|exfalso].
    pose proof (listed_in_order status user w listed n m b a Hlist ltac:(lia) Hb Ha) as Hle.
    rewrite Ka, Kb in Hle. unfold String.leb in Hle.
    rewrite String.compare_antisym, Hcmp in Hle.
    destruct (day_compare created due); cbn in Hle; congruence.
Qed.

End UndatedFacts.
(** ** From the route to the outgoing payload *)

Section RoutePayload.
Context `{Runtime} `{Collaborators} `{TextRuntime}.

Lemma pair_stored (w w' : World) (r1 r2 : ReminderRow.t) :
  db w' = {| reminders := <[next_rowid (db w) + 1 := r2]>
                            (<[next_rowid (db w) := r1]> (reminders (db w)));
             sqlite_sequence := next_rowid (db w) + 1 |} ->
  ReminderRow.status r1 = "pending" -> ReminderRow.status r2 = "pending" ->
  stored_pending w' [ {| id := next_rowid (db w); cols := r1 |};
                      {| id := next_rowid (db w) + 1; cols := r2 |} ]
  /\ (forall i r, reminders (db w) !! i = Some r -> reminders (db w') !! i = Some r)
  /\ (forall i r, reminders (db w) !! i = Some r -> i < next_rowid (db w)).
Proof.
  intros Hdb Hp1 Hp2. split; [split|split].
  - cbn [fmap list_fmap id]. repeat constructor; rewrite ?elem_of_cons, ?elem_of_nil; lia.
  - rewrite Hdb. cbn [reminders]. repeat constructor; cbn [id cols]; try assumption.
    + rewrite lookup_insert_ne by lia. apply lookup_insert_eq.
    + apply lookup_insert_eq.
  - intros i r Hr. pose proof (next_rowid_above _ _ _ Hr).
    rewrite Hdb. cbn [reminders]. by rewrite !lookup_insert_ne by lia.
  - intros i r Hr. by apply (next_rowid_above _ _ _ Hr).
Qed.

Lemma stored_pending_app w rs1 rs2 :
  stored_pending w rs1 -> stored_pending w rs2 ->
  (forall r1 r2, r1 ∈ rs1 -> r2 ∈ rs2 -> id r1 <> id r2) ->
  stored_pending w (rs1 ++ rs2).
Proof.
  intros [Hnd1 Hall1] [Hnd2 Hall2] Hdisj. split.
  - rewrite fmap_app. apply NoDup_app. split; [exact Hnd1|]. split; [|exact Hnd2].
    intros i [r1 [-> Hr1]]%list_elem_of_fmap [r2 [E Hr2]]%list_elem_of_fmap.
    by apply (Hdisj r1 r2).
  - by apply Forall_app.
Qed.

(** The reminders whose ids the macro path returns are the rows it
    created. *)
Lemma run_ids_stored self evaluation st w w' result :
  memory_accepts ->
  run self evaluation st w = (w', Return result) ->
  exists rs, RouteResult.reminder_ids result = Some (id <$> rs) /\ stored_pending w' rs.
Proof.
  intros Hacc. unfold run. run.
  destruct (heat_condition st).
  - destruct (heat_macro_accepted self (get_user_id st) w Hacc)
      as (w1 & r1 & r2 & -> & Hdb1 & _ & P1 & P2).
    destruct (pair_stored w w1 r1 r2 Hdb1) as (Hs1 & _ & _);
      [apply P1 | apply P2 |].
    destruct (sleep_condition st).
    + destruct (sleep_macro_accepted self (get_user_id st) w1 Hacc)
        as (w2 & r3 & r4 & evening & -> & Hdb2 & _ & _ & P3 & P4).
      destruct (pair_stored w1 w2 r3 r4 Hdb2) as (Hs2 & Hkeep & Habove);
        [apply P3 | apply P4 |].
      intros [= <- <-].
      exists ([ {| id := next_rowid (db w); cols := r1 |};
                {| id := next_rowid (db w) + 1; cols := r2 |} ]
              ++ [ {| id := next_rowid (db w1); cols := r3 |};
                   {| id := next_rowid (db w1) + 1; cols := r4 |} ]).
      split; [reflexivity|].
      apply stored_pending_app.
      * destruct Hs1 as [Hnd Hall]. split; [exact Hnd|].
        eapply Forall_impl; [exact Hall|]. cbn beta. intros r [Hr Hp]. auto.
      * exact Hs2.
      * intros x y Hx Hy. destruct Hs1 as [_ Hall]. rewrite Forall_forall in Hall.
        destruct (Hall x Hx) as [Hrow _]. apply Habove in Hrow.
        rewrite !elem_of_cons, elem_of_nil in Hy.
        destruct Hy as [->|[->|[]]]; cbn [id]; lia.
    + intros [= <- <-].
      exists [ {| id := next_rowid (db w); cols := r1 |};
               {| id := next_rowid (db w) + 1; cols := r2 |} ].
      split; [reflexivity | exact Hs1].
  - destruct (sleep_condition st).
    + destruct (sleep_macro_accepted self (get_user_id st) w Hacc)
        as (w2 & r3 & r4 & evening & -> & Hdb2 & _ & _ & P3 & P4).
      destruct (pair_stored w w2 r3 r4 Hdb2) as (Hs2 & _ & _);
        [apply P3 | apply P4 |].
      intros [= <- <-].
      exists [ {| id := next_rowid (db w); cols := r3 |};
               {| id := next_rowid (db w) + 1; cols := r4 |} ].
      split; [reflexivity | exact Hs2].
    + intros [= <- <-]. exists []. split; [reflexivity|].
      split; constructor.
Qed.

(** From the route to the payload.  When [route] has returned, with a
    memory that accepts every write, the payload built from its result
    lists the reminders this request created and no other: one entry
    for each id of [reminder_ids], each pending.  Below the high level
    the list is empty. *)
Theorem routed_reminders_in_payload (manager_error : option exn) (self : ReminderManager)
    (st : State) (mgr : option ReminderManager) (w w' : World) (result : RouteResult.t) :
  memory_accepts ->
  is_Some mgr \/ manager_error = None ->
  route self st w = (w', Return result) ->
  exists payload,
    build_mqtt_payload manager_error result st mgr w' = (w', Return payload)
    /\ Entry.id <$> Outgoing.reminders payload
       ≡ₚ default [] (RouteResult.reminder_ids result)
    /\ Forall (fun e => Entry.status e = "pending") (Outgoing.reminders payload)
    /\ (level (evaluate st) <> "high" -> Outgoing.reminders payload = []).
Proof.
  intros Hacc Hmgr. rewrite route_eq. run.
  destruct (log_request st w) as [w1 [[]|e1]]; [|discriminate].
  destruct (dispatch self (evaluate st) st w1) as [w2 [res|e2]] eqn:Edis; [|discriminate].
  pose proof (add_event_frame (get_user_id st) (result_content res)
                "routing_result" 1.0%Q ∅ w2) as (Hdb3 & _).
  fold (log_result st res) in Hdb3.
  destruct (log_result st res w2) as [w3 [[]|e3]]; [|discriminate].
  cbn [fst] in Hdb3. intros [= <- <-].
  assert (exists rs, default [] (RouteResult.reminder_ids res) = id <$> rs
                     /\ stored_pending w3 rs
                     /\ (level (evaluate st) <> "high" -> rs = [])) as (rs & Eids & Hs & Hlow).
  { unfold dispatch in Edis.
    destruct (String.eqb_spec (level (evaluate st)) "high") as [Hhigh|Hhigh].
    - destruct (run_ids_stored self (evaluate st) st w1 w2 res Hacc Edis) as (rs & E & Hs).
      exists rs. rewrite E. split; [reflexivity|]. split; [|contradiction].
      unfold stored_pending in *. by rewrite Hdb3.
    - exists []. split; [|split; [split; constructor | reflexivity]].
      destruct (String.eqb (level (evaluate st)) "medium").
      + destruct (rag_path_frame (evaluate st) st w1) as [_ Hshape].
        rewrite Edis in Hshape. destruct (Hshape res eq_refl) as (_ & _ & -> & _).
        reflexivity.
      + revert Edis. run. intros [= _ <-]. reflexivity. }
  destruct rs as [|r0 rs].
  - unfold build_mqtt_payload. rewrite Eids. run. eexists. split; [reflexivity|].
    cbn [Outgoing.reminders fmap list_fmap]. auto.
  - destruct (get_reminders_by_ids_eq (id <$> r0 :: rs) w3) as (found & Eget & Hfound & Hnd).
    erewrite payload_of_ids; [|exact Eids|exact Hmgr|exact Eget].
    eexists. split; [reflexivity|]. cbn [Outgoing.reminders].
    destruct Hs as [Hnd' Hall]. rewrite Forall_forall in Hall.
    assert (forall r, r ∈ found -> r ∈ r0 :: rs) as Hsub.
    { intros [i x] Hin. apply Hfound in Hin as [Hi Hx].
      apply list_elem_of_fmap in Hi as (r & -> & Hr).
      destruct (Hall r Hr) as [Hrow _]. rewrite Hrow in Hx. injection Hx as <-.
      by destruct r. }
    split; [|split].
    + rewrite Eids.
      replace (Entry.id <$> List.map entry_of found) with (id <$> found).
      2:{ clear. induction found as [|r l IH]; [reflexivity|]. cbn. by rewrite IH. }
      apply NoDup_Permutation; [exact Hnd | exact Hnd' |].
      intros i. split.
      * intros (r & -> & Hr)%list_elem_of_fmap. apply list_elem_of_fmap.
        exists r. split; [reflexivity | by apply Hsub].
      * intros (r & -> & Hr)%list_elem_of_fmap. apply list_elem_of_fmap.
        exists r. split; [reflexivity|]. destruct r as [i x]. apply Hfound.
        destruct (Hall _ Hr) as [Hrow _]. split; [|exact Hrow].
        apply list_elem_of_fmap. exists {| id := i; cols := x |}. auto.
    + apply Forall_forall. intros e He.
      apply list_elem_of_In, in_map_iff in He as (r & <- & Hr).
      apply list_elem_of_In, Hsub in Hr. by destruct (Hall r Hr).
    + intros Hlevel. by specialize (Hlow Hlevel).
Qed.

End RoutePayload.
(** ** The tools *)

Section ToolFacts.
Context `{Runtime} `{Collaborators} `{ToolRuntime}.

Lemma lifecycle_document_filed user i status now :
  filed_under "reminder_event" user
    (event_document user (lifecycle_text i status) "reminder_event"
       (if bool_decide (status ∈ ["ignored"; "overdue"]) then 1.5 else 1.0)%Q
       {[ "reminder_id" := MInt i; "status" := MStr status ]} now).
Proof.
  unfold filed_under, event_document. cbn [metadata]. split.
  - rewrite lookup_union_r.
    + rewrite lookup_insert_ne by discriminate. apply lookup_insert_eq.
    + rewrite lookup_insert_ne by discriminate. by rewrite lookup_singleton_ne.
  - rewrite lookup_union_r.
    + apply lookup_insert_eq.
    + rewrite lookup_insert_ne by discriminate. by rewrite lookup_singleton_ne.
Qed.

(** The completion tool.  On a reminder of the table, with a memory
    that accepts the event, [complete_health_reminder] sets the status
    to completed and returns the JSON text of the updated reminder; the
    lifecycle event it writes is filed under the default user, whoever
    the reminder belongs to.  The creation tool stops at a due time it
    cannot parse before anything is written. *)
Theorem complete_tool_files_under_default_user (self : ReminderManager) (i : Z)
    (r : ReminderRow.t) (w : World) :
  memory_accepts ->
  reminders (db w) !! i = Some r ->
  (exists w' doc,
     _complete self i w
     = (w', Return (dumps_payload
                      (to_payload {| id := i; cols := ReminderRow.set_status "completed" r |})))
     /\ reminders (db w') !! i = Some (ReminderRow.set_status "completed" r)
     /\ timeline w' = timeline w ++ [doc]
     /\ page_content doc = lifecycle_text i "completed"
     /\ filed_under "reminder_event" DEFAULT_USER_ID doc)
  /\ (forall content text e,
        text <> "" -> fromisoformat text = Raise e ->
        _create self content (Some text) w = (w, Raise e)).
Proof.
  intros Hacc Hr. split.
  - pose proof (update_status_db self i "completed" None DEFAULT_USER_ID true w) as Hdb.
    revert Hdb. unfold _complete, update_status. run. unfold from_row.
    cbn [db set_db reminders].
    rewrite lookup_alter_eq, Hr. cbn [fmap option_fmap option_map]. run.
    unfold log_reminder_event. rewrite add_event_accepted by assumption.
    fold (lifecycle_text i "completed").
    destruct (publisher self) as [p|].
    + match goal with
      | |- context [publish p ?x ?e ?w0] =>
          destruct (publish_frame p x e w0) as (w2 & -> & _ & Htl & _)
      end.
      cbn [fst]. intros Hdb. eexists _, _. split; [reflexivity|].
      split; [by rewrite Hdb; cbn [reminders]; rewrite lookup_alter_eq, Hr|].
      split; [rewrite Htl; reflexivity|]. split; [reflexivity|].
      apply lifecycle_document_filed.
    + cbn [fst]. intros Hdb. eexists _, _. split; [reflexivity|].
      split; [by rewrite Hdb; cbn [reminders]; rewrite lookup_alter_eq, Hr|].
      split; [reflexivity|]. split; [reflexivity|].
      apply lifecycle_document_filed.
  - intros content text e Hne Hparse. unfold _create. apply String.eqb_neq in Hne.
    rewrite Hne. run. rewrite Hparse. reflexivity.
Qed.

End ToolFacts.
(** ** Retrieval failures on the medium-risk path *)

Section RetrievalFacts.
Context `{Runtime} `{Collaborators}.

(** On the medium-risk path only the call of the chat model is guarded.
    When the retrieval from the memory raises, [_run_rag_path] raises
    that exception without calling the model; [route], at the medium
    level with a memory that accepts its writes, has then logged the
    request, raises the same exception and logs no result. *)
Theorem rag_path_retrieval_failure (self : ReminderManager) (st : State) (e : exn) :
  (forall user timeline, retrieve st user timeline = Raise e) ->
  (forall evaluation w, _run_rag_path evaluation st w = (w, Raise e))
  /\ (level (evaluate st) = "medium" -> memory_accepts ->
      forall w,
        exists w' d,
          route self st w = (w', Raise e)
          /\ timeline w' = timeline w ++ [d]
          /\ logged_as "routing_request" (request_content (evaluate st)) d
          /\ db w' = db w /\ outbox w' = outbox w).
Proof.
  intros Hfail.
  assert (forall evaluation w, _run_rag_path evaluation st w = (w, Raise e)) as Hrag.
  { intros evaluation w. unfold _run_rag_path. run. rewrite Hfail. reflexivity. }
  split; [exact Hrag|].
  intros Hlevel Hacc w. rewrite route_eq. run.
  destruct (log_request st w) as [w1 [[]|e1]] eqn:Hreq.
  - pose proof Hreq as Hlog. unfold log_request in Hlog.
    apply add_event_returned in Hlog as (d & Htl & Hd & Hdb & Hout);
      [|by rewrite lookup_singleton_ne].
    unfold dispatch. rewrite Hlevel. cbn [String.eqb Ascii.eqb Bool.eqb].
    rewrite Hrag. exists w1, d. auto.
  - exfalso. unfold log_request in Hreq. rewrite add_event_accepted in Hreq by assumption.
    discriminate.
Qed.

End RetrievalFacts.

(** ** The further theorems at work on the reference inputs *)

Lemma reliable_broker_accepts : @broker_accepts Sample.reliable.
Proof. intros msg. reflexivity. Defined.

(** The message of the fake chat model is extracted from its JSON text,
    bare or inside a Markdown fence; a text that is not JSON is returned
    as it is. *)
Lemma extract_message_examples :
  _extract_message_text (JStr Desk.fake_answer) = JStr "保持补水与休息，关注近期睡眠"
  /\ _extract_message_text (JStr Desk.fenced_answer) = JStr "保持补水与休息，关注近期睡眠"
  /\ _extract_message_text (JStr base_sentence) = JStr base_sentence.
Proof. split; [|split]; vm_compute; reflexivity. Qed.

(** The hydration reminder created on the reference store shows in the
    payload with its two tags. *)
Lemma created_reminder_in_payload_witness :
  exists w' r,
    @create_reminder Sample.runtime Sample.reliable Home.hub hydration_content
      "user_001" "high" (Some (AtInstant (Sample.morning + minutes 30))) None
      (Some ["heat"; "hydration"]) Home.world = (w', Return r)
    /\ exists payload,
         build_mqtt_payload None
           {| RouteResult.route := "macro"; RouteResult.risk_level := "high";
              RouteResult.message := heat_sentence;
              RouteResult.reminder_ids := Some [id r];
              RouteResult.evidence := None |}
           Snapshots.heatwave None w' = (w', Return payload)
         /\ Entry.tags <$> Outgoing.reminders payload = [ ["heat"; "hydration"] ].
Proof.
  destruct (@created_reminder_in_payload Sample.runtime Sample.reliable Desk.text None
              Home.hub hydration_content "user_001" "high"
              (Some (AtInstant (Sample.morning + minutes 30))) None ["heat"; "hydration"]
              None Snapshots.heatwave Home.world reliable_memory_accepts)
    as (w' & r & Hrun & Hpayload).
  - discriminate.
  - discriminate.
  - repeat constructor; vm_compute; intuition discriminate.
  - right. reflexivity.
  - exists w', r. split; [exact Hrun|].
    destruct (Hpayload {| RouteResult.route := "macro"; RouteResult.risk_level := "high";
                          RouteResult.message := heat_sentence;
                          RouteResult.reminder_ids := Some [id r];
                          RouteResult.evidence := None |} eq_refl)
      as (payload & Hbuild & Hentries).
    exists payload. split; [exact Hbuild|]. rewrite Hentries. reflexivity.
Defined.

(** Completing reminder 1 on the hub reaches the watch, whose store
    holds the same two reminders. *)
Lemma status_update_reaches_peer_witness :
  exists w' msg,
    @update_status Sample.runtime Sample.reliable Home.hub 1 "completed" None
      DEFAULT_USER_ID true Home.world
    = (w', Return {| id := 1; cols := ReminderRow.set_status "completed" Home.pill |})
    /\ outbox w' = [msg]
    /\ reminders (db (fst (@_on_message Sample.runtime Sample.reliable Desk.watch
                             (Some msg) Home.world))) !! 1
       = Some (ReminderRow.set_status "completed" Home.pill).
Proof.
  destruct (@status_update_reaches_peer Sample.runtime Sample.reliable Sample.reliable
              Home.hub {| topic := "ierg6200/health/reminders"; source := "hub";
                          available := true |}
              Desk.watch 1 "completed" None DEFAULT_USER_ID Home.pill Home.world
              Home.world reliable_memory_accepts reliable_broker_accepts)
    as (w' & now & Hrun & Hout & Hdb & _).
  - reflexivity.
  - reflexivity.
  - reflexivity.
  - unfold status_events. rewrite !elem_of_cons. auto.
  - lia.
  - discriminate.
  - eexists w', _. split; [exact Hrun|]. split; [exact Hout|].
    rewrite Hdb. reflexivity.
Defined.

(** The hub creates a reminder; the watch passes the message over. *)
Lemma created_event_ignored_by_peer_witness :
  exists w' created msg,
    @create_reminder Sample.runtime Sample.reliable Home.hub hydration_content
      "user_001" "high" None None None Home.world = (w', Return created)
    /\ outbox w' = [msg]
    /\ Wire.event msg = Some "created"
    /\ @_on_message Sample.runtime Sample.reliable Desk.watch (Some msg) Home.world
       = (Home.world, Return tt).
Proof.
  destruct (@created_event_ignored_by_peer Sample.runtime Sample.reliable Sample.reliable
              Home.hub {| topic := "ierg6200/health/reminders"; source := "hub";
                          available := true |}
              hydration_content "user_001" "high" None None None Home.world
              reliable_memory_accepts reliable_broker_accepts eq_refl eq_refl)
    as (w' & created & now & Hrun & Hout & Hpeer).
  eexists w', created, _. split; [exact Hrun|]. split; [exact Hout|].
  split; [reflexivity | apply Hpeer].
Defined.

(** With the memory down, creating a reminder on the reference store
    raises and leaves row 3 behind. *)
Lemma create_reminder_log_failure_witness :
  exists w' row,
    @create_reminder Sample.runtime Sample.memory_down Home.hub hydration_content
      "user_001" "high" None None None Home.world
    = (w', Raise (ExternalError "Connection error."))
    /\ reminders (db w') !! 3 = Some row
    /\ ReminderRow.content row = hydration_content.
Proof.
  destruct (@create_reminder_log_failure Sample.runtime Sample.memory_down Home.hub
              hydration_content "user_001" "high" None None None Home.world false
              (ExternalError "Connection error."))
    as (w' & row & Hrun & Hdb & Hcontent & _).
  - intros timeline document. reflexivity.
  - exists w', row. split; [exact Hrun|]. split; [|exact Hcontent].
    rewrite Hdb. apply lookup_insert_eq.
Defined.

(** The sweep of 10:30 on the reference store announces reminder 1. *)
Lemma sweep_announces_each_witness :
  exists w1 msg,
    @trigger_due_reminders Sample.runtime Sample.reliable Home.hub (Some Sample.morning)
      Home.world = (w1, Return [ {| id := 1; cols := Home.pill |} ])
    /\ outbox w1 = [msg]
    /\ announces "hub" "triggered" {| id := 1; cols := Home.pill |} msg.
Proof.
  destruct (@sweep_announces_each Sample.runtime Sample.reliable Home.hub
              {| topic := "ierg6200/health/reminders"; source := "hub";
                 available := true |}
              Sample.morning Home.world reliable_memory_accepts reliable_broker_accepts
              eq_refl eq_refl)
    as (w1 & due & msgs & docs & Hrun & Hout & Hall & _).
  assert (due = [ {| id := 1; cols := Home.pill |} ]) as ->.
  { vm_compute in Hrun. injection Hrun as _ <-. reflexivity. }
  inversion Hall as [|r msg rs msgs' Hmsg Hrest]; subst.
  inversion Hrest; subst.
  exists w1, msg. split; [exact Hrun|]. split; [exact Hout | exact Hmsg].
Defined.

(** The diary reminder, created at 23:00 without a due time, is listed
    before the pill due at 09:00 that day. *)
Lemma undated_listed_by_day_witness :
  exists listed,
    list_reminders None None Desk.evening_world = (Desk.evening_world, Return listed)
    /\ listed !! 0%nat = Some {| id := 3; cols := Desk.diary |}
    /\ listed !! 1%nat = Some {| id := 1; cols := Home.pill |}
    /\ day_compare Desk.at_23 Desk.at_09 <> Gt.
Proof.
  exists [ {| id := 3; cols := Desk.diary |}; {| id := 1; cols := Home.pill |};
           {| id := 2; cols := Home.walk |} ].
  split; [vm_compute; reflexivity|]. split; [reflexivity|].
  split; [reflexivity|].
  apply (undated_listed_by_day None None Desk.evening_world
           [ {| id := 3; cols := Desk.diary |}; {| id := 1; cols := Home.pill |};
             {| id := 2; cols := Home.walk |} ] 0 1 {| id := 3; cols := Desk.diary |} {| id := 1; cols := Home.pill |}
           Desk.at_23 Desk.at_09).
  - vm_compute; intuition discriminate.
  - vm_compute; intuition discriminate.
  - vm_compute. reflexivity.
  - reflexivity.
  - reflexivity.
  - reflexivity.
  - reflexivity.
  - reflexivity.
  - lia.
Defined.

(** Scenario A on an empty store: the route creates four reminders and
    the payload lists the four. *)
Lemma routed_reminders_in_payload_witness :
  exists w' result payload,
    @route Sample.runtime Sample.reliable Home.hub Snapshots.heatwave Sample.fresh_world
    = (w', Return result)
    /\ RouteResult.reminder_ids result = Some [1; 2; 3; 4]
    /\ @build_mqtt_payload Sample.runtime Desk.text None result Snapshots.heatwave None w'
       = (w', Return payload)
    /\ length (Outgoing.reminders payload) = 4%nat.
Proof.
  assert (match snd (@route Sample.runtime Sample.reliable Home.hub Snapshots.heatwave
                       Sample.fresh_world) with
          | Return result => RouteResult.reminder_ids result
          | Raise _ => None
          end = Some [1; 2; 3; 4]) as Hids by (vm_compute; reflexivity).
  destruct (@route Sample.runtime Sample.reliable Home.hub Snapshots.heatwave
              Sample.fresh_world) as [w' [result|e]] eqn:Hroute;
    cbn [snd] in Hids; [|discriminate].
  destruct (@routed_reminders_in_payload Sample.runtime Sample.reliable Desk.text None
              Home.hub Snapshots.heatwave None Sample.fresh_world w' result
              reliable_memory_accepts (or_intror eq_refl) Hroute)
    as (payload & Hbuild & Hperm & _).
  exists w', result, payload. split; [reflexivity|]. split; [exact Hids|].
  split; [exact Hbuild|].
  rewrite <- (length_fmap Entry.id), Hperm, Hids. reflexivity.
Defined.

(** Completing the reminder of the second user files the event under
    the default user. *)
Lemma complete_tool_files_under_default_user_witness :
  ReminderRow.user_id Desk.guest_pill = "user_002"
  /\ exists w' doc text,
       @_complete Sample.runtime Sample.reliable Desk.tools Home.hub 1 Desk.guest_world
       = (w', Return text)
       /\ timeline w' = [doc]
       /\ metadata doc !! "user_id" = Some (MStr "user_001").
Proof.
  split; [reflexivity|].
  destruct (@complete_tool_files_under_default_user Sample.runtime Sample.reliable
              Desk.tools Home.hub 1 Desk.guest_pill Desk.guest_world
              reliable_memory_accepts eq_refl)
    as [(w' & doc & Hrun & _ & Htl & _ & _ & Huser) _].
  exists w', doc. eexists. split; [exact Hrun|]. split; [exact Htl | exact Huser].
Defined.

(** With a memory that cannot be searched, the route raises on
    scenario B after logging the request. *)
Lemma rag_path_retrieval_failure_witness :
  level (evaluate Snapshots.muggy) = "medium"
  /\ exists w' d,
       @route Sample.runtime
         Desk.search_down
         Home.hub Snapshots.muggy Sample.fresh_world
       = (w', Raise (ExternalError "Connection error."))
       /\ timeline w' = [d]
       /\ metadata d !! "event_type" = Some (MStr "routing_request").
Proof.
  split; [reflexivity|].
  destruct (@rag_path_retrieval_failure Sample.runtime
              Desk.search_down
              Home.hub Snapshots.muggy (ExternalError "Connection error."))
    as [_ Hroute].
  - reflexivity.
  - destruct (Hroute eq_refl (fun _ _ => eq_refl) Sample.fresh_world)
      as (w' & d & Hrun & Htl & [_ Hkind] & _).
    exists w', d. split; [exact Hrun|]. split; [exact Htl | exact Hkind].
Defined.
